(** * json-schema-viewer: validation extraction, validation badges,
      row rendering and the tree host

    A shallow embedding of

    - [src/components/shared/Validations.tsx] (validation extractor and
      presenter),
    - the [SchemaTree] host component (node-click wiring), and
    - the [SchemaRow] / [SchemaPropertyRow] components (required check,
      combiner selection, error rows),

    followed by the properties proved about them.  The first part of the
    file holds the definitions, the second part the lemmas and theorems. *)

From Stdlib Require Import ZArith String Ascii List Bool Lia.
From Stdlib Require Import Floats.SpecFloat.
From stdpp Require Import base gmap strings.
Import ListNotations.

Local Open Scope string_scope.
Local Open Scope Z_scope.

(* ===================================================================== *)
(** * Part I: definitions                                                  *)
(* ===================================================================== *)

(* --------------------------------------------------------------------- *)
(** ** The JavaScript values the components handle                         *)
(* --------------------------------------------------------------------- *)

Module JS.

(** JavaScript numbers are IEEE-754 binary64 values. *)
Definition prec : Z := 53.
Definition emax : Z := 1024.

Definition number : Type := spec_float.

(** The number denoted by an integer literal (rounded to nearest even). *)
Definition Number_of_Z (z : Z) : number :=
  match z with
  | Z0 => S754_zero false
  | Zpos p => binary_normalize prec emax (Zpos p) 0 false
  | Zneg p => SFopp (binary_normalize prec emax (Zpos p) 0 false)
  end.

(** [2 ** n] for an integer [n]. *)
Definition pow2 (n : Z) : number := SFldexp prec emax (Number_of_Z 1) n.

Definition Number_sub (a b : number) : number := SFsub prec emax a b.

(** [Number.MAX_VALUE] is [(2^53 - 1) * 2^971]. *)
Definition Number_MAX_VALUE : number :=
  binary_normalize prec emax (2 ^ 53 - 1) 971 false.

Definition Number_isNaN (x : number) : bool :=
  match x with S754_nan => true | _ => false end.

Definition Number_isZero (x : number) : bool :=
  match x with S754_zero _ => true | _ => false end.

(** Values: [undefined], [null], booleans, numbers, strings, arrays and
    plain objects.  An object is the list of its own enumerable
    properties in insertion order; when a name occurs twice in the list
    the first binding is the property and the later ones are never
    observed (every operation below goes through [lookup], [Object_keys],
    [set] and [delete]).  Property names that read as array indices,
    which JavaScript enumerates before the others, do not occur among
    the names of validations and are not given a special order. *)
#[warnings="-register-all"]
Inductive value : Type :=
| JUndefined
| JNull
| JBool (b : bool)
| JNum (x : number)
| JStr (s : string)
| JArr (items : list value)
| JObj (props : list (string * value)).

Definition Dictionary : Type := list (string * value).

Fixpoint lookup (k : string) (d : Dictionary) : option value :=
  match d with
  | [] => None
  | (k', v) :: rest => if String.eqb k k' then Some v else lookup k rest
  end.

(** [d[k]]: [undefined] when [d] has no property [k]. *)
Definition get (d : Dictionary) (k : string) : value :=
  match lookup k d with Some v => v | None => JUndefined end.

(** [k in d] for a plain object whose prototype is not consulted. *)
Definition has (d : Dictionary) (k : string) : bool :=
  match lookup k d with Some _ => true | None => false end.

(** [d[k] = v]: overwrite in place, or append a new property. *)
Fixpoint set (k : string) (v : value) (d : Dictionary) : Dictionary :=
  match d with
  | [] => [(k, v)]
  | (k', v') :: rest =>
      if String.eqb k k' then (k, v) :: rest else (k', v') :: set k v rest
  end.

(** [delete d[k]]. *)
Fixpoint delete (k : string) (d : Dictionary) : Dictionary :=
  match d with
  | [] => []
  | (k', v') :: rest =>
      if String.eqb k k' then delete k rest else (k', v') :: delete k rest
  end.

Definition includes (xs : list string) (x : string) : bool :=
  existsb (String.eqb x) xs.

(** First occurrences, in order (also lodash's [uniq] on strings). *)
Fixpoint uniq (xs : list string) : list string :=
  match xs with
  | [] => []
  | x :: rest => x :: List.filter (fun y => negb (String.eqb x y)) (uniq rest)
  end.

Definition Object_keys (d : Dictionary) : list string := uniq (map fst d).

Definition Object_entries (d : Dictionary) : list (string * value) :=
  map (fun k => (k, get d k)) (Object_keys d).

(** [{ ...target, ...source }]: copy the own enumerable properties of
    [source] onto [target], in [source]'s order. *)
Definition spread (target source : Dictionary) : Dictionary :=
  fold_left (fun acc kv => set (fst kv) (snd kv) acc) (Object_entries source) target.

(** [ToBoolean]. *)
Definition truthy (v : value) : bool :=
  match v with
  | JUndefined | JNull => false
  | JBool b => b
  | JNum x => negb (Number_isNaN x || Number_isZero x)
  | JStr s => negb (String.eqb s EmptyString)
  | JArr _ | JObj _ => true
  end.

(** [p === v] where the left operand [p] is a primitive.  Two numbers are
    compared as IEEE values (NaN differs from itself, the two zeros are
    equal); an object or array never equals a primitive. *)
Definition strict_equal (p v : value) : bool :=
  match p, v with
  | JUndefined, JUndefined => true
  | JNull, JNull => true
  | JBool a, JBool b => Bool.eqb a b
  | JNum a, JNum b => SFeqb a b
  | JStr a, JStr b => String.eqb a b
  | _, _ => false
  end.

Definition Array_isArray (v : value) : bool :=
  match v with JArr _ => true | _ => false end.

Fixpoint join (sep : string) (xs : list string) : string :=
  match xs with
  | [] => EmptyString
  | [x] => x
  | x :: rest => x +:+ sep +:+ join sep rest
  end.

(** The parts of the runtime that are taken as given: [Number::toString]
    and [JSON.stringify] (the latter answers [undefined], here [None],
    for [undefined]). *)
Class Runtime : Type := {
  Number_toString : number -> string;
  JSON_stringify : value -> option string
}.

Section WithRuntime.
Context `{Runtime}.

(** The text of [String(v)], which is also the conversion of template
    literals, for a value whose conversion returns.  The conversion of
    an object can end in an exception; [Throwing.ToString] below is the
    conversion with that exception. *)
Fixpoint String (v : value) : string :=
  match v with
  | JUndefined => "undefined"
  | JNull => "null"
  | JBool true => "true"
  | JBool false => "false"
  | JNum x => Number_toString x
  | JStr s => s
  | JArr items =>
      join ","
        (map (fun x => match x with
                       | JUndefined | JNull => EmptyString
                       | _ => String x
                       end) items)
  | JObj _ => "[object Object]"
  end.
End WithRuntime.

(** Decimal rendering of integers, which is what [String] gives for an
    integer-valued array index. *)
Definition digit_of (n : Z) : ascii := ascii_of_nat (48 + Z.to_nat n).

Fixpoint decimal_digits (fuel : nat) (n : Z) (acc : string) : string :=
  match fuel with
  | O => acc
  | S fuel' =>
      let acc' := String.String (digit_of (n mod 10)) acc in
      if n <? 10 then acc' else decimal_digits fuel' (n / 10) acc'
  end.

Definition Z_toString (n : Z) : string :=
  if n <? 0 then "-" +:+ decimal_digits (S (Z.to_nat (Z.log2 (- n)))) (- n) EmptyString
  else decimal_digits (S (Z.to_nat (Z.log2 n))) n EmptyString.

End JS.

(* --------------------------------------------------------------------- *)
(** ** The lodash helpers the presenter uses                               *)
(* --------------------------------------------------------------------- *)

Module Lodash.
Import JS.

(** [pick(object, paths)]: walks [paths] in order and copies the
    properties that exist. *)
Definition pick (object : Dictionary) (paths : list string) : Dictionary :=
  fold_left (fun result path =>
               if has object path then set path (get object path) result
               else result)
            paths [].

(** [omit(object, paths)]: copies the object, then unsets each path. *)
Definition omit (object : Dictionary) (paths : list string) : Dictionary :=
  fold_left (fun result path => delete path result) paths (spread [] object).

(** [pickBy(object, predicate)]: walks the object's keys in order and
    copies the properties whose value satisfies the predicate. *)
Definition pickBy (object : Dictionary) (predicate : value -> bool) : Dictionary :=
  fold_left (fun result key =>
               if predicate (get object key) then set key (get object key) result
               else result)
            (Object_keys object) [].

Definition keys (object : Dictionary) : list string := Object_keys object.

Definition upper (c : ascii) : ascii :=
  let n := nat_of_ascii c in
  if (97 <=? n)%nat && (n <=? 122)%nat then ascii_of_nat (n - 32) else c.

Definition lower (c : ascii) : ascii :=
  let n := nat_of_ascii c in
  if (65 <=? n)%nat && (n <=? 90)%nat then ascii_of_nat (n + 32) else c.

Fixpoint toLowerCase (s : string) : string :=
  match s with
  | EmptyString => EmptyString
  | String.String c rest => String.String (lower c) (toLowerCase rest)
  end.

(** [capitalize]: first character upper case, the rest lower case (on
    the ASCII labels used here). *)
Definition capitalize (s : string) : string :=
  match toLowerCase s with
  | EmptyString => EmptyString
  | String.String c rest => String.String (upper c) rest
  end.

(** [uniq] on strings that may be [undefined]. *)
Fixpoint uniq_opt (xs : list (option string)) : list (option string) :=
  match xs with
  | [] => []
  | x :: rest =>
      x :: List.filter (fun y => negb (bool_decide (x = y))) (uniq_opt rest)
  end.

End Lodash.

(* --------------------------------------------------------------------- *)
(** ** Exceptions and rendered output                                      *)
(* --------------------------------------------------------------------- *)

(** A computation either returns or throws. *)
Inductive result (A : Type) : Type :=
| Ok (a : A)
| Throw (e : string).
Arguments Ok {A} a.
Arguments Throw {A} e.

#[export] Instance result_ret : MRet result := fun A a => Ok a.

#[export] Instance result_bind : MBind result :=
  fun A B k r =>
    match r with
    | Ok a => k a
    | Throw e => Throw e
    end.

(** [try { r } catch { fallback }]. *)
Definition try_catch {A : Type} (r : result A) (fallback : A) : A :=
  match r with
  | Ok a => a
  | Throw _ => fallback
  end.

(** [xs.map(f)] for an [f] that may throw: left to right, the first
    exception aborts the whole traversal. *)
Fixpoint map_throwing {A B : Type} (f : A -> result B) (xs : list A)
  : result (list B) :=
  match xs with
  | [] => Ok []
  | x :: rest => y ← f x; ys ← map_throwing f rest; Ok (y :: ys)
  end.

(** The conversion to a string and [pickBy], with their exceptions. *)
Module Throwing.
Import JS.

Section WithRuntime.
Context `{Runtime}.

(** [String(v)].  An object is converted through its [toString]
    property.  A schema value is never a function, so an own property of
    that name hides the method of [Object.prototype]; the conversion
    then falls back to [valueOf], which answers the object itself, and
    ends in a [TypeError].  An array joins the conversions of its
    elements, [null] and [undefined] giving the empty text. *)
Fixpoint ToString (v : value) : result string :=
  match v with
  | JUndefined => Ok "undefined"
  | JNull => Ok "null"
  | JBool true => Ok "true"
  | JBool false => Ok "false"
  | JNum x => Ok (Number_toString x)
  | JStr s => Ok s
  | JArr items =>
      texts ← (fix elements (xs : list value) : result (list string) :=
                 match xs with
                 | [] => Ok []
                 | x :: rest =>
                     text ← match x with
                            | JUndefined | JNull => Ok EmptyString
                            | _ => ToString x
                            end;
                     texts ← elements rest;
                     Ok (text :: texts)
                 end) items;
      Ok (join "," texts)
  | JObj props =>
      if has props "toString" then Throw "TypeError"
      else Ok "[object Object]"
  end.
End WithRuntime.

(** Whether the conversion of a value returns. *)
Fixpoint convertible (v : value) : bool :=
  match v with
  | JArr items =>
      forallb (fun x => match x with
                        | JUndefined | JNull => true
                        | _ => convertible x
                        end) items
  | JObj props => negb (has props "toString")
  | _ => true
  end.

(** [pickBy(object, predicate)] of lodash for a predicate that may
    throw: the keys are walked in order and the first exception ends the
    walk. *)
Definition pickBy_throwing (object : Dictionary)
  (predicate : value -> result bool) : result Dictionary :=
  fold_left (fun picked key =>
               acc ← picked;
               keep ← predicate (get object key);
               Ok (if keep : bool then set key (get object key) acc else acc))
            (Object_keys object) (Ok []).

End Throwing.

Module React.

(** The properties handed to a component of another module. *)
Inductive PropValue : Type :=
| PBool (b : bool)
| PNumber (n : Z)
| PString (s : string)
| PValue (v : JS.value)
| PDict (d : JS.Dictionary)
| PNode (id : string)
| PItems (items : list (positive * JS.value)).

(** What a component renders to.  Host elements keep their tag, class
    name, inline style and children; a component of another module is
    kept as a node with its name and the properties a caller can
    observe.  React keys and event handlers are not part of the output. *)
#[warnings="-register-all"]
Inductive Element : Type :=
| Text (s : string)
| Host (tag className : string) (style : list (string * string))
       (children : list Element)
| Component (name : string) (props : list (string * PropValue))
            (children : list Element)
| Fragment (children : list Element)
| Null.

(** [cn(base, className)] of the classnames package. *)
Definition cn (base : string) (className : option string) : string :=
  match className with
  | Some c => if String.eqb c EmptyString then base else base +:+ " " +:+ c
  | None => base
  end.

End React.

(* --------------------------------------------------------------------- *)
(** ** components/shared/Validations.tsx                                   *)
(* --------------------------------------------------------------------- *)

Module Validations.
Import JS Lodash Throwing React.

Record ValidationFormat : Type := {
  name : string;
  values : list (option string)
}.

Definition numberValidationNames : list string :=
  ["minimum"; "maximum"; "minLength"; "maxLength"; "minItems"; "maxItems";
   "exclusiveMinimum"; "exclusiveMaximum"].

Definition exampleValidationNames : list string := ["examples"].

Definition excludedValidations : list string :=
  ["exclusiveMinimum"; "exclusiveMaximum"; "readOnly"; "writeOnly"].

(** The schema node of the schema-tree library, as far as this file
    reads it: [enum] is [null] or an array, [annotations] may be missing,
    [format] is [null] or a name. *)
Record RegularNode : Type := {
  enum : option (list value);
  annotations : option Dictionary;
  format : option string;
  validations : Dictionary
}.

(** The properties every object inherits from [Object.prototype]; the
    [in] operator finds them too. *)
Definition Object_prototype_names : list string :=
  ["constructor"; "__defineGetter__"; "__defineSetter__"; "hasOwnProperty";
   "__lookupGetter__"; "__lookupSetter__"; "isPrototypeOf";
   "propertyIsEnumerable"; "toString"; "valueOf"; "__proto__";
   "toLocaleString"].

Definition oasFormats : list (string * Dictionary) :=
  [("int32",
    [("minimum", JNum (Number_sub (Number_of_Z 0) (pow2 31)));
     ("maximum", JNum (Number_sub (pow2 31) (Number_of_Z 1)))]);
   ("int64",
    [("minimum", JNum (Number_sub (Number_of_Z 0) (pow2 63)));
     ("maximum", JNum (Number_sub (pow2 63) (Number_of_Z 1)))]);
   ("float",
    [("minimum", JNum (Number_sub (Number_of_Z 0) (pow2 128)));
     ("maximum", JNum (Number_sub (pow2 128) (Number_of_Z 1)))]);
   ("double",
    [("minimum", JNum (Number_sub (Number_of_Z 0) Number_MAX_VALUE));
     ("maximum", JNum Number_MAX_VALUE)]);
   ("byte",
    [("pattern", JStr "^[\w\d+\/=]*$")])].

Fixpoint oasFormats_own (format : string) (table : list (string * Dictionary))
  : option Dictionary :=
  match table with
  | [] => None
  | (f, implied) :: rest =>
      if String.eqb format f then Some implied else oasFormats_own format rest
  end.

(** [format in oasFormats]. *)
Definition in_oasFormats (format : string) : bool :=
  match oasFormats_own format oasFormats with
  | Some _ => true
  | None => includes Object_prototype_names format
  end.

(** [Object.entries(oasFormats[format])]: an inherited member has no own
    enumerable properties. *)
Definition oasFormats_entries (format : string) : list (string * value) :=
  match oasFormats_own format oasFormats with
  | Some implied => Object_entries implied
  | None => []
  end.

Definition filterOutOasFormatValidations (format : string) (values : Dictionary)
  : Dictionary :=
  if negb (in_oasFormats format) then values
  else
    let newValues := spread [] values in
    fold_left (fun newValues kv =>
                 if strict_equal (snd kv) (get newValues (fst kv))
                 then delete (fst kv) newValues
                 else newValues)
              (oasFormats_entries format) newValues.

Definition getFilteredValidations (schemaNode : RegularNode) : Dictionary :=
  match format schemaNode with
  | Some f => filterOutOasFormatValidations f (validations schemaNode)
  | None => validations schemaNode
  end.

Definition getValidationsFromSchema (schemaNode : RegularNode) : Dictionary :=
  let enumPart :=
    match enum schemaNode with
    | Some e => [("enum", JArr e)]
    | None => []
    end in
  let annotationsPart :=
    match annotations schemaNode with
    | Some a =>
        spread
          (spread []
             (if truthy (get a "default") then [("default", get a "default")]
              else []))
          (if truthy (get a "examples") then [("examples", get a "examples")]
           else [])
    | None => []
    end in
  spread (spread (spread [] enumPart) annotationsPart)
         (getFilteredValidations schemaNode).

Definition validationCount (schemaNode : RegularNode) : nat :=
  let validations := getValidationsFromSchema schemaNode in
  let validationKeys := keys (omit validations excludedValidations) in
  length
    (uniq (map (fun key =>
                  if includes numberValidationNames key then "number" else key)
               validationKeys)).

(** The members a table written as an object literal inherits from
    [Object.prototype] are taken as given: what calling one of them as a
    method of the table with one argument answers, and what React
    renders for that answer as the child of a badge. *)
Class ObjectPrototype : Type := {
  member_result : Type;
  call_member : string -> value -> result member_result;
  render_member_result : member_result -> result (list Element)
}.

Section Presenter.
Context `{Runtime} `{ObjectPrototype}.

Definition numberValidationFormatters
  : list (string * (value -> result string)) :=
  [("minimum", fun value => text ← ToString value; Ok (">= " +:+ text));
   ("exclusiveMinimum", fun value => text ← ToString value; Ok ("> " +:+ text));
   ("minItems",
    fun value => text ← ToString value; Ok (">= " +:+ text +:+ " items"));
   ("minLength",
    fun value => text ← ToString value; Ok (">= " +:+ text +:+ " characters"));
   ("maximum", fun value => text ← ToString value; Ok ("<= " +:+ text));
   ("exclusiveMaximum", fun value => text ← ToString value; Ok ("< " +:+ text));
   ("maxItems",
    fun value => text ← ToString value; Ok ("<= " +:+ text +:+ " items"));
   ("maxLength",
    fun value => text ← ToString value; Ok ("<= " +:+ text +:+ " characters"))].

Fixpoint formatter_of {F : Type} (key : string) (table : list (string * F))
  : option F :=
  match table with
  | [] => None
  | (k, f) :: rest =>
      if String.eqb key k then Some f else formatter_of key rest
  end.

Definition createStringFormatter (nowrap : bool) (value : JS.value)
  : option string :=
  match value with
  | JStr s => if nowrap then Some s else JSON_stringify value
  | _ => JSON_stringify value
  end.

Definition createValidationsFormatter (name : string) (exact nowrap : bool)
  (value : JS.value) : option ValidationFormat :=
  let values := match value with JArr items => items | _ => [value] end in
  match values with
  | [] => None
  | _ =>
      Some {| name := if exact then name
                      else if (1 <? length values)%nat then name +:+ " values"
                           else name +:+ " value";
              values := map (createStringFormatter nowrap) values |}
  end.

Definition validationFormatters
  : list (string * (value -> option ValidationFormat)) :=
  [("enum", createValidationsFormatter "Allowed" false false);
   ("examples", createValidationsFormatter "Example" false false);
   ("multipleOf", createValidationsFormatter "Multiple of" true false);
   ("pattern", createValidationsFormatter "Match pattern" true true);
   ("default", createValidationsFormatter "Default" false false)].

Definition Value (name : option string) (className : option string) : Element :=
  Host "span"
       (cn "sl-px-1 sl-font-mono sl-border sl-rounded-lg" className)
       [("backgroundColor", "#EDF2F7")]
       (match name with Some s => [Text s] | None => [] end).

(** [numberValidationFormatters[key]]: a formatter of the table, a
    member the table inherits, or [undefined]. *)
Inductive FormatterLookup : Type :=
| OwnFormatter (format : value -> result string)
| InheritedMember
| NoFormatter.

Definition numberValidationFormatters_get (key : string) : FormatterLookup :=
  match formatter_of key numberValidationFormatters with
  | Some format => OwnFormatter format
  | None =>
      if includes Object_prototype_names key then InheritedMember
      else NoFormatter
  end.

(** What the first [map] of [NumberValidations] leaves for an entry. *)
Inductive Formatted : Type :=
| FormattedText (text : string)
| MemberResult (answer : member_result).

(** [([key, value]) => numberValidationFormatters[key](value)]: a
    [TypeError] when the lookup gives [undefined]. *)
Definition formatNumberEntry (kv : string * value) : result Formatted :=
  match numberValidationFormatters_get (fst kv) with
  | OwnFormatter format => text ← format (snd kv); Ok (FormattedText text)
  | InheritedMember =>
      answer ← call_member (fst kv) (snd kv); Ok (MemberResult answer)
  | NoFormatter => Throw "TypeError"
  end.

(** [<Value name={value} className="sl-mr-2" />] of the second [map]. *)
Definition NumberBadge (formatted : Formatted) : result Element :=
  match formatted with
  | FormattedText text => Ok (Value (Some text) (Some "sl-mr-2"))
  | MemberResult answer =>
      children ← render_member_result answer;
      Ok (Host "span"
               (cn "sl-px-1 sl-font-mono sl-border sl-rounded-lg"
                   (Some "sl-mr-2"))
               [("backgroundColor", "#EDF2F7")]
               children)
  end.

Definition NumberValidations (validations : Dictionary) : result Element :=
  let entries := Object_entries validations in
  match entries with
  | [] => Ok Null
  | _ =>
      formatted ← map_throwing formatNumberEntry entries;
      badges ← map_throwing NumberBadge formatted;
      Ok (Host "div" "sl-flex sl-my-2 sl-text-muted" [] badges)
  end.

Definition KeyValueValidation (name : string) (values : list (option string))
  : Element :=
  Host "div" "sl-flex sl-flex-wrap sl-text-muted sl-my-2" []
       (Host "span" "sl-text-light" [] [Text (capitalize name); Text ":"]
        :: map (fun value => Value value (Some "sl-ml-2")) (uniq_opt values)).

Definition KeyValueValidations (validations : Dictionary) : Element :=
  Fragment
    (map (fun key =>
            match formatter_of key validationFormatters with
            | Some f =>
                match f (get validations key) with
                | Some validation =>
                    KeyValueValidation (name validation) (values validation)
                | None => Null
                end
            | None => Null
            end)
         (List.filter (includes (map fst validationFormatters))
                      (keys validations))).

Definition NameValidations (validations : Dictionary) : Element :=
  Fragment
    [match keys validations with
     | [] => Null
     | ks =>
         Host "div" "sl-flex sl-flex-wrap sl-my-2" []
              (map (fun key =>
                      Value (Some key)
                            (Some "sl-mr-2 sl-text-muted sl-capitalize"))
                   (List.filter (fun key => truthy (get validations key)) ks))
     end].

(** The three buckets of the presenter, as they come out when the
    conversion of every value returns. *)
Definition numberBucket (validations : Dictionary) : Dictionary :=
  pick validations numberValidationNames.

Definition booleanBucket (validations : Dictionary) : Dictionary :=
  omit (pickBy validations (fun v => includes ["true"; "false"] (String v)))
       excludedValidations.

Definition keyValueBucket (validations : Dictionary) (hideExamples : bool)
  : Dictionary :=
  omit validations
       (keys (numberBucket validations)
        ++ keys (booleanBucket validations)
        ++ excludedValidations
        ++ (if hideExamples then exampleValidationNames else [])).

(** [booleanValidations] as the component computes it: the predicate
    converts every value of the dictionary, and a conversion may throw. *)
Definition booleanValidations_of (validations : Dictionary)
  : result Dictionary :=
  picked ← pickBy_throwing validations
             (fun v => text ← ToString v;
                       Ok (includes ["true"; "false"] text));
  Ok (omit picked excludedValidations).

(** The [Validations] component; the three child components are
    rendered in place. *)
Definition Validations (validations : Dictionary) (hideExamples : bool)
  : result Element :=
  let numberValidations := pick validations numberValidationNames in
  booleanValidations ← booleanValidations_of validations;
  let keyValueValidations :=
    omit validations
         (keys numberValidations
          ++ keys booleanValidations
          ++ excludedValidations
          ++ (if hideExamples then exampleValidationNames else [])) in
  numbers ← NumberValidations numberValidations;
  Ok (Fragment [numbers;
                KeyValueValidations keyValueValidations;
                NameValidations booleanValidations]).
End Presenter.

End Validations.

(* --------------------------------------------------------------------- *)
(** ** Tree nodes and the collaborators of the row components              *)
(* --------------------------------------------------------------------- *)

Module Tree.
Import JS.

(** A candidate schema of a combiner: a schema object together with its
    identity, which is what [===] and [indexOf] compare. *)
Definition SchemaRef : Type := (positive * value)%type.

Definition same_object (a b : SchemaRef) : bool := Pos.eqb (fst a) (fst b).

(** The [metadata] property of a tree-list node: missing, or an object
    that may carry the candidate schemas under [properties]. *)
Inductive NodeMetadataProperty : Type :=
| MetadataMissing
| MetadataObject (properties : option (list SchemaRef)).

(** A node of the tree list.  [children] is [None] for a node without a
    [children] property; children are named by their identity. *)
#[warnings="-register-all"]
Inductive TreeListNode : Type := {
  id : string;
  parent : option TreeListNode;
  children : option (list string);
  metadata : NodeMetadataProperty
}.

(** [isParentNode] of the tree-list library: ['children' in node]. *)
Definition isParentNode (node : TreeListNode) : bool :=
  match children node with Some _ => true | None => false end.

(** The metadata the tree builder attaches to a node. *)
Record ITreeNodeMeta : Type := {
  schemaNode : value;
  schema : value;
  path : list value
}.

Inductive NodeMetadata : Type :=
| MetaSchema (meta : ITreeNodeMeta)
| MetaError (error : string).

Definition SchemaKind_Object : value := JStr "object".
Definition SchemaKind_Array : value := JStr "array".

(** The helpers of [../tree/metadata], [../utils/getPrimaryType],
    [../utils/guards] and the tree-list library are taken as given; any
    of the lookups and guards may throw. *)
Class Collaborators : Type := {
  getNodeMetadata : TreeListNode -> result NodeMetadata;
  getSchemaNodeMetadata : TreeListNode -> result ITreeNodeMeta;
  getPrimaryType : value -> result value;
  isArrayNodeWithItems : value -> result bool;
  isRefNode : value -> result bool;
  hasRefItems : value -> result bool;
  Tree_getLevel : TreeListNode -> Z
}.

(** Property reads on values that the declared types make objects. *)
Definition prop (v : value) (k : string) : value :=
  match v with
  | JObj d => get d k
  | _ => JUndefined
  end.

Definition has_prop (k : string) (v : value) : bool :=
  match v with
  | JObj d => has d k
  | _ => false
  end.

(** Modelled from the spec: [getChoiceForNode] of the choice state of
    [../tree], a mapping from node identity to the selected branch
    index; the index is [0] when none was set. *)
Definition getChoiceForNode (state : gmap string Z) (nodeId : string) : Z :=
  match state !! nodeId with Some i => i | None => 0 end.

(** Modelled from the spec: [setChoiceForNode] of the same choice state,
    which adds or overwrites the entry of the node. *)
Definition setChoiceForNode (nodeId : string) (index : Z) (state : gmap string Z)
  : gmap string Z :=
  <[nodeId := index]> state.

End Tree.

(* --------------------------------------------------------------------- *)
(** ** The [SchemaTree] host component                                     *)
(* --------------------------------------------------------------------- *)

Module SchemaTree.
Import JS Tree.

Inductive TreeListEvents : Type :=
| NodeClick
| OtherEvent (name : string).

Definition same_event (a b : TreeListEvents) : bool :=
  match a, b with
  | NodeClick, NodeClick => true
  | OtherEvent x, OtherEvent y => String.eqb x y
  | _, _ => false
  end.

(** What a listener asks of the store. *)
Inductive StoreCall : Type :=
| ToggleExpand (node : TreeListNode).

Definition Listener : Type := TreeListNode -> list StoreCall.

(** The tree store as the host uses it: the set of expanded nodes, the
    registered listeners and whether the store was disposed. *)
Record TreeStore : Type := {
  expanded : gset string;
  listeners : list (TreeListEvents * Listener);
  disposed : bool
}.

(** Modelled from the spec: [toggleExpand] of the tree store, which flips
    a node between collapsed and expanded. *)
Definition toggleExpand (node : TreeListNode) (store : TreeStore) : TreeStore :=
  {| expanded := if bool_decide (id node ∈ expanded store)
                 then expanded store ∖ {[id node]}
                 else expanded store ∪ {[id node]};
     listeners := listeners store;
     disposed := disposed store |}.

Definition events_on (event : TreeListEvents) (listener : Listener)
  (store : TreeStore) : TreeStore :=
  {| expanded := expanded store;
     listeners := listeners store ++ [(event, listener)];
     disposed := disposed store |}.

Definition dispose (store : TreeStore) : TreeStore :=
  {| expanded := expanded store; listeners := []; disposed := true |}.

Definition run_call (store : TreeStore) (call : StoreCall) : TreeStore :=
  match call with
  | ToggleExpand node => toggleExpand node store
  end.

Definition run_calls (calls : list StoreCall) (store : TreeStore) : TreeStore :=
  fold_left run_call calls store.

(** Delivering an event runs the listeners registered for it, in
    registration order. *)
Definition emit (event : TreeListEvents) (node : TreeListNode)
  (store : TreeStore) : TreeStore :=
  fold_left (fun st entry =>
               if same_event event (fst entry)
               then run_calls (snd entry node) st
               else st)
            (listeners store) store.

(** The listener registered by the effect of [SchemaTree]. *)
Definition onNodeClick : Listener :=
  fun node =>
    if isParentNode node then [ToggleExpand node] else [].

(** The effect run when the component mounts, and its clean-up. *)
Definition SchemaTree_mount (treeStore : TreeStore) : TreeStore :=
  events_on NodeClick onNodeClick treeStore.

Definition SchemaTree_unmount (treeStore : TreeStore) : TreeStore :=
  dispose treeStore.

End SchemaTree.

(* --------------------------------------------------------------------- *)
(** ** The [SchemaRow] components                                          *)
(* --------------------------------------------------------------------- *)

Module SchemaRow.
Import JS React Tree.

Definition ICON_SIZE : Z := 12.
Definition ICON_DIMENSION : Z := 20.
Definition ROW_OFFSET : Z := 7.

Record IRowRendererOptions : Type := {
  isExpanded : option bool
}.

(** What the selection handler does, in order. *)
Inductive Effect : Type :=
| PreventDefault
| SetChoiceForNode (nodeId : string) (index : Z)
| AddChildrenToTreeListNode (nodeId : string)
| PopulateCombiner (nodeId : string) (item : SchemaRef) (path : list value)
                   (eager : bool).

(** [items.indexOf(item)]: the first position holding the same object,
    [-1] when there is none. *)
Fixpoint indexOf_from (i : Z) (items : list SchemaRef) (item : SchemaRef) : Z :=
  match items with
  | [] => -1
  | x :: rest =>
      if same_object x item then i else indexOf_from (i + 1) rest item
  end.

Definition indexOf (items : list SchemaRef) (item : SchemaRef) : Z :=
  indexOf_from 0 items item.

(** [items[i]]. *)
Definition at_index {A : Type} (items : list A) (i : Z) : option A :=
  if i <? 0 then None else nth_error items (Z.to_nat i).

(** The state of the schema tree that the handler acts on: the choice
    state and the combiner populations requested so far. *)
Record SchemaTreeState : Type := {
  choices : gmap string Z;
  populated : list (string * SchemaRef * list value * bool)
}.

Definition run_effect (st : SchemaTreeState) (eff : Effect) : SchemaTreeState :=
  match eff with
  | PreventDefault => st
  | SetChoiceForNode nodeId index =>
      {| choices := setChoiceForNode nodeId index (choices st);
         populated := populated st |}
  | AddChildrenToTreeListNode _ => st
  | PopulateCombiner nodeId item path eager =>
      {| choices := choices st;
         populated := populated st ++ [(nodeId, item, path, eager)] |}
  end.

Definition run_effects (effs : list Effect) (st : SchemaTreeState)
  : SchemaTreeState :=
  fold_left run_effect effs st.

Section Rows.
Context `{Runtime} `{Collaborators}.

Definition getRelevantSchemaForRequireCheck (treeNode : TreeListNode)
  : result value :=
  metadata ← getNodeMetadata treeNode;
  match metadata with
  | MetaError _ => Ok JNull
  | MetaSchema meta =>
      withItems ← isArrayNodeWithItems (schemaNode meta);
      if withItems : bool then Ok (prop (schemaNode meta) "items")
      else Ok (schema meta)
  end.

Definition is_null (v : value) : bool :=
  match v with JNull => true | _ => false end.

Definition isRequired (treeNode : TreeListNode) : bool :=
  match parent treeNode with
  | None => false
  | Some parentNode =>
      try_catch
        (meta ← getSchemaNodeMetadata treeNode;
         match path meta with
         | [] => Ok false
         | _ :: _ =>
             schema ← getRelevantSchemaForRequireCheck parentNode;
             if is_null schema then Ok false
             else if Array_isArray schema then Ok false
             else
               kind ← getPrimaryType schema;
               if negb (strict_equal SchemaKind_Object kind) then Ok false
               else
                 match prop schema "required" with
                 | JArr required =>
                     Ok (existsb
                           (strict_equal
                              (JStr (String (List.last (path meta) JUndefined))))
                           required)
                 | _ => Ok false
                 end
         end)
        false
  end.

Definition getCombinerOptions (node : TreeListNode) : option (list SchemaRef) :=
  match Tree.metadata node with
  | MetadataObject properties => properties
  | MetadataMissing => Some []
  end.

(** The [onItemSelect] handler of the branch selector; [e] tells
    whether an event object came with the selection. *)
Definition onItemSelect (node : TreeListNode) (path : list value)
  (items : list SchemaRef) (item : SchemaRef) (e : bool) : list Effect :=
  let index := indexOf items item in
  (if e then [PreventDefault] else [])
  ++ [SetChoiceForNode (id node) index;
      AddChildrenToTreeListNode (id node);
      PopulateCombiner (id node) item
                       (path ++ [JNum (Number_of_Z index)]) false].

(** [items[chosenPropertyIndex].type]: a [TypeError] when there is no
    candidate list or no candidate at the index. *)
Definition chosen_type (items : option (list SchemaRef))
  (chosenPropertyIndex : Z) : result value :=
  match items with
  | None => Throw "TypeError"
  | Some xs =>
      match at_index xs chosenPropertyIndex with
      | None => Throw "TypeError"
      | Some item => Ok (prop (snd item) "type")
      end
  end.

Definition SchemaPropertyRow (node : TreeListNode)
  (rowOptions : IRowRendererOptions) (state : gmap string Z)
  : result Element :=
  nodeMeta ← getSchemaNodeMetadata node;
  let schemaNode := schemaNode nodeMeta in
  parentSchemaNode ←
    match parent node with
    | None => Ok JNull
    | Some parentNode =>
        if 0 <=? Tree_getLevel parentNode then
          parentMeta ← getSchemaNodeMetadata parentNode;
          Ok (if truthy (Tree.schemaNode parentMeta)
              then Tree.schemaNode parentMeta else JNull)
        else Ok JNull
    end;
  let description :=
    if has_prop "annotations" schemaNode
    then prop (prop schemaNode "annotations") "description"
    else JNull in
  isRef ← isRefNode schemaNode;
  hasRef ←
    (if isRef : bool then Ok true
     else
       kind ← getPrimaryType schemaNode;
       if strict_equal SchemaKind_Array kind then hasRefItems schemaNode
       else Ok false);
  let chosenPropertyIndex := getChoiceForNode state (id node) in
  let items := getCombinerOptions node in
  let caret :=
    if (hasRef : bool) || (isParentNode node && (0 <? Tree_getLevel node))
    then
      Component "Caret"
        [("isExpanded",
          PBool (match isExpanded rowOptions with
                 | Some b => b
                 | None => false
                 end));
         ("style.width", PNumber ICON_DIMENSION);
         ("style.height", PNumber ICON_DIMENSION);
         (if hasRef && (Tree_getLevel node =? 0)
          then ("style.position", PString "relative")
          else ("style.left", PString "-23.5"));
         ("size", PNumber ICON_SIZE)]
        []
    else Null in
  divider ←
    match parent node with
    | None => Ok Null
    | Some parentNode =>
        match children parentNode with
        | None => Throw "TypeError"
        | Some siblings =>
            Ok (if (0 <? Z.of_nat (length siblings))
                   && negb (is_null parentSchemaNode)
                   && has_prop "combiner" parentSchemaNode
                   && negb (bool_decide (head siblings = Some (id node)))
                then Component "Divider"
                       [("kind", PValue (prop parentSchemaNode "combiner"))] []
                else Null)
        end
    end;
  selector ←
    match Tree.metadata node with
    | MetadataMissing => Ok Null
    | MetadataObject _ =>
        text ← chosen_type items chosenPropertyIndex;
        Ok (Host "div" EmptyString []
              [Component "NodesSelect"
                 [("items", PItems (match items with
                                    | Some xs => xs
                                    | None => []
                                    end));
                  ("filterable", PBool false)]
                 [Component "Button"
                    [("text", PValue text);
                     ("rightIcon", PString "double-caret-vertical")]
                    []]])
    end;
  Ok (Fragment
        [caret;
         divider;
         Host "div" "flex-1 flex truncate" []
           [Component "Property" [("node", PNode (id node))] [];
            selector;
            if truthy description
            then Component "Description" [("value", PValue description)] []
            else Null];
         Component "Validations"
           [("required", PBool (isRequired node));
            ("validations",
             PDict
               (spread
                  (spread []
                     (if has_prop "annotations" schemaNode
                         && truthy (prop (prop schemaNode "annotations")
                                         "default")
                      then [("default",
                             prop (prop schemaNode "annotations") "default")]
                      else []))
                  (if has_prop "validations" schemaNode
                   then match prop schemaNode "validations" with
                        | JObj d => d
                        | _ => []
                        end
                   else [])))]
           []]).

Definition SchemaErrorRow (message : string) : Element :=
  Host "span" "text-red-5 dark:text-red-4" [] [Text message].

(** The two wrapping [div]s of a row. *)
Definition row_frame (className : option string) (node : TreeListNode)
  (content : Element) : Element :=
  Host "div" (cn "px-2 flex-1 w-full max-w-full" className) []
    [Host "div" "flex items-center text-sm relative"
       [("marginLeft", Z_toString (ICON_DIMENSION * Tree_getLevel node))]
       [content]].

(** [SchemaRow]; the row component it selects is rendered in place. *)
Definition SchemaRow (className : option string) (node : TreeListNode)
  (rowOptions : IRowRendererOptions) (state : gmap string Z)
  : result Element :=
  metadata ← getNodeMetadata node;
  content ←
    match metadata with
    | MetaSchema _ => SchemaPropertyRow node rowOptions state
    | MetaError error => Ok (SchemaErrorRow error)
    end;
  Ok (row_frame className node content).

End Rows.

End SchemaRow.

(* --------------------------------------------------------------------- *)
(** ** Sample runtime, collaborators and nodes                             *)
(* --------------------------------------------------------------------- *)

(** Concrete instances on which the components are run in the examples
    below.  The theorems hold for every runtime and every collaborator;
    these instances only serve to evaluate the definitions. *)
Module Samples.
Import JS React Tree.

(** The integer a number denotes, when it denotes one. *)
Definition Number_to_Z (x : number) : option Z :=
  match x with
  | S754_zero _ => Some 0
  | S754_finite s m e =>
      let sign := if s then -1 else 1 in
      if 0 <=? e then Some (sign * (Zpos m * 2 ^ e))
      else if Zpos m mod 2 ^ (- e) =? 0 then Some (sign * (Zpos m / 2 ^ (- e)))
           else None
  | _ => None
  end.

(** [Number::toString] on NaN, the infinities and the integers below
    [10^21] in magnitude, which print in plain decimal; other numbers are
    outside this sample and print as the empty string. *)
Definition sample_Number_toString (x : number) : string :=
  match x with
  | S754_nan => "NaN"
  | S754_infinity s => if s then "-Infinity" else "Infinity"
  | _ =>
      match Number_to_Z x with
      | Some z => if Z.abs z <? 10 ^ 21 then Z_toString z else EmptyString
      | None => EmptyString
      end
  end.

Definition double_quote : ascii := ascii_of_nat 34.

Fixpoint quote_chars (s : string) : string :=
  match s with
  | EmptyString => EmptyString
  | String.String c rest =>
      if Ascii.eqb c double_quote || Ascii.eqb c "\"%char
      then String.String "\"%char (String.String c (quote_chars rest))
      else String.String c (quote_chars rest)
  end.

Definition quote (s : string) : string :=
  String.String double_quote
                (quote_chars s +:+ String.String double_quote EmptyString).

(** [JSON.stringify] on values built from [undefined], [null], booleans,
    the numbers above, strings of printable characters, arrays and
    objects. *)
Fixpoint sample_JSON_text (v : value) : string :=
  match v with
  | JUndefined | JNull => "null"
  | JBool true => "true"
  | JBool false => "false"
  | JNum x =>
      match x with
      | S754_nan | S754_infinity _ => "null"
      | _ => sample_Number_toString x
      end
  | JStr s => quote s
  | JArr items => "[" +:+ join "," (map sample_JSON_text items) +:+ "]"
  | JObj props =>
      "{" +:+ join ","
                ((fix fields (ps : list (string * value)) : list string :=
                    match ps with
                    | [] => []
                    | (k, JUndefined) :: rest => fields rest
                    | (k, x) :: rest =>
                        (quote k +:+ ":" +:+ sample_JSON_text x) :: fields rest
                    end) props)
      +:+ "}"
  end.

Definition sample_JSON_stringify (v : value) : option string :=
  match v with
  | JUndefined => None
  | _ => Some (sample_JSON_text v)
  end.

#[export] Instance sample_runtime : Runtime := {|
  Number_toString := sample_Number_toString;
  JSON_stringify := sample_JSON_stringify
|}.

(** The inherited members as far as the samples go: [toString] and
    [toLocaleString] answer the text of the table, [valueOf] answers the
    table itself, which React refuses as a child, and [__proto__],
    [__defineGetter__] and [__defineSetter__] end in a [TypeError].  The
    other members are outside the samples and answered like the last
    three. *)
#[export] Instance sample_prototype : Validations.ObjectPrototype := {|
  Validations.member_result := option string;
  Validations.call_member name _ :=
    if includes ["toString"; "toLocaleString"] name
    then Ok (Some "[object Object]")
    else if String.eqb name "valueOf" then Ok None
    else Throw "TypeError";
  Validations.render_member_result answer :=
    match answer with
    | Some text => Ok [Text text]
    | None => Throw "Error"
    end
|}.

Fixpoint depth (node : TreeListNode) : Z :=
  match node with
  | Build_TreeListNode _ (Some parentNode) _ _ => 1 + depth parentNode
  | Build_TreeListNode _ None _ _ => 0
  end.

Fixpoint metadata_of (nodeId : string) (store : list (string * NodeMetadata))
  : option NodeMetadata :=
  match store with
  | [] => None
  | (k, m) :: rest => if String.eqb nodeId k then Some m else metadata_of nodeId rest
  end.

(** Collaborators backed by a table from node identity to metadata: a
    lookup throws when the table has no entry, a schema lookup throws on
    an error placeholder, the primary type is the declared [type], and
    the root of the tree sits at level [-1]. *)
Definition sample_collaborators (store : list (string * NodeMetadata))
  : Collaborators := {|
  getNodeMetadata node :=
    match metadata_of (id node) store with
    | Some m => Ok m
    | None => Throw "Error"
    end;
  getSchemaNodeMetadata node :=
    match metadata_of (id node) store with
    | Some (MetaSchema m) => Ok m
    | Some (MetaError _) => Throw "TypeError"
    | None => Throw "Error"
    end;
  getPrimaryType v := Ok (prop v "type");
  isArrayNodeWithItems v :=
    Ok (strict_equal SchemaKind_Array (prop v "type")
        && match prop v "items" with JObj _ => true | _ => false end);
  isRefNode v := Ok (has_prop "$ref" v);
  hasRefItems v := Ok (has_prop "$ref" (prop v "items"));
  Tree_getLevel node := depth node - 1
|}.

(** Schema nodes for the extractor. *)
Definition int32_node : Validations.RegularNode :=
  {| Validations.enum := None;
     Validations.annotations := Some [];
     Validations.format := Some "int32";
     Validations.validations :=
       [("minimum", JNum (Number_of_Z 0));
        ("maximum", JNum (Number_of_Z 2147483647))] |}.

Definition boolean_default_false_node : Validations.RegularNode :=
  {| Validations.enum := None;
     Validations.annotations := Some [("default", JBool false)];
     Validations.format := None;
     Validations.validations := [] |}.

Definition bounded_node : Validations.RegularNode :=
  {| Validations.enum := None;
     Validations.annotations := Some [];
     Validations.format := None;
     Validations.validations :=
       [("minimum", JNum (Number_of_Z 1));
        ("maximum", JNum (Number_of_Z 10))] |}.

(** A node whose only validation is an excluded flag. *)
Definition readonly_node : Validations.RegularNode :=
  {| Validations.enum := None;
     Validations.annotations := Some [];
     Validations.format := None;
     Validations.validations := [("readOnly", JBool true)] |}.

(** A node with an enumeration, annotations and a known format. *)
Definition annotated_node : Validations.RegularNode :=
  {| Validations.enum := Some [JStr "a"; JStr "b"];
     Validations.annotations :=
       Some [("default", JStr "a"); ("examples", JArr [JStr "b"])];
     Validations.format := Some "byte";
     Validations.validations :=
       [("minLength", JNum (Number_of_Z 1));
        ("pattern", JStr "^[\w\d+\/=]*$");
        ("readOnly", JBool true)] |}.

Definition root_node : TreeListNode :=
  {| id := "root"; parent := None; children := Some ["0"; "1"];
     metadata := MetadataMissing |}.

(** A property [id] of the root object, without children. *)
Definition id_node : TreeListNode :=
  {| id := "0"; parent := Some root_node; children := None;
     metadata := MetadataMissing |}.

(** A combiner node whose candidate list is empty. *)
Definition empty_combiner_node : TreeListNode :=
  {| id := "1"; parent := Some root_node; children := Some [];
     metadata := MetadataObject (Some []) |}.

(** A node whose subtree failed to compile. *)
Definition broken_node : TreeListNode :=
  {| id := "2"; parent := Some root_node; children := None;
     metadata := MetadataMissing |}.

(** A child of the node whose subtree failed to compile. *)
Definition orphan_node : TreeListNode :=
  {| id := "3"; parent := Some broken_node; children := None;
     metadata := MetadataMissing |}.

Definition root_schema : value :=
  JObj [("type", JStr "object");
        ("required", JArr [JStr "id"]);
        ("properties",
         JObj [("id", JObj [("type", JStr "string")]);
               ("name", JObj [("type", JStr "string")])])].

Definition sample_store : list (string * NodeMetadata) :=
  [("root", MetaSchema {| schemaNode := root_schema; schema := root_schema;
                          path := [] |});
   ("0", MetaSchema {| schemaNode := JObj [("type", JStr "string")];
                       schema := JObj [("type", JStr "string")];
                       path := [JStr "properties"; JStr "id"] |});
   ("1", MetaSchema {| schemaNode := JObj [("combiner", JStr "oneOf")];
                       schema := JObj [("oneOf", JArr [])];
                       path := [JStr "properties"; JStr "choice"] |});
   ("2", MetaError "Could not resolve the reference")].

(** The same table with an entry for the child of the broken node. *)
Definition orphan_store : list (string * NodeMetadata) :=
  sample_store
  ++ [("3", MetaSchema {| schemaNode := JObj [("type", JStr "string")];
                          schema := JObj [("type", JStr "string")];
                          path := [JStr "properties"; JStr "lost"] |})].

(** The same table once the broken subtree compiles. *)
Definition repaired_store : list (string * NodeMetadata) :=
  ("2", MetaSchema {| schemaNode := JObj [("type", JStr "number")];
                      schema := JObj [("type", JStr "number")];
                      path := [JStr "properties"; JStr "size"] |})
  :: sample_store.

(** Two candidates that are one and the same schema object. *)
Definition shared_branch : SchemaRef := (1%positive, JObj [("type", JStr "string")]).

Definition aliased_items : list SchemaRef := [shared_branch; shared_branch].

(** Validation mappings for the presenter. *)
Definition badge_validations : Dictionary :=
  [("minimum", JNum (Number_of_Z 1));
   ("enum", JArr [JStr "a"; JStr "b"]);
   ("deprecated", JBool true);
   ("readOnly", JBool true)].

(** A numeric name whose value reads as a boolean, next to an excluded
    flag. *)
Definition overlapping_validations : Dictionary :=
  [("minLength", JStr "true"); ("readOnly", JBool true)].

(** A default whose conversion to a string throws. *)
Definition unconvertible_validations : Dictionary :=
  [("default", JObj [("toString", JNum (Number_of_Z 1))])].

Definition empty_store : SchemaTree.TreeStore :=
  {| SchemaTree.expanded := ∅;
     SchemaTree.listeners := [];
     SchemaTree.disposed := false |}.

End Samples.

(* ===================================================================== *)
(** * Part II: properties                                                  *)
(* ===================================================================== *)

(* --------------------------------------------------------------------- *)
(** ** Objects as ordered dictionaries                                     *)
(* --------------------------------------------------------------------- *)

Module DictionaryFacts.
Import JS.

Lemma eqb_sym (a b : string) : String.eqb a b = String.eqb b a.
Proof.
  destruct (String.eqb_spec a b) as [->|Hne].
  - symmetry. apply String.eqb_refl.
  - symmetry. apply String.eqb_neq. congruence.
Qed.

Lemma includes_In (xs : list string) (x : string) :
  includes xs x = true <-> In x xs.
Proof.
  unfold includes. rewrite existsb_exists. split.
  - intros [y [Hy Heq]]. apply String.eqb_eq in Heq. now subst.
  - intros Hin. exists x. split; [assumption | apply String.eqb_refl].
Qed.

Lemma includes_false (xs : list string) (x : string) :
  includes xs x = false <-> ~ In x xs.
Proof.
  rewrite <- includes_In. destruct (includes xs x); split; congruence.
Qed.

Lemma includes_cons (y : string) (xs : list string) (x : string) :
  includes (y :: xs) x = String.eqb x y || includes xs x.
Proof. reflexivity. Qed.

Lemma includes_app (xs ys : list string) (x : string) :
  includes (xs ++ ys) x = includes xs x || includes ys x.
Proof. unfold includes. apply existsb_app. Qed.

Lemma lookup_set (k k' : string) (v : value) (d : Dictionary) :
  lookup k (set k' v d) = if String.eqb k k' then Some v else lookup k d.
Proof.
  induction d as [|[k0 v0] d IH]; simpl.
  - reflexivity.
  - destruct (String.eqb_spec k' k0) as [->|Hne]; simpl.
    + destruct (String.eqb k k0); reflexivity.
    + rewrite IH. destruct (String.eqb_spec k k0) as [->|Hne'].
      * apply String.eqb_neq in Hne. rewrite eqb_sym in Hne. now rewrite Hne.
      * reflexivity.
Qed.

Lemma lookup_delete (k k' : string) (d : Dictionary) :
  lookup k (delete k' d) = if String.eqb k k' then None else lookup k d.
Proof.
  induction d as [|[k0 v0] d IH]; simpl.
  - now destruct (String.eqb k k').
  - destruct (String.eqb_spec k' k0) as [->|Hne]; simpl.
    + rewrite IH. destruct (String.eqb k k0); reflexivity.
    + rewrite IH. destruct (String.eqb_spec k k0) as [->|Hne'].
      * apply String.eqb_neq in Hne. rewrite eqb_sym in Hne. now rewrite Hne.
      * reflexivity.
Qed.

Lemma get_lookup (d : Dictionary) (k : string) (v : value) :
  lookup k d = Some v -> get d k = v.
Proof. unfold get. now intros ->. Qed.

Lemma has_lookup (d : Dictionary) (k : string) :
  has d k = true <-> lookup k d <> None.
Proof. unfold has. destruct (lookup k d); split; congruence. Qed.

Lemma lookup_In_fst (k : string) (d : Dictionary) :
  lookup k d <> None <-> In k (map fst d).
Proof.
  induction d as [|[k0 v0] d IH]; simpl.
  - split; [congruence | tauto].
  - destruct (String.eqb_spec k k0) as [->|Hne].
    + split; [auto | congruence].
    + rewrite IH. split; [auto | intros [Heq|Hin]; [congruence | assumption]].
Qed.

Lemma In_filter_ne (x y : string) (xs : list string) :
  In y (List.filter (fun z => negb (String.eqb x z)) xs) <-> In y xs /\ x <> y.
Proof.
  rewrite filter_In. rewrite negb_true_iff, String.eqb_neq. tauto.
Qed.

Lemma In_uniq (x : string) (xs : list string) : In x (uniq xs) <-> In x xs.
Proof.
  induction xs as [|y xs IH]; simpl; [tauto|].
  rewrite In_filter_ne, IH.
  destruct (String.eqb_spec y x) as [->|Hne]; tauto.
Qed.

Lemma NoDup_filter_bool {A : Type} (p : A -> bool) (xs : list A) :
  List.NoDup xs -> List.NoDup (List.filter p xs).
Proof.
  induction 1 as [|x xs Hnin Hnd IH]; simpl; [constructor|].
  destruct (p x); [constructor|]; auto.
  rewrite filter_In. tauto.
Qed.

Lemma NoDup_uniq (xs : list string) : List.NoDup (uniq xs).
Proof.
  induction xs as [|y xs IH]; simpl; constructor.
  - rewrite In_filter_ne. tauto.
  - now apply NoDup_filter_bool.
Qed.

Lemma In_Object_keys (k : string) (d : Dictionary) :
  In k (Object_keys d) <-> lookup k d <> None.
Proof. unfold Object_keys. now rewrite In_uniq, lookup_In_fst. Qed.

Lemma includes_Object_keys (k : string) (d : Dictionary) :
  includes (Object_keys d) k = has d k.
Proof.
  destruct (has d k) eqn:Hhas.
  - apply includes_In, In_Object_keys, has_lookup, Hhas.
  - apply includes_false. rewrite In_Object_keys, <- has_lookup. congruence.
Qed.

(** Copying the properties named by [ks] from [s] onto [t]. *)
Lemma lookup_copy_keys (s : Dictionary) (ks : list string) :
  forall (t : Dictionary) (k : string),
    lookup k (fold_left (fun acc kv => set (fst kv) (snd kv) acc)
                        (map (fun k0 => (k0, get s k0)) ks) t)
    = if includes ks k then Some (get s k) else lookup k t.
Proof.
  induction ks as [|k0 ks IH]; intros t k; [reflexivity|].
  cbn [map fold_left fst snd].
  rewrite IH, includes_cons, lookup_set.
  destruct (includes ks k); [now rewrite orb_true_r|].
  rewrite orb_false_r.
  destruct (String.eqb_spec k k0) as [->|Hne]; reflexivity.
Qed.

Lemma lookup_spread (t s : Dictionary) (k : string) :
  lookup k (spread t s)
  = match lookup k s with Some v => Some v | None => lookup k t end.
Proof.
  unfold spread, Object_entries. rewrite lookup_copy_keys, includes_Object_keys.
  unfold has, get. destruct (lookup k s); reflexivity.
Qed.

Lemma lookup_spread_nil (s : Dictionary) (k : string) :
  lookup k (spread [] s) = lookup k s.
Proof. rewrite lookup_spread. now destruct (lookup k s). Qed.

Lemma get_spread_nil (s : Dictionary) (k : string) :
  get (spread [] s) k = get s k.
Proof. unfold get. now rewrite lookup_spread_nil. Qed.

Lemma lookup_Object_entries (d : Dictionary) (k : string) (v : value) :
  In (k, v) (Object_entries d) <-> lookup k d = Some v.
Proof.
  unfold Object_entries. rewrite in_map_iff. split.
  - intros [k0 [Heq Hin]]. inversion Heq; subst.
    apply In_Object_keys in Hin. unfold get.
    destruct (lookup k d); congruence.
  - intros Hk. exists k. split.
    + now rewrite (get_lookup _ _ _ Hk).
    + apply In_Object_keys. congruence.
Qed.

End DictionaryFacts.

Module LodashFacts.
Import JS Lodash DictionaryFacts.

Lemma lookup_pick_fold (object : Dictionary) (paths : list string) :
  forall (acc : Dictionary) (k : string),
    lookup k (fold_left (fun result path =>
                           if has object path
                           then set path (get object path) result
                           else result) paths acc)
    = if includes paths k && has object k then lookup k object
      else lookup k acc.
Proof.
  induction paths as [|p paths IH]; intros acc k; [reflexivity|].
  cbn [fold_left].
  rewrite IH, includes_cons.
  assert (Hacc : lookup k (if has object p then set p (get object p) acc else acc)
                 = if String.eqb k p && has object k then lookup k object
                   else lookup k acc).
  { destruct (String.eqb_spec k p) as [->|Hne]; simpl.
    - destruct (has object p) eqn:Hhas; [|reflexivity].
      rewrite lookup_set, String.eqb_refl.
      unfold has, get in *. destruct (lookup p object); congruence.
    - destruct (has object p); [|reflexivity].
      rewrite lookup_set. apply String.eqb_neq in Hne. now rewrite Hne. }
  rewrite Hacc.
  destruct (includes paths k), (String.eqb k p), (has object k); reflexivity.
Qed.

Lemma lookup_pick (object : Dictionary) (paths : list string) (k : string) :
  lookup k (pick object paths)
  = if includes paths k then lookup k object else None.
Proof.
  unfold pick. rewrite lookup_pick_fold. simpl.
  destruct (includes paths k); simpl; [|reflexivity].
  unfold has. destruct (lookup k object); reflexivity.
Qed.

Lemma lookup_delete_all (paths : list string) :
  forall (acc : Dictionary) (k : string),
    lookup k (fold_left (fun result path => delete path result) paths acc)
    = if includes paths k then None else lookup k acc.
Proof.
  induction paths as [|p paths IH]; intros acc k; [reflexivity|].
  cbn [fold_left].
  rewrite IH, includes_cons, lookup_delete.
  destruct (includes paths k); [now rewrite orb_true_r|].
  rewrite orb_false_r. reflexivity.
Qed.

Lemma lookup_omit (object : Dictionary) (paths : list string) (k : string) :
  lookup k (omit object paths)
  = if includes paths k then None else lookup k object.
Proof. unfold omit. now rewrite lookup_delete_all, lookup_spread_nil. Qed.

Lemma lookup_pickBy_fold (object : Dictionary) (predicate : value -> bool)
  (ks : list string) :
  forall (acc : Dictionary) (k : string),
    lookup k (fold_left (fun result key =>
                           if predicate (get object key)
                           then set key (get object key) result
                           else result) ks acc)
    = if includes ks k && predicate (get object k) then Some (get object k)
      else lookup k acc.
Proof.
  induction ks as [|k0 ks IH]; intros acc k; [reflexivity|].
  cbn [fold_left].
  rewrite IH, includes_cons.
  assert (Hacc : lookup k (if predicate (get object k0)
                           then set k0 (get object k0) acc else acc)
                 = if String.eqb k k0 && predicate (get object k)
                   then Some (get object k) else lookup k acc).
  { destruct (String.eqb_spec k k0) as [->|Hne]; simpl.
    - destruct (predicate (get object k0)); [|reflexivity].
      now rewrite lookup_set, String.eqb_refl.
    - destruct (predicate (get object k0)); [|reflexivity].
      rewrite lookup_set. apply String.eqb_neq in Hne. now rewrite Hne. }
  rewrite Hacc.
  destruct (includes ks k), (String.eqb k k0), (predicate (get object k));
    reflexivity.
Qed.

Lemma lookup_pickBy (object : Dictionary) (predicate : value -> bool)
  (k : string) :
  lookup k (pickBy object predicate)
  = match lookup k object with
    | Some v => if predicate v then Some v else None
    | None => None
    end.
Proof.
  unfold pickBy. rewrite lookup_pickBy_fold, includes_Object_keys. simpl.
  unfold has, get. destruct (lookup k object) as [v|]; simpl; [|reflexivity].
  destruct (predicate v); reflexivity.
Qed.

Lemma includes_keys (object : Dictionary) (k : string) :
  includes (keys object) k = has object k.
Proof. apply includes_Object_keys. Qed.

End LodashFacts.

(* --------------------------------------------------------------------- *)
(** ** The validation extractor                                            *)
(* --------------------------------------------------------------------- *)

Module ExtractorFacts.
Import JS Lodash Validations DictionaryFacts LodashFacts.

(** One pass of the deletion loop of [filterOutOasFormatValidations]. *)
Lemma lookup_delete_implied (entries : list (string * value)) :
  forall (newValues : Dictionary) (k : string),
    lookup k (fold_left (fun newValues kv =>
                           if strict_equal (snd kv) (get newValues (fst kv))
                           then delete (fst kv) newValues
                           else newValues) entries newValues)
    = if existsb (fun kv => String.eqb k (fst kv)
                            && strict_equal (snd kv) (get newValues k)) entries
      then None else lookup k newValues.
Proof.
  induction entries as [|[k0 p] entries IH]; intros nv k; [reflexivity|].
  cbn [fold_left existsb fst snd]. rewrite IH.
  destruct (String.eqb_spec k k0) as [->|Hne]; cbn [andb].
  - destruct (strict_equal p (get nv k0)) eqn:Heq; cbn [orb].
    + rewrite lookup_delete, String.eqb_refl.
      now destruct (existsb _ entries).
    + reflexivity.
  - assert (Hget : get (if strict_equal p (get nv k0) then delete k0 nv else nv) k
                   = get nv k).
    { destruct (strict_equal p (get nv k0)); [|reflexivity].
      unfold get. rewrite lookup_delete.
      apply String.eqb_neq in Hne. now rewrite Hne. }
    rewrite Hget. 
    destruct (strict_equal p (get nv k0)); [|reflexivity].
    rewrite lookup_delete. apply String.eqb_neq in Hne. now rewrite Hne.
Qed.

Lemma existsb_Object_entries (d : Dictionary) (k : string) (P : value -> bool) :
  existsb (fun kv => String.eqb k (fst kv) && P (snd kv)) (Object_entries d)
  = match lookup k d with Some p => P p | None => false end.
Proof.
  apply eq_true_iff_eq. rewrite existsb_exists. split.
  - intros [[k' v] [Hin Hc]]. cbn [fst snd] in Hc.
    apply andb_true_iff in Hc as [Hk HP]. apply String.eqb_eq in Hk. subst k'.
    apply lookup_Object_entries in Hin. now rewrite Hin.
  - destruct (lookup k d) as [p|] eqn:Hk; [|discriminate].
    intros HP. exists (k, p). split.
    + now apply lookup_Object_entries.
    + cbn [fst snd]. now rewrite String.eqb_refl.
Qed.

Lemma existsb_implied (d : Dictionary) (k : string) (w : value) :
  existsb (fun kv => String.eqb k (fst kv) && strict_equal (snd kv) w)
          (Object_entries d)
  = match lookup k d with Some p => strict_equal p w | None => false end.
Proof. exact (existsb_Object_entries d k (fun p => strict_equal p w)). Qed.

(** What [filterOutOasFormatValidations] leaves under each name. *)
Lemma lookup_filterOut (f : string) (values : Dictionary) (k : string) :
  lookup k (filterOutOasFormatValidations f values)
  = match oasFormats_own f oasFormats with
    | Some implied =>
        match lookup k implied with
        | Some p => if strict_equal p (get values k) then None
                    else lookup k values
        | None => lookup k values
        end
    | None => lookup k values
    end.
Proof.
  unfold filterOutOasFormatValidations, in_oasFormats, oasFormats_entries.
  destruct (oasFormats_own f oasFormats) as [implied|]; cbn [negb].
  - rewrite lookup_delete_implied, existsb_implied.
    rewrite get_spread_nil, lookup_spread_nil.
    destruct (lookup k implied); reflexivity.
  - destruct (includes Object_prototype_names f); cbn [negb fold_left].
    + apply lookup_spread_nil.
    + reflexivity.
Qed.

(** The names that carry an implied value. *)
Lemma implied_names (f : string) (implied : Dictionary) (k : string) (p : value) :
  oasFormats_own f oasFormats = Some implied ->
  lookup k implied = Some p ->
  k = "minimum" \/ k = "maximum" \/ k = "pattern".
Proof.
  unfold oasFormats. cbn [oasFormats_own].
  intros Hown Hk.
  repeat match type of Hown with
         | (if String.eqb ?a ?b then _ else _) = _ =>
             destruct (String.eqb a b)
         end;
    try discriminate; inversion Hown; subst implied; clear Hown;
    cbn [lookup] in Hk;
    repeat match type of Hk with
           | (if String.eqb ?a ?b then _ else _) = _ =>
               destruct (String.eqb_spec a b); [subst; tauto|]
           end; discriminate.
Qed.

(** The extracted mapping, name by name: the filtered validations come
    last and win, then the annotations, then the enumeration. *)
Lemma lookup_getValidationsFromSchema (node : RegularNode) (k : string) :
  lookup k (getValidationsFromSchema node)
  = match lookup k (getFilteredValidations node) with
    | Some v => Some v
    | None =>
        if String.eqb k "examples" then
          match annotations node with
          | Some a => if truthy (get a "examples") then Some (get a "examples")
                      else None
          | None => None
          end
        else if String.eqb k "default" then
          match annotations node with
          | Some a => if truthy (get a "default") then Some (get a "default")
                      else None
          | None => None
          end
        else if String.eqb k "enum" then
          match enum node with
          | Some e => Some (JArr e)
          | None => None
          end
        else None
    end.
Proof.
  unfold getValidationsFromSchema. rewrite !lookup_spread.
  destruct (lookup k (getFilteredValidations node)); [reflexivity|].
  destruct (String.eqb_spec k "examples") as [->|Hex].
  { destruct (annotations node) as [a|]; [|now destruct (enum node)].
    rewrite lookup_spread.
    destruct (truthy (get a "examples")); [reflexivity|].
    destruct (truthy (get a "default")); now destruct (enum node). }
  destruct (String.eqb_spec k "default") as [->|Hdef].
  { destruct (annotations node) as [a|]; [|now destruct (enum node)].
    rewrite lookup_spread.
    destruct (truthy (get a "examples")), (truthy (get a "default"));
      now destruct (enum node). }
  apply String.eqb_neq in Hex, Hdef.
  assert (Hann : lookup k
                   match annotations node with
                   | Some a =>
                       spread
                         (spread []
                            (if truthy (get a "default")
                             then [("default", get a "default")] else []))
                         (if truthy (get a "examples")
                          then [("examples", get a "examples")] else [])
                   | None => []
                   end = None).
  { destruct (annotations node) as [a|]; [|reflexivity].
    rewrite !lookup_spread.
    destruct (truthy (get a "examples")), (truthy (get a "default"));
      cbn [lookup]; rewrite ?Hex, ?Hdef; reflexivity. }
  rewrite Hann.
  destruct (enum node); cbn [lookup]; destruct (String.eqb k "enum"); reflexivity.
Qed.






(** The implied maximum of [int32] is dropped, the declared minimum [0]
    stays; [2 ** 63 - 1] rounds to [2 ** 63]. *)
Example int32_node_extracted :
  Object_keys (getValidationsFromSchema Samples.int32_node) = ["minimum"].
Proof. vm_compute. reflexivity. Qed.

Example int64_maximum_is_two_to_the_63 :
  oasFormats_own "int64" oasFormats
  = Some [("minimum", JNum (SFopp (pow2 63))); ("maximum", JNum (pow2 63))].
Proof. vm_compute. reflexivity. Qed.

(** [enum] is extracted exactly when the node's [enum] is not [null],
    for a node whose validations do not themselves use that name. *)
Lemma enum_extracted_iff (node : RegularNode) :
  lookup "enum" (validations node) = None ->
  (lookup "enum" (getValidationsFromSchema node) <> None <-> enum node <> None).
Proof.
  intros Hv. rewrite lookup_getValidationsFromSchema.
  assert (Hf : lookup "enum" (getFilteredValidations node) = None).
  { unfold getFilteredValidations. destruct (format node) as [f|]; [|assumption].
    rewrite lookup_filterOut, Hv.
    destruct (oasFormats_own f oasFormats) as [implied|]; [|reflexivity].
    destruct (lookup "enum" implied); [|reflexivity].
    now destruct (strict_equal _ _). }
  rewrite Hf. cbn. destruct (enum node); split; congruence.
Qed.

(** [default] is extracted exactly when the annotation is truthy. *)
Lemma default_extracted_iff (node : RegularNode) :
  lookup "default" (validations node) = None ->
  (lookup "default" (getValidationsFromSchema node) <> None
   <-> exists a, annotations node = Some a /\ truthy (get a "default") = true).
Proof.
  intros Hv. rewrite lookup_getValidationsFromSchema.
  assert (Hf : lookup "default" (getFilteredValidations node) = None).
  { unfold getFilteredValidations. destruct (format node) as [f|]; [|assumption].
    rewrite lookup_filterOut, Hv.
    destruct (oasFormats_own f oasFormats) as [implied|]; [|reflexivity].
    destruct (lookup "default" implied); [|reflexivity].
    now destruct (strict_equal _ _). }
  rewrite Hf. cbn. destruct (annotations node) as [a|].
  - destruct (truthy (get a "default")) eqn:Ht; split.
    + intros _. now exists a.
    + congruence.
    + congruence.
    + intros [a' [Ha Ht']]. inversion Ha; subst. congruence.
  - split; [congruence | intros [a [Ha _]]; discriminate].
Qed.

(** C7. The extractor tests the [default] annotation for truthiness, not
    for presence: a node annotated with [default: false] yields a mapping
    without [default]. *)
Theorem falsy_default_is_not_extracted :
  (exists a, annotations Samples.boolean_default_false_node = Some a
             /\ lookup "default" a = Some (JBool false))
  /\ lookup "default" (getValidationsFromSchema Samples.boolean_default_false_node)
     = None.
Proof.
  split.
  - eexists. split; reflexivity.
  - reflexivity.
Qed.

Lemma In_keys_omit (m : Dictionary) (paths : list string) (k : string) :
  In k (keys (omit m paths)) <-> lookup k m <> None /\ ~ In k paths.
Proof.
  unfold keys. rewrite In_Object_keys, lookup_omit, <- includes_false.
  destruct (includes paths k); split; try tauto; intros [? ?]; congruence.
Qed.

Lemma length_one_of_NoDup (xs : list string) (a : string) :
  List.NoDup xs -> (forall s, In s xs <-> s = a) -> length xs = 1%nat.
Proof.
  intros Hnd Hin. destruct xs as [|x xs].
  - exfalso. apply (proj2 (Hin a)). reflexivity.
  - destruct xs as [|y xs]; [reflexivity|]. exfalso.
    assert (Hx : x = a) by (apply Hin; now left).
    assert (Hy : y = a) by (apply Hin; right; now left).
    inversion Hnd as [|? ? Hnin _]. subst. apply Hnin. now left.
Qed.

(** C10. [validationCount] is the number of distinct kinds among the
    names of the extracted mapping that are not excluded
    ([exclusiveMinimum], [exclusiveMaximum], [readOnly], [writeOnly]),
    where the kind of a numeric-validation name is ["number"] and the
    kind of any other name is the name itself; a mapping with exactly
    [minimum] and [maximum] counts 1. *)
Theorem validationCount_counts_kinds (node : RegularNode) :
  let m := getValidationsFromSchema node in
  let kind := fun k : string =>
    if bool_decide (In k ["minimum"; "maximum"; "minLength"; "maxLength";
                          "minItems"; "maxItems"; "exclusiveMinimum";
                          "exclusiveMaximum"])
    then "number" else k in
  (exists kinds : list string,
      List.NoDup kinds
      /\ (forall s, In s kinds <->
                    exists k, lookup k m <> None
                              /\ ~ In k ["exclusiveMinimum"; "exclusiveMaximum";
                                         "readOnly"; "writeOnly"]
                              /\ kind k = s)
      /\ validationCount node = length kinds)
  /\ ((forall k, lookup k m <> None <-> k = "minimum" \/ k = "maximum") ->
      validationCount node = 1%nat).
Proof.
  intros m kind.
  assert (Hkind : forall k,
             (if includes numberValidationNames k then "number" else k) = kind k).
  { intros k. unfold kind.
    destruct (includes numberValidationNames k) eqn:Hinc.
    - apply includes_In in Hinc. now rewrite bool_decide_eq_true_2.
    - apply includes_false in Hinc. now rewrite bool_decide_eq_false_2. }
  set (kinds := uniq (map (fun key => if includes numberValidationNames key
                                      then "number" else key)
                          (keys (omit m excludedValidations)))).
  assert (Hmem : forall s, In s kinds <->
                 exists k, lookup k m <> None
                           /\ ~ In k ["exclusiveMinimum"; "exclusiveMaximum";
                                      "readOnly"; "writeOnly"]
                           /\ kind k = s).
  { intros s. unfold kinds. rewrite In_uniq, in_map_iff. split.
    - intros [k [Hk Hin]]. apply In_keys_omit in Hin as [Hm Hex].
      exists k. rewrite <- Hkind. auto.
    - intros [k [Hm [Hex Hk]]]. exists k. rewrite Hkind. split; [assumption|].
      apply In_keys_omit. auto. }
  split.
  - exists kinds. split; [apply NoDup_uniq|]. split; [exact Hmem | reflexivity].
  - intros Honly. change (length kinds = 1%nat).
    apply (length_one_of_NoDup kinds "number"); [apply NoDup_uniq|].
    intros s. rewrite Hmem. split.
    + intros [k [Hm [_ Hk]]]. apply Honly in Hm as [->| ->]; now subst s.
    + intros ->. exists "minimum". split; [apply Honly; now left|].
      split; [|reflexivity].
      cbn. intros H; repeat destruct H as [H|H]; try discriminate; assumption.
Qed.

Lemma validationCount_counts_kinds_witness :
  (forall k, lookup k (getValidationsFromSchema Samples.bounded_node) <> None
             <-> k = "minimum" \/ k = "maximum")
  /\ validationCount Samples.bounded_node = 1%nat.
Proof.
  assert (Honly : forall k,
             lookup k (getValidationsFromSchema Samples.bounded_node) <> None
             <-> k = "minimum" \/ k = "maximum").
  { intros k.
    change (getValidationsFromSchema Samples.bounded_node)
      with (validations Samples.bounded_node).
    cbn [lookup validations Samples.bounded_node].
    destruct (String.eqb_spec k "minimum") as [->|Hmin].
    - split; [auto | congruence].
    - destruct (String.eqb_spec k "maximum") as [->|Hmax].
      + split; [auto | congruence].
      + split; [congruence | tauto]. }
  split; [exact Honly|].
  exact (proj2 (validationCount_counts_kinds Samples.bounded_node) Honly).
Defined.

End ExtractorFacts.

(* --------------------------------------------------------------------- *)
(** ** The conversion to a string                                          *)
(* --------------------------------------------------------------------- *)

Module ThrowingFacts.
Import JS Lodash Throwing DictionaryFacts LodashFacts.

Section WithRuntime.
Context `{Runtime}.

(** The conversion returns the text of [String] on the convertible
    values and throws a [TypeError] on the others. *)
Lemma ToString_spec (v : value) :
  ToString v = if convertible v then Ok (String v) else Throw "TypeError".
Proof.
  revert v. fix IH 1.
  intros [ | | [|] | x | s | items | props]; try reflexivity.
  - cbn [ToString convertible String].
    match goal with
    | |- mbind _ (?elements items) = _ =>
        assert (Hitems :
          elements items
          = if forallb (fun x => match x with
                                 | JUndefined | JNull => true
                                 | _ => convertible x
                                 end) items
            then Ok (map (fun x => match x with
                                   | JUndefined | JNull => EmptyString
                                   | _ => String x
                                   end) items)
            else Throw "TypeError")
    end.
    { induction items as [|x rest IHrest]; [reflexivity|].
      cbn [forallb map]. rewrite IHrest.
      pose proof (IH x) as Hx.
      assert (Hhead :
        match x with
        | JUndefined | JNull => Ok EmptyString
        | _ => ToString x
        end
        = if match x with
             | JUndefined | JNull => true
             | _ => convertible x
             end
          then Ok match x with
                  | JUndefined | JNull => EmptyString
                  | _ => String x
                  end
          else Throw "TypeError").
      { rewrite Hx. destruct x; reflexivity. }
      rewrite Hhead.
      destruct (match x with
                | JUndefined | JNull => true
                | _ => convertible x
                end);
        destruct (forallb _ rest); reflexivity. }
    rewrite Hitems.
    now destruct (forallb _ items).
  - cbn [ToString convertible]. now destruct (has props "toString").
Qed.

Lemma ToString_convertible (v : value) :
  convertible v = true -> ToString v = Ok (String v).
Proof. intros Hv. now rewrite ToString_spec, Hv. Qed.

End WithRuntime.

(** [pickBy] with a predicate that throws one exception, on the values
    outside [c]. *)
Lemma pickBy_throwing_spec (object : Dictionary)
  (predicate : value -> result bool) (c p : value -> bool) (e0 : string) :
  (forall v, predicate v = if c v then Ok (p v) else Throw e0) ->
  pickBy_throwing object predicate
  = if forallb (fun k => c (get object k)) (Object_keys object)
    then Ok (pickBy object p) else Throw e0.
Proof.
  intros Hp. unfold pickBy_throwing, pickBy.
  generalize (@nil (string * value)) as acc.
  induction (Object_keys object) as [|k ks IH]; intros acc; [reflexivity|].
  cbn [fold_left forallb mbind result_bind]. rewrite Hp.
  destruct (c (get object k)); cbn [mbind result_bind andb].
  - apply IH.
  - clear IH. induction ks as [|k' ks IH]; [reflexivity|]. exact IH.
Qed.

(** Every value of a dictionary converts. *)
Lemma forallb_convertible (d : Dictionary) :
  forallb (fun k => convertible (get d k)) (Object_keys d) = true
  <-> (forall k v, lookup k d = Some v -> convertible v = true).
Proof.
  rewrite forallb_forall. split.
  - intros Hall k v Hk. rewrite <- (get_lookup _ _ _ Hk). apply Hall.
    apply In_Object_keys. congruence.
  - intros Hall k Hk. apply In_Object_keys in Hk. unfold get.
    destruct (lookup k d) as [v|] eqn:Hkd; [|congruence]. now apply (Hall k).
Qed.

(** The same for a dictionary given by its list of bindings. *)
Lemma convertible_bindings (d : Dictionary) :
  forallb (fun kv => convertible (snd kv)) d = true ->
  forall k v, lookup k d = Some v -> convertible v = true.
Proof.
  induction d as [|[k0 v0] d IH]; intros Hall k v; [discriminate|].
  cbn [forallb snd] in Hall. apply andb_true_iff in Hall as [H0 Hd].
  cbn [lookup]. destruct (String.eqb k k0); [|now apply IH].
  intros Heq. now inversion Heq; subst.
Qed.

End ThrowingFacts.

(* --------------------------------------------------------------------- *)
(** ** The validation presenter                                            *)
(* --------------------------------------------------------------------- *)

Module PresenterFacts.
Import JS Lodash Throwing React Validations DictionaryFacts LodashFacts
       ThrowingFacts.

Section WithRuntime.
Context `{Runtime} `{ObjectPrototype}.

Lemma lookup_numberBucket (validations : Dictionary) (k : string) :
  lookup k (numberBucket validations)
  = if includes numberValidationNames k then lookup k validations else None.
Proof. apply lookup_pick. Qed.

Lemma lookup_booleanBucket (validations : Dictionary) (k : string) :
  lookup k (booleanBucket validations)
  = if includes excludedValidations k then None
    else match lookup k validations with
         | Some v => if includes ["true"; "false"] (String v) then Some v
                     else None
         | None => None
         end.
Proof.
  unfold booleanBucket. rewrite lookup_omit.
  destruct (includes excludedValidations k); [reflexivity|].
  exact (lookup_pickBy validations
           (fun v => includes ["true"; "false"] (String v)) k).
Qed.

Lemma lookup_keyValueBucket (validations : Dictionary) (hideExamples : bool)
  (k : string) :
  lookup k (keyValueBucket validations hideExamples)
  = if has (numberBucket validations) k
       || has (booleanBucket validations) k
       || includes excludedValidations k
       || (hideExamples && String.eqb k "examples")
    then None else lookup k validations.
Proof.
  unfold keyValueBucket. rewrite lookup_omit, !includes_app, !includes_keys.
  rewrite !orb_assoc.
  replace (includes (if hideExamples then exampleValidationNames else []) k)
    with (hideExamples && String.eqb k "examples"); [reflexivity|].
  destruct hideExamples; cbn; [now rewrite orb_false_r | reflexivity].
Qed.

Lemma includes_true_false (s : string) :
  includes ["true"; "false"] s = true <-> s = "true" \/ s = "false".
Proof.
  rewrite includes_In. cbn.
  split; [intros [<-|[<-|[]]]; auto | intros [->| ->]; auto].
Qed.

Lemma has_numberBucket (validations : Dictionary) (k : string) (v : value) :
  lookup k validations = Some v ->
  has (numberBucket validations) k = includes numberValidationNames k.
Proof.
  intros Hk. unfold has. rewrite lookup_numberBucket, Hk.
  now destruct (includes numberValidationNames k).
Qed.

Lemma has_booleanBucket (validations : Dictionary) (k : string) (v : value) :
  lookup k validations = Some v ->
  has (booleanBucket validations) k
  = negb (includes excludedValidations k)
    && includes ["true"; "false"] (String v).
Proof.
  intros Hk. unfold has. rewrite lookup_booleanBucket, Hk.
  destruct (includes excludedValidations k); [reflexivity|].
  now destruct (includes ["true"; "false"] (String v)).
Qed.

(** The boolean bucket is built exactly when every value converts;
    otherwise the component ends in a [TypeError]. *)
Lemma booleanValidations_of_spec (validations : Dictionary) :
  booleanValidations_of validations
  = if forallb (fun k => convertible (get validations k))
               (Object_keys validations)
    then Ok (booleanBucket validations) else Throw "TypeError".
Proof.
  unfold booleanValidations_of, booleanBucket.
  rewrite (pickBy_throwing_spec validations _ convertible
             (fun v => includes ["true"; "false"] (String v)) "TypeError").
  - now destruct (forallb _ (Object_keys validations)).
  - intros v. rewrite ToString_spec. now destruct (convertible v).
Qed.

Lemma Validations_spec (validations : Dictionary) (hideExamples : bool) :
  Validations.Validations validations hideExamples
  = if forallb (fun k => convertible (get validations k))
               (Object_keys validations)
    then
      numbers ← NumberValidations (numberBucket validations);
      Ok (Fragment
            [numbers;
             KeyValueValidations (keyValueBucket validations hideExamples);
             NameValidations (booleanBucket validations)])
    else Throw "TypeError".
Proof.
  unfold Validations.Validations. rewrite booleanValidations_of_spec.
  now destruct (forallb _ (Object_keys validations)).
Qed.


(** An entry under one of the eight names is formatted when its value
    converts and ends in a [TypeError] when it does not. *)
Lemma formatNumberEntry_numeric (k : string) (v : value) :
  includes numberValidationNames k = true ->
  if convertible v
  then exists text, formatNumberEntry (k, v) = Ok (FormattedText text)
  else formatNumberEntry (k, v) = Throw "TypeError".
Proof.
  intros Hinc. apply includes_In in Hinc. cbn in Hinc.
  unfold formatNumberEntry, numberValidationFormatters_get,
    numberValidationFormatters.
  cbn [fst snd].
  repeat destruct Hinc as [Hinc|Hinc]; try contradiction; subst k;
    cbn [formatter_of String.eqb Ascii.eqb Bool.eqb]; rewrite ToString_spec;
    destruct (convertible v); cbn [mbind result_bind];
    try reflexivity; eexists; reflexivity.
Qed.

Lemma map_throwing_NumberBadge (texts : list string) :
  map_throwing NumberBadge (map FormattedText texts)
  = Ok (map (fun text => Value (Some text) (Some "sl-mr-2")) texts).
Proof.
  induction texts as [|text texts IH]; [reflexivity|].
  cbn [map map_throwing NumberBadge mbind result_bind]. now rewrite IH.
Qed.

(** The numeric block of a dictionary whose names are among the eight
    and whose values convert: one text per entry, in the order of the
    entries. *)
Lemma NumberValidations_texts (validations : Dictionary) :
  (forall k v, lookup k validations = Some v ->
               includes numberValidationNames k = true
               /\ convertible v = true) ->
  exists texts,
    List.Forall2 (fun kv text => formatNumberEntry kv = Ok (FormattedText text))
                 (Object_entries validations) texts
    /\ NumberValidations validations
       = Ok match texts with
            | [] => Null
            | _ =>
                Host "div" "sl-flex sl-my-2 sl-text-muted" []
                     (map (fun text => Value (Some text) (Some "sl-mr-2")) texts)
            end.
Proof.
  intros Hall.
  assert (Hentries : forall kv, In kv (Object_entries validations) ->
                       exists text, formatNumberEntry kv = Ok (FormattedText text)).
  { intros [k v] Hin. apply lookup_Object_entries in Hin.
    destruct (Hall k v Hin) as [Hk Hv].
    pose proof (formatNumberEntry_numeric k v Hk) as Hf.
    now rewrite Hv in Hf. }
  unfold NumberValidations.
  induction (Object_entries validations) as [|kv kvs IH].
  - exists []. split; [constructor | reflexivity].
  - destruct (Hentries kv (or_introl eq_refl)) as [text Hkv].
    destruct IH as [texts [Hall2 Hrest]];
      [intros kv' Hin; apply Hentries; now right|].
    exists (text :: texts). split; [now constructor|].
    cbn [map_throwing]. rewrite Hkv. cbn [mbind result_bind].
    destruct kvs as [|kv' kvs'].
    + inversion Hall2; subst. reflexivity.
    + destruct (map_throwing formatNumberEntry (kv' :: kvs')) as [formatted|e];
        cbn [mbind result_bind] in *; [|discriminate].
      destruct (map_throwing NumberBadge formatted) as [badges|e] eqn:Hb;
        cbn [mbind result_bind] in *; [|discriminate].
      inversion Hall2 as [|? text' ? texts' ? ? Heq]; subst.
      cbn [map_throwing NumberBadge mbind result_bind]. rewrite Hb.
      cbn [mbind result_bind]. inversion Hrest. reflexivity.
Qed.

(** The numeric block of the numeric bucket. *)
Lemma NumberValidations_numberBucket (validations : Dictionary) :
  (forall k v, lookup k (numberBucket validations) = Some v ->
               convertible v = true) ->
  exists texts,
    List.Forall2 (fun kv text => formatNumberEntry kv = Ok (FormattedText text))
                 (Object_entries (numberBucket validations)) texts
    /\ NumberValidations (numberBucket validations)
       = Ok match texts with
            | [] => Null
            | _ =>
                Host "div" "sl-flex sl-my-2 sl-text-muted" []
                     (map (fun text => Value (Some text) (Some "sl-mr-2")) texts)
            end.
Proof.
  intros Hall. apply NumberValidations_texts. intros k v Hk.
  split; [|now apply (Hall k)].
  rewrite lookup_numberBucket in Hk.
  now destruct (includes numberValidationNames k).
Qed.

(** The three buckets on the text of the conversion, name by name. *)
Lemma buckets_by_name (validations : Dictionary) (hideExamples : bool) :
  let numeric := fun k : string =>
    In k ["minimum"; "maximum"; "minLength"; "maxLength"; "minItems";
          "maxItems"; "exclusiveMinimum"; "exclusiveMaximum"] in
  let excluded := fun k : string =>
    In k ["exclusiveMinimum"; "exclusiveMaximum"; "readOnly"; "writeOnly"] in
  let boolean := fun (k : string) (v : value) =>
    (String v = "true" \/ String v = "false") /\ ~ excluded k in
  (forall k v,
      lookup k (numberBucket validations) = Some v
      <-> lookup k validations = Some v /\ numeric k)
  /\ (forall k v,
         lookup k (booleanBucket validations) = Some v
         <-> lookup k validations = Some v /\ boolean k v)
  /\ (forall k v,
         lookup k (keyValueBucket validations hideExamples) = Some v
         <-> lookup k validations = Some v
             /\ ~ numeric k /\ ~ boolean k v /\ ~ excluded k
             /\ ~ (hideExamples = true /\ k = "examples")).
Proof.
  intros numeric excluded boolean.
  assert (Hnum : forall k, includes numberValidationNames k = true <-> numeric k)
    by (intros k; apply includes_In).
  assert (Hexc : forall k, includes excludedValidations k = true <-> excluded k)
    by (intros k; apply includes_In).
  split; [|split].
  - intros k v. rewrite lookup_numberBucket, <- Hnum.
    destruct (includes numberValidationNames k); split;
      try tauto; try discriminate; intros [? ?]; discriminate.
  - intros k v. rewrite lookup_booleanBucket. unfold boolean.
    rewrite <- Hexc, <- includes_true_false.
    destruct (includes excludedValidations k).
    + split; [discriminate | intros [_ [_ Hne]]; now elim Hne].
    + destruct (lookup k validations) as [v0|]; [|split; [discriminate | tauto]].
      destruct (includes ["true"; "false"] (String v0)) eqn:Htf; split.
      * intros Heq. inversion Heq; subst. rewrite Htf. repeat split; auto.
      * tauto.
      * discriminate.
      * intros [Heq [Ht _]]. inversion Heq; subst. congruence.
  - intros k v. rewrite lookup_keyValueBucket. unfold boolean.
    rewrite <- Hexc, <- Hnum, <- includes_true_false.
    destruct (lookup k validations) as [v0|] eqn:Hk.
    2:{ split; [now destruct (_ || _) | intros [? _]; discriminate]. }
    rewrite (has_numberBucket _ _ _ Hk), (has_booleanBucket _ _ _ Hk).
    destruct (includes numberValidationNames k),
             (includes excludedValidations k) eqn:He,
             (includes ["true"; "false"] (String v0)) eqn:Htf;
      cbn [orb andb negb];
      try (split; [discriminate | intros (_ & Hn & Hb & Hx & _); tauto]).
    + split; [discriminate|]. intros (Heq & _ & Hb & _). inversion Heq; subst.
      exfalso. apply Hb. rewrite Htf. split; [reflexivity | discriminate].
    + destruct hideExamples; cbn [orb andb negb].
      * destruct (String.eqb_spec k "examples") as [->|Hne]; split.
        -- discriminate.
        -- intros (_ & _ & _ & _ & Hh). exfalso. apply Hh. auto.
        -- intros Heq. inversion Heq; subst v0.
           repeat split; try discriminate.
           ++ intros [Ht _]. congruence.
           ++ intros [_ Hk']. contradiction.
        -- tauto.
      * split; [|tauto]. intros Heq. inversion Heq; subst v0.
        repeat split; try discriminate.
        -- intros [Ht _]. congruence.
        -- intros [Hh _]. discriminate.
Qed.


(** C4. For a mapping whose values all convert to a string, the three
    buckets of the presenter, name by name: a name is in the numeric
    bucket iff it is one of the eight numeric-validation names; in the
    boolean bucket iff its value stringifies to ["true"] or ["false"]
    and it is not excluded; in the keyed bucket iff it is in neither of
    the two, not excluded, and not [examples] while [hideExamples] is
    set.  These are the buckets the component builds, and it renders the
    numeric block, then the keyed block, then the boolean block. *)
Theorem presenter_sorts_names_and_renders_in_order
  (validations : Dictionary) (hideExamples : bool) :
  (forall k v, lookup k validations = Some v -> convertible v = true) ->
  let numeric := fun k : string =>
    In k ["minimum"; "maximum"; "minLength"; "maxLength"; "minItems";
          "maxItems"; "exclusiveMinimum"; "exclusiveMaximum"] in
  let excluded := fun k : string =>
    In k ["exclusiveMinimum"; "exclusiveMaximum"; "readOnly"; "writeOnly"] in
  let boolean := fun (k : string) (v : value) =>
    (ToString v = Ok "true" \/ ToString v = Ok "false") /\ ~ excluded k in
  (forall k v,
      lookup k (numberBucket validations) = Some v
      <-> lookup k validations = Some v /\ numeric k)
  /\ (forall k v,
         lookup k (booleanBucket validations) = Some v
         <-> lookup k validations = Some v /\ boolean k v)
  /\ (forall k v,
         lookup k (keyValueBucket validations hideExamples) = Some v
         <-> lookup k validations = Some v
             /\ ~ numeric k /\ ~ boolean k v /\ ~ excluded k
             /\ ~ (hideExamples = true /\ k = "examples"))
  /\ booleanValidations_of validations = Ok (booleanBucket validations)
  /\ exists numbers,
      NumberValidations (numberBucket validations) = Ok numbers
      /\ Validations.Validations validations hideExamples
         = Ok (Fragment
                 [numbers;
                  KeyValueValidations (keyValueBucket validations hideExamples);
                  NameValidations (booleanBucket validations)]).
Proof.
  intros Hconv numeric excluded boolean.
  destruct (buckets_by_name validations hideExamples)
    as (Hnumbers & Hbooleans & Hkeyed).
  assert (Hall : forallb (fun k => convertible (get validations k))
                         (Object_keys validations) = true)
    by now apply forallb_convertible.
  assert (Htext : forall k v,
             lookup k validations = Some v ->
             ((ToString v = Ok "true" \/ ToString v = Ok "false")
              <-> (String v = "true" \/ String v = "false"))).
  { intros k v Hk. rewrite (ToString_convertible v (Hconv k v Hk)).
    split; intros [Ht|Ht]; solve [left; congruence | right; congruence]. }
  split; [exact Hnumbers|]. split; [|split; [|split]].
  - intros k v. rewrite Hbooleans. unfold boolean.
    split; intros [Hk [Ht Hx]]; (split; [exact Hk|]); (split; [|exact Hx]);
      now apply (Htext k v Hk).
  - intros k v. rewrite Hkeyed. unfold boolean.
    split; intros (Hk & Hn & Hb & Hrest);
      (split; [exact Hk|]); (split; [exact Hn|]); (split; [|exact Hrest]);
      intros [Ht Hx]; apply Hb; (split; [|exact Hx]);
      now apply (Htext k v Hk).
  - now rewrite booleanValidations_of_spec, Hall.
  - destruct (NumberValidations_numberBucket validations) as [texts [_ Hnv]].
    { intros k v Hk. apply (Hconv k). rewrite lookup_numberBucket in Hk.
      now destruct (includes numberValidationNames k). }
    eexists. split; [exact Hnv|].
    rewrite Validations_spec, Hall, Hnv. reflexivity.
Qed.


End WithRuntime.

Lemma presenter_sorts_names_and_renders_in_order_witness :
  (forall k v, lookup k Samples.badge_validations = Some v ->
               convertible v = true)
  /\ @booleanValidations_of Samples.sample_runtime Samples.badge_validations
     = Ok (@booleanBucket Samples.sample_runtime Samples.badge_validations)
  /\ exists numbers,
      @NumberValidations Samples.sample_runtime Samples.sample_prototype
        (numberBucket Samples.badge_validations) = Ok numbers
      /\ @Validations.Validations Samples.sample_runtime
           Samples.sample_prototype Samples.badge_validations false
         = Ok (Fragment
                 [numbers;
                  @KeyValueValidations Samples.sample_runtime
                    (@keyValueBucket Samples.sample_runtime
                       Samples.badge_validations false);
                  NameValidations
                    (@booleanBucket Samples.sample_runtime
                       Samples.badge_validations)]).
Proof.
  assert (Hconv : forall k v, lookup k Samples.badge_validations = Some v ->
                              convertible v = true)
    by (apply convertible_bindings; reflexivity).
  split; [exact Hconv|].
  exact (proj2 (proj2 (proj2
           (@presenter_sorts_names_and_renders_in_order
              Samples.sample_runtime Samples.sample_prototype
              Samples.badge_validations false Hconv)))).
Defined.


(** The spec's badge-order scenario: the numeric block comes first, then
    the keyed block, then the boolean block; [readOnly] is excluded and
    gives no badge. *)
Example badge_order_scenario :
  @Validations.Validations Samples.sample_runtime Samples.sample_prototype
    Samples.badge_validations false
  = Ok (Fragment
          [Host "div" "sl-flex sl-my-2 sl-text-muted" []
             [@Value (Some ">= 1") (Some "sl-mr-2")];
           Fragment
             [@KeyValueValidation "Allowed values"
                [Some (Samples.quote "a"); Some (Samples.quote "b")]];
           Fragment
             [Host "div" "sl-flex sl-flex-wrap sl-my-2" []
                [@Value (Some "deprecated")
                   (Some "sl-mr-2 sl-text-muted sl-capitalize")]]]).
Proof. vm_compute. reflexivity. Qed.

(** The keys are not partitioned: in a mapping whose values all convert,
    [minLength] with the value ["true"] is in the numeric and in the
    boolean bucket the component builds, and [readOnly] is in none of
    the three buckets.  And not every mapping is rendered: a [default]
    with an own [toString] property makes the component throw. *)
Lemma buckets_are_not_a_partition :
  @booleanValidations_of Samples.sample_runtime Samples.overlapping_validations
  = Ok (@booleanBucket Samples.sample_runtime Samples.overlapping_validations)
  /\ lookup "minLength" (numberBucket Samples.overlapping_validations)
     = Some (JStr "true")
  /\ lookup "minLength"
       (@booleanBucket Samples.sample_runtime Samples.overlapping_validations)
     = Some (JStr "true")
  /\ lookup "readOnly" Samples.overlapping_validations = Some (JBool true)
  /\ lookup "readOnly" (numberBucket Samples.overlapping_validations) = None
  /\ lookup "readOnly"
       (@booleanBucket Samples.sample_runtime Samples.overlapping_validations)
     = None
  /\ lookup "readOnly"
       (@keyValueBucket Samples.sample_runtime
          Samples.overlapping_validations false)
     = None
  /\ @Validations.Validations Samples.sample_runtime Samples.sample_prototype
       Samples.unconvertible_validations false
     = Throw "TypeError".
Proof. vm_compute. repeat split. Qed.

(** A value with an own [toString] property does not convert, and the
    component throws while it builds the boolean bucket. *)
Example unconvertible_value_scenario :
  convertible (JObj [("toString", JNum (Number_of_Z 1))]) = false
  /\ @ToString Samples.sample_runtime
       (JArr [JObj [("toString", JNum (Number_of_Z 1))]])
     = Throw "TypeError"
  /\ @Validations.Validations Samples.sample_runtime Samples.sample_prototype
       Samples.unconvertible_validations false
     = Throw "TypeError".
Proof. vm_compute. repeat split. Qed.


End PresenterFacts.

(* --------------------------------------------------------------------- *)
(** ** The tree host                                                       *)
(* --------------------------------------------------------------------- *)

Module SchemaTreeFacts.
Import JS Tree SchemaTree.

Lemma emit_after_mount (node : TreeListNode) (store : TreeStore) :
  listeners store = [] ->
  emit NodeClick node (SchemaTree_mount store)
  = run_calls (onNodeClick node) (SchemaTree_mount store).
Proof.
  intros Hl. unfold emit, SchemaTree_mount, events_on. cbn [listeners].
  rewrite Hl. reflexivity.
Qed.

(** C9. With the host's listener as the only one registered, a click on
    a node calls [toggleExpand] on that node iff the node is a parent
    node (it has a [children] property): a click on a parent flips the
    expansion flag of the clicked node and of no other, a click on a
    leaf leaves the expansion state unchanged. *)
Theorem node_click_toggles_parents_only
  (node : TreeListNode) (store : TreeStore) :
  listeners store = [] ->
  let mounted := SchemaTree_mount store in
  (forall n, In (ToggleExpand n) (onNodeClick node)
             <-> n = node /\ isParentNode node = true)
  /\ (isParentNode node = true ->
      emit NodeClick node mounted = toggleExpand node mounted
      /\ (id node ∈ expanded (emit NodeClick node mounted)
          <-> id node ∉ expanded store)
      /\ (forall other, other <> id node ->
            (other ∈ expanded (emit NodeClick node mounted)
             <-> other ∈ expanded store)))
  /\ (isParentNode node = false ->
      onNodeClick node = []
      /\ emit NodeClick node mounted = mounted
      /\ expanded (emit NodeClick node mounted) = expanded store).
Proof.
  intros Hl mounted. split; [|split].
  - intros n. unfold onNodeClick. destruct (isParentNode node); cbn.
    + split.
      * intros [Heq|[]]. inversion Heq. auto.
      * intros [-> _]. now left.
    + split; [tauto | intros [_ Hf]; discriminate].
  - intros Hp. unfold mounted. rewrite (emit_after_mount _ _ Hl).
    unfold onNodeClick. rewrite Hp. cbn [run_calls fold_left run_call].
    split; [reflexivity|].
    unfold toggleExpand, SchemaTree_mount, events_on. cbn [expanded].
    destruct (bool_decide (id node ∈ expanded store)) eqn:Hd;
      [apply bool_decide_eq_true_1 in Hd | apply bool_decide_eq_false_1 in Hd].
    + split.
      * rewrite elem_of_difference, elem_of_singleton. tauto.
      * intros other Hne. rewrite elem_of_difference, elem_of_singleton. tauto.
    + split.
      * rewrite elem_of_union, elem_of_singleton. tauto.
      * intros other Hne. rewrite elem_of_union, elem_of_singleton. tauto.
  - intros Hp. unfold mounted. rewrite (emit_after_mount _ _ Hl).
    unfold onNodeClick. rewrite Hp. cbn [run_calls fold_left].
    repeat split; reflexivity.
Qed.

Lemma node_click_toggles_parents_only_witness :
  listeners Samples.empty_store = []
  /\ emit NodeClick Samples.root_node (SchemaTree_mount Samples.empty_store)
     = toggleExpand Samples.root_node (SchemaTree_mount Samples.empty_store)
  /\ emit NodeClick Samples.id_node (SchemaTree_mount Samples.empty_store)
     = SchemaTree_mount Samples.empty_store.
Proof.
  split; [reflexivity|]. split.
  - apply (node_click_toggles_parents_only
             Samples.root_node Samples.empty_store eq_refl).
    reflexivity.
  - apply (node_click_toggles_parents_only
             Samples.id_node Samples.empty_store eq_refl).
    reflexivity.
Defined.

End SchemaTreeFacts.

(* --------------------------------------------------------------------- *)
(** ** The row components                                                  *)
(* --------------------------------------------------------------------- *)

Module SchemaRowFacts.
Import JS React Tree SchemaRow.
Local Open Scope list_scope.

Lemma strict_equal_string (s : string) (x : value) :
  strict_equal (JStr s) x = true <-> x = JStr s.
Proof.
  destruct x; cbn; split; try discriminate; try congruence.
  - intros Heq. apply String.eqb_eq in Heq. now subst.
  - intros Heq. inversion Heq. apply String.eqb_refl.
Qed.

Lemma array_includes_string (s : string) (xs : list value) :
  existsb (strict_equal (JStr s)) xs = true <-> In (JStr s) xs.
Proof.
  rewrite existsb_exists. split.
  - intros [x [Hin Heq]]. apply strict_equal_string in Heq. now subst.
  - intros Hin. exists (JStr s). split; [assumption|].
    now apply strict_equal_string.
Qed.

Lemma same_object_refl (item : SchemaRef) : same_object item item = true.
Proof. apply Pos.eqb_refl. Qed.

Lemma at_index_nth {A : Type} (items : list A) (i : Z) (x : A) :
  at_index items i = Some x <-> 0 <= i /\ nth_error items (Z.to_nat i) = Some x.
Proof.
  unfold at_index. destruct (Z.ltb_spec i 0); split.
  - discriminate.
  - intros [? _]. lia.
  - auto.
  - tauto.
Qed.

(** [indexOf] finds the first position that holds the object. *)
Lemma indexOf_from_first (items : list SchemaRef) (item : SchemaRef) :
  forall (i : Z) (n : nat) (x : SchemaRef),
    nth_error items n = Some x ->
    same_object x item = true ->
    let r := indexOf_from i items item in
    i <= r <= i + Z.of_nat n
    /\ (exists first, nth_error items (Z.to_nat (r - i)) = Some first
                      /\ same_object first item = true)
    /\ (forall (j : nat) (y : SchemaRef),
           (Z.of_nat j < r - i) ->
           nth_error items j = Some y -> same_object y item = false).
Proof.
  induction items as [|a items IH]; intros i n x Hn Hx.
  - destruct n; discriminate.
  - cbn [indexOf_from]. destruct (same_object a item) eqn:Ha.
    + cbn zeta. replace (i - i) with 0 by lia. split; [lia|]. split.
      * exists a. split; [reflexivity | assumption].
      * intros j y Hj. lia.
    + destruct n as [|n]; [cbn in Hn; inversion Hn; congruence|].
      cbn [nth_error] in Hn.
      destruct (IH (i + 1) n x Hn Hx) as (Hr & [first [Hf Hs]] & Hbefore).
      cbn zeta.
      set (r := indexOf_from (i + 1) items item) in *.
      split; [lia|]. split.
      * exists first. split; [|assumption].
        replace (Z.to_nat (r - i)) with (S (Z.to_nat (r - (i + 1)))) by lia.
        exact Hf.
      * intros j y Hj Hy. destruct j as [|j].
        -- cbn in Hy. inversion Hy. now subst.
        -- cbn [nth_error] in Hy. apply (Hbefore j y); [lia | assumption].
Qed.

(** C3. When the user selects the branch schema found at index [i] of the
    candidate list, the handler first writes into the choice state, under
    the node's identity, the index of the first occurrence of that schema
    object in the list, and then asks for the node's children to be
    populated with the chosen schema, the node's path extended with that
    index, and the eager flag [false].  The index is [i] whenever the
    same object does not occur earlier in the list. *)
Theorem selection_writes_choice_then_populates
  (node : TreeListNode) (path : list value) (items : list SchemaRef)
  (i : Z) (item : SchemaRef) (e : bool) :
  at_index items i = Some item ->
  let index := indexOf items item in
  onItemSelect node path items item e
  = ((if e then [PreventDefault] else [])
     ++ [SetChoiceForNode (id node) index;
         AddChildrenToTreeListNode (id node);
         PopulateCombiner (id node) item
                          (path ++ [JNum (Number_of_Z index)]) false])%list
  /\ 0 <= index <= i
  /\ (exists first, at_index items index = Some first
                    /\ same_object first item = true)
  /\ (forall j x, 0 <= j < index -> at_index items j = Some x ->
                  same_object x item = false)
  /\ ((forall j x, 0 <= j < i -> at_index items j = Some x ->
                   same_object x item = false) ->
      index = i)
  /\ (forall st,
         let st' := run_effects (onItemSelect node path items item e) st in
         getChoiceForNode (choices st') (id node) = index
         /\ populated st'
            = (populated st
               ++ [(id node, item, path ++ [JNum (Number_of_Z index)], false)])%list).
Proof.
  intros Hat index. apply at_index_nth in Hat as [Hi Hnth].
  destruct (indexOf_from_first items item 0 (Z.to_nat i) item Hnth
              (same_object_refl item)) as (Hr & [first [Hf Hs]] & Hbefore).
  fold (indexOf items item) in Hr, Hf, Hbefore. fold index in Hr, Hf, Hbefore.
  rewrite Z.sub_0_r in Hf, Hbefore.
  split; [reflexivity|]. split; [lia|]. split; [|split; [|split]].
  - exists first. split; [|assumption]. apply at_index_nth. split; [lia | exact Hf].
  - intros j x Hj Hx. apply at_index_nth in Hx as [_ Hx].
    apply (Hbefore (Z.to_nat j) x); [lia | assumption].
  - intros Hnone. destruct (Z.eq_dec index i) as [Heq|Hne]; [assumption|].
    exfalso. assert (Hlt : 0 <= index < i) by lia.
    assert (Hx : at_index items index = Some first)
      by (apply at_index_nth; split; [lia | exact Hf]).
    rewrite (Hnone index first Hlt Hx) in Hs. discriminate.
  - intros st. unfold onItemSelect. fold index.
    unfold run_effects. rewrite fold_left_app.
    assert (Hpre : fold_left run_effect (if e then [PreventDefault] else []) st
                   = st) by (destruct e; reflexivity).
    rewrite Hpre. cbn [fold_left run_effect choices populated].
    split; [|reflexivity].
    unfold getChoiceForNode, setChoiceForNode. now rewrite lookup_insert_eq.
Qed.

Lemma selection_writes_choice_then_populates_witness :
  at_index Samples.aliased_items 1 = Some Samples.shared_branch
  /\ 0 <= indexOf Samples.aliased_items Samples.shared_branch <= 1.
Proof.
  split; [reflexivity|].
  apply (selection_writes_choice_then_populates
           Samples.empty_combiner_node [] Samples.aliased_items 1
           Samples.shared_branch true).
  reflexivity.
Defined.

(** With the same schema object at positions 0 and 1, selecting the
    branch at index 1 records index 0 and extends the path with 0. *)
Lemma selecting_an_aliased_branch_records_the_first_index :
  at_index Samples.aliased_items 1 = Some Samples.shared_branch
  /\ onItemSelect Samples.empty_combiner_node [JStr "choice"]
       Samples.aliased_items Samples.shared_branch false
     = [SetChoiceForNode "1" 0;
        AddChildrenToTreeListNode "1";
        PopulateCombiner "1" Samples.shared_branch
          [JStr "choice"; JNum (Number_of_Z 0)] false]
  /\ getChoiceForNode
       (choices
          (run_effects
             (onItemSelect Samples.empty_combiner_node [JStr "choice"]
                Samples.aliased_items Samples.shared_branch false)
             {| choices := ∅; populated := [] |}))
       "1" <> 1.
Proof.
  split; [reflexivity|]. split; [reflexivity|].
  vm_compute. discriminate.
Qed.

Section RowsOfOtherNodes.
Context `{R : Runtime} (tree other : Collaborators).

(** The required check reads the tree only at the node and at its
    parent. *)
Lemma isRequired_reads_node_and_parent (treeNode : TreeListNode) :
  @getSchemaNodeMetadata other treeNode = @getSchemaNodeMetadata tree treeNode ->
  (forall parentNode, parent treeNode = Some parentNode ->
                      @getNodeMetadata other parentNode
                      = @getNodeMetadata tree parentNode) ->
  @getPrimaryType other = @getPrimaryType tree ->
  @isArrayNodeWithItems other = @isArrayNodeWithItems tree ->
  @isRequired R other treeNode = @isRequired R tree treeNode.
Proof.
  intros Hs Hp Hpt Harr. unfold isRequired.
  destruct (parent treeNode) as [parentNode|]; [|reflexivity].
  unfold getRelevantSchemaForRequireCheck.
  now rewrite Hs, (Hp parentNode eq_refl), Hpt, Harr.
Qed.

(** The property row reads the tree only at the node and at its
    parent. *)
Lemma SchemaPropertyRow_reads_node_and_parent (node : TreeListNode)
  (rowOptions : IRowRendererOptions) (state : gmap string Z) :
  @getSchemaNodeMetadata other node = @getSchemaNodeMetadata tree node ->
  (forall parentNode, parent node = Some parentNode ->
                      @getNodeMetadata other parentNode
                      = @getNodeMetadata tree parentNode
                      /\ @getSchemaNodeMetadata other parentNode
                         = @getSchemaNodeMetadata tree parentNode) ->
  @getPrimaryType other = @getPrimaryType tree ->
  @isArrayNodeWithItems other = @isArrayNodeWithItems tree ->
  @isRefNode other = @isRefNode tree ->
  @hasRefItems other = @hasRefItems tree ->
  @Tree_getLevel other = @Tree_getLevel tree ->
  @SchemaPropertyRow R other node rowOptions state
  = @SchemaPropertyRow R tree node rowOptions state.
Proof.
  intros Hs Hp Hpt Harr Href Hitems Hlevel.
  assert (Hreq : @isRequired R other node = @isRequired R tree node).
  { apply isRequired_reads_node_and_parent; auto.
    intros parentNode Hpar. now apply Hp. }
  unfold SchemaPropertyRow.
  rewrite Hs, Hreq, Hpt, Href, Hitems, Hlevel.
  destruct (parent node) as [parentNode|]; [|reflexivity].
  now rewrite (proj2 (Hp parentNode eq_refl)).
Qed.

End RowsOfOtherNodes.

Section WithCollaborators.
Context `{Runtime} `{Collaborators}.

(** C8. A node whose metadata is an error placeholder renders as the
    error row in place of the property row: the two [div]s of a row
    around a [span] that shows the placeholder's message.  The rows of
    the other nodes do not depend on it: whatever the tree holds for the
    node, a node that is neither the node itself nor one of its children
    renders the same row. *)
Theorem error_placeholder_renders_error_row
  (tree : Collaborators) (className : option string) (node : TreeListNode)
  (rowOptions : IRowRendererOptions) (state : gmap string Z) (message : string) :
  @getNodeMetadata tree node = Ok (MetaError message) ->
  @SchemaRow _ tree className node rowOptions state
  = Ok (Host "div" (cn "px-2 flex-1 w-full max-w-full" className) []
          [Host "div" "flex items-center text-sm relative"
             [("marginLeft", Z_toString (20 * @Tree_getLevel tree node))]
             [Host "span" "text-red-5 dark:text-red-4" [] [Text message]]])
  /\ forall other : Collaborators,
      (forall n, id n <> id node ->
                 @getNodeMetadata other n = @getNodeMetadata tree n
                 /\ @getSchemaNodeMetadata other n
                    = @getSchemaNodeMetadata tree n) ->
      @getPrimaryType other = @getPrimaryType tree ->
      @isArrayNodeWithItems other = @isArrayNodeWithItems tree ->
      @isRefNode other = @isRefNode tree ->
      @hasRefItems other = @hasRefItems tree ->
      @Tree_getLevel other = @Tree_getLevel tree ->
      forall (siblingClass : option string) (sibling : TreeListNode)
             (siblingOptions : IRowRendererOptions),
        id sibling <> id node ->
        (forall parentNode, parent sibling = Some parentNode ->
                            id parentNode <> id node) ->
        @SchemaRow _ other siblingClass sibling siblingOptions state
        = @SchemaRow _ tree siblingClass sibling siblingOptions state.
Proof.
  intros Hmeta. split.
  - unfold SchemaRow. rewrite Hmeta. reflexivity.
  - intros other Hnodes Hpt Harr Href Hitems Hlevel cls sibling opts Hne Hpar.
    unfold SchemaRow, row_frame.
    rewrite (proj1 (Hnodes sibling Hne)), Hlevel.
    rewrite (SchemaPropertyRow_reads_node_and_parent tree other sibling
               opts state);
      [reflexivity | exact (proj2 (Hnodes sibling Hne)) | | auto ..].
    intros parentNode Hp. apply Hnodes. now apply Hpar.
Qed.

(** The schema consulted by the required check, case by case. *)
Lemma getRelevantSchemaForRequireCheck_cases (treeNode : TreeListNode) :
  getRelevantSchemaForRequireCheck treeNode
  = match getNodeMetadata treeNode with
    | Throw e => Throw e
    | Ok (MetaError _) => Ok JNull
    | Ok (MetaSchema meta) =>
        match isArrayNodeWithItems (schemaNode meta) with
        | Throw e => Throw e
        | Ok true => Ok (prop (schemaNode meta) "items")
        | Ok false => Ok (schema meta)
        end
    end.
Proof.
  unfold getRelevantSchemaForRequireCheck.
  destruct (getNodeMetadata treeNode) as [[meta|msg]|e]; reflexivity.
Qed.

(** C2. [isRequired] is [false] for a node without parent and for a node
    with an empty path.  Otherwise it is [true] iff the schema relevant
    for the parent (the parent's [items] when the parent is an array node
    with items, else the parent's schema; [null] for an error
    placeholder) is not [null], is not an array, has primary type
    ["object"], and its [required] is an array that contains the
    stringified last segment of the node's path.  An exception of a
    lookup yields [false]. *)
Theorem isRequired_characterisation (treeNode : TreeListNode) :
  (parent treeNode = None -> isRequired treeNode = false)
  /\ (forall meta, getSchemaNodeMetadata treeNode = Ok meta ->
                   path meta = [] -> isRequired treeNode = false)
  /\ (isRequired treeNode = true <->
      exists parentNode meta schema required,
        parent treeNode = Some parentNode
        /\ getSchemaNodeMetadata treeNode = Ok meta
        /\ path meta <> []
        /\ getRelevantSchemaForRequireCheck parentNode = Ok schema
        /\ schema <> JNull
        /\ Array_isArray schema = false
        /\ getPrimaryType schema = Ok (JStr "object")
        /\ prop schema "required" = JArr required
        /\ In (JStr (String (List.last (path meta) JUndefined))) required)
  /\ (forall parentNode,
         parent treeNode = Some parentNode ->
         (exists e, getSchemaNodeMetadata treeNode = Throw e)
         \/ (exists e, getRelevantSchemaForRequireCheck parentNode = Throw e)
         \/ (exists schema e,
                getRelevantSchemaForRequireCheck parentNode = Ok schema
                /\ getPrimaryType schema = Throw e) ->
         isRequired treeNode = false)
  /\ (forall parentNode,
         getRelevantSchemaForRequireCheck parentNode
         = match getNodeMetadata parentNode with
           | Throw e => Throw e
           | Ok (MetaError _) => Ok JNull
           | Ok (MetaSchema meta) =>
               match isArrayNodeWithItems (schemaNode meta) with
               | Throw e => Throw e
               | Ok true => Ok (prop (schemaNode meta) "items")
               | Ok false => Ok (schema meta)
               end
           end).
Proof.
  assert (Htrue :
    isRequired treeNode = true <->
    exists parentNode meta schema required,
      parent treeNode = Some parentNode
      /\ getSchemaNodeMetadata treeNode = Ok meta
      /\ path meta <> []
      /\ getRelevantSchemaForRequireCheck parentNode = Ok schema
      /\ schema <> JNull
      /\ Array_isArray schema = false
      /\ getPrimaryType schema = Ok (JStr "object")
      /\ prop schema "required" = JArr required
      /\ In (JStr (String (List.last (path meta) JUndefined))) required).
  { unfold isRequired. split.
    - destruct (parent treeNode) as [parentNode|] eqn:Hp; [|discriminate].
      destruct (getSchemaNodeMetadata treeNode) as [meta|e] eqn:Hm;
        [|discriminate].
      cbn [mbind result_bind try_catch].
      destruct (path meta) as [|seg segs] eqn:Hpath; [discriminate|].
      destruct (getRelevantSchemaForRequireCheck parentNode) as [schema|e]
        eqn:Hs; [|discriminate].
      cbn [mbind result_bind try_catch].
      destruct (is_null schema) eqn:Hnull; [discriminate|].
      destruct (Array_isArray schema) eqn:Harr; [discriminate|].
      destruct (getPrimaryType schema) as [kind|e] eqn:Hk; [|discriminate].
      cbn [mbind result_bind try_catch].
      destruct (strict_equal SchemaKind_Object kind) eqn:Hkind;
        [|discriminate].
      cbn [negb].
      destruct (prop schema "required") as [| | | | |required|] eqn:Hreq;
        try discriminate.
      cbn [try_catch]. intros Hinc.
      apply array_includes_string in Hinc.
      apply strict_equal_string in Hkind. subst kind.
      exists parentNode, meta, schema, required.
      rewrite Hpath.
      refine (conj eq_refl (conj eq_refl (conj _ (conj Hs (conj _
                (conj Harr (conj Hk (conj Hreq Hinc)))))))).
      + discriminate.
      + intros ->. discriminate.
    - intros (parentNode & meta & schema & required & Hp & Hm & Hpath & Hs
              & Hnn & Harr & Hkind & Hreq & Hin).
      rewrite Hp, Hm. cbn [mbind result_bind].
      destruct (path meta) as [|seg segs] eqn:Hsegs; [congruence|].
      rewrite Hs. cbn [mbind result_bind].
      assert (Hnull : is_null schema = false)
        by (destruct schema; first [reflexivity | now elim Hnn]).
      rewrite Hnull, Harr, Hkind. cbn [mbind result_bind].
      assert (Hobj : strict_equal SchemaKind_Object (JStr "object") = true)
        by reflexivity.
      rewrite Hobj. cbn [negb]. rewrite Hreq. cbn [try_catch].
      now apply array_includes_string. }
  split; [|split; [|split; [|split]]].
  - intros Hp. unfold isRequired. now rewrite Hp.
  - intros meta Hm Hpath. unfold isRequired.
    destruct (parent treeNode); [|reflexivity].
    rewrite Hm. cbn [mbind result_bind]. now rewrite Hpath.
  - exact Htrue.
  - intros parentNode Hp Hthrow.
    apply not_true_is_false. intros Hreq.
    apply Htrue in Hreq
      as (p & meta & schema & required & Hp' & Hm & _ & Hs & _ & _ & Hk & _).
    rewrite Hp in Hp'. inversion Hp'; subst p.
    destruct Hthrow as [[e He]|[[e He]|(schema' & e & Hs' & He)]]; congruence.
  - apply getRelevantSchemaForRequireCheck_cases.
Qed.

End WithCollaborators.

Lemma error_placeholder_renders_error_row_witness :
  @getNodeMetadata (Samples.sample_collaborators Samples.sample_store)
    Samples.broken_node
  = Ok (MetaError "Could not resolve the reference")
  /\ @SchemaRow Samples.sample_runtime
       (Samples.sample_collaborators Samples.sample_store)
       None Samples.broken_node {| isExpanded := None |} ∅
     = Ok (Host "div" "px-2 flex-1 w-full max-w-full" []
             [Host "div" "flex items-center text-sm relative"
                [("marginLeft", "0")]
                [Host "span" "text-red-5 dark:text-red-4" []
                   [Text "Could not resolve the reference"]]])
  /\ @SchemaRow Samples.sample_runtime
       (Samples.sample_collaborators Samples.repaired_store)
       None Samples.id_node {| isExpanded := None |} ∅
     = @SchemaRow Samples.sample_runtime
         (Samples.sample_collaborators Samples.sample_store)
         None Samples.id_node {| isExpanded := None |} ∅.
Proof.
  pose proof (@error_placeholder_renders_error_row Samples.sample_runtime
                (Samples.sample_collaborators Samples.sample_store)
                None Samples.broken_node {| isExpanded := None |} ∅
                "Could not resolve the reference" eq_refl)
    as [Hrow Hothers].
  split; [reflexivity|]. split; [exact Hrow|].
  apply (Hothers (Samples.sample_collaborators Samples.repaired_store));
    try reflexivity.
  - intros n Hn. apply String.eqb_neq in Hn.
    unfold Samples.repaired_store.
    cbn [getNodeMetadata getSchemaNodeMetadata Samples.sample_collaborators
         Samples.metadata_of id].
    cbn [id Samples.broken_node] in Hn. rewrite Hn. split; reflexivity.
  - cbn. discriminate.
  - intros parentNode Hp. inversion Hp; subst. cbn. discriminate.
Defined.

Lemma isRequired_characterisation_witness :
  @isRequired Samples.sample_runtime
    (Samples.sample_collaborators Samples.sample_store) Samples.id_node = true
  /\ exists parentNode meta schema required,
      parent Samples.id_node = Some parentNode
      /\ @getSchemaNodeMetadata
           (Samples.sample_collaborators Samples.sample_store) Samples.id_node
         = Ok meta
      /\ path meta <> []
      /\ @getRelevantSchemaForRequireCheck
           (Samples.sample_collaborators Samples.sample_store) parentNode
         = Ok schema
      /\ schema <> JNull
      /\ Array_isArray schema = false
      /\ @getPrimaryType
           (Samples.sample_collaborators Samples.sample_store) schema
         = Ok (JStr "object")
      /\ prop schema "required" = JArr required
      /\ In (JStr (@String Samples.sample_runtime
                     (List.last (path meta) JUndefined))) required.
Proof.
  assert (Hreq : @isRequired Samples.sample_runtime
                   (Samples.sample_collaborators Samples.sample_store)
                   Samples.id_node = true) by (vm_compute; reflexivity).
  split; [exact Hreq|].
  exact (proj1 (proj1 (proj2 (proj2
           (@isRequired_characterisation Samples.sample_runtime
              (Samples.sample_collaborators Samples.sample_store)
              Samples.id_node)))) Hreq).
Defined.

(** C5. A combiner node whose candidate list is empty: the row reads the
    type of the candidate at the chosen index, there is none, and the
    [TypeError] leaves [SchemaPropertyRow] and [SchemaRow]; no property
    row and no error row is produced.  The sibling of the node renders
    on its own. *)
Theorem empty_combiner_row_throws :
  getCombinerOptions Samples.empty_combiner_node = Some []
  /\ @SchemaPropertyRow Samples.sample_runtime
       (Samples.sample_collaborators Samples.sample_store)
       Samples.empty_combiner_node {| isExpanded := None |} ∅
     = Throw "TypeError"
  /\ @SchemaRow Samples.sample_runtime
       (Samples.sample_collaborators Samples.sample_store)
       None Samples.empty_combiner_node {| isExpanded := None |} ∅
     = Throw "TypeError"
  /\ exists row,
      @SchemaRow Samples.sample_runtime
        (Samples.sample_collaborators Samples.sample_store)
        None Samples.id_node {| isExpanded := None |} ∅
      = Ok row.
Proof.
  split; [reflexivity|].
  split; [vm_compute; reflexivity|].
  split; [vm_compute; reflexivity|].
  eexists. vm_compute. reflexivity.
Qed.

(** The scenario of the required check: [id] is listed in the parent's
    [required]; the root and a node under an error placeholder are not
    required. *)
Example isRequired_samples :
  @isRequired Samples.sample_runtime
    (Samples.sample_collaborators Samples.sample_store) Samples.id_node = true
  /\ @isRequired Samples.sample_runtime
       (Samples.sample_collaborators Samples.sample_store) Samples.root_node
     = false
  /\ @isRequired Samples.sample_runtime
       (Samples.sample_collaborators Samples.sample_store) Samples.broken_node
     = false.
Proof. vm_compute. auto. Qed.

End SchemaRowFacts.

(* --------------------------------------------------------------------- *)
(** ** The order of the properties of an object                            *)
(* --------------------------------------------------------------------- *)

Module OrderFacts.
Import JS Lodash DictionaryFacts LodashFacts.
Local Open Scope list_scope.

Lemma has_cons (k k0 : string) (v0 : value) (d : Dictionary) :
  has ((k0, v0) :: d) k = String.eqb k k0 || has d k.
Proof. unfold has. cbn [lookup]. now destruct (String.eqb k k0). Qed.

Lemma has_set (k k' : string) (v : value) (d : Dictionary) :
  has (set k' v d) k = String.eqb k k' || has d k.
Proof.
  unfold has. rewrite lookup_set.
  destruct (String.eqb k k'); [reflexivity|]. now destruct (lookup k d).
Qed.

Lemma has_In_keys (d : Dictionary) (k : string) :
  has d k = true <-> In k (Object_keys d).
Proof. now rewrite has_lookup, In_Object_keys. Qed.

Lemma map_fst_set (k : string) (v : value) (d : Dictionary) :
  map fst (set k v d)
  = if has d k then map fst d else map fst d ++ [k].
Proof.
  induction d as [|[k0 v0] d IH]; [reflexivity|].
  cbn [set]. rewrite has_cons.
  destruct (String.eqb_spec k k0) as [->|Hne]; [reflexivity|].
  cbn [map fst orb]. rewrite IH. now destruct (has d k).
Qed.

Lemma uniq_snoc (xs : list string) (k : string) :
  ~ In k xs -> uniq (xs ++ [k]) = uniq xs ++ [k].
Proof.
  induction xs as [|x xs IH]; intros Hnin; [reflexivity|].
  cbn [app uniq]. rewrite IH by (intros Hin; apply Hnin; now right).
  rewrite List.filter_app. cbn [List.filter].
  destruct (String.eqb_spec x k) as [->|Hne]; [|reflexivity].
  exfalso. apply Hnin. now left.
Qed.

Lemma filter_filter_comm {A : Type} (p q : A -> bool) (xs : list A) :
  List.filter p (List.filter q xs) = List.filter q (List.filter p xs).
Proof.
  induction xs as [|x xs IH]; [reflexivity|]. cbn [List.filter].
  destruct (q x) eqn:Hq, (p x) eqn:Hp; cbn [List.filter];
    rewrite ?Hq, ?Hp, IH; reflexivity.
Qed.

Lemma filter_filter_and {A : Type} (p q : A -> bool) (xs : list A) :
  List.filter p (List.filter q xs) = List.filter (fun x => q x && p x) xs.
Proof.
  induction xs as [|x xs IH]; [reflexivity|]. cbn [List.filter].
  destruct (q x); cbn [andb List.filter]; rewrite IH; reflexivity.
Qed.

Lemma filter_absorb (p : string -> bool) (x : string) (xs : list string) :
  p x = false ->
  List.filter p (List.filter (fun y => negb (String.eqb x y)) xs)
  = List.filter p xs.
Proof.
  intros Hp. induction xs as [|y xs IH]; [reflexivity|]. cbn [List.filter].
  destruct (String.eqb_spec x y) as [<-|Hne]; cbn [negb List.filter].
  - now rewrite Hp.
  - now rewrite IH.
Qed.

Lemma uniq_filter (p : string -> bool) (xs : list string) :
  uniq (List.filter p xs) = List.filter p (uniq xs).
Proof.
  induction xs as [|x xs IH]; [reflexivity|]. cbn [List.filter uniq].
  destruct (p x) eqn:Hp.
  - cbn [uniq]. now rewrite IH, filter_filter_comm.
  - now rewrite IH, filter_absorb.
Qed.

Lemma filter_id {A : Type} (p : A -> bool) (xs : list A) :
  (forall x, In x xs -> p x = true) -> List.filter p xs = xs.
Proof.
  induction xs as [|x xs IH]; intros Hp; [reflexivity|]. cbn [List.filter].
  rewrite (Hp x (or_introl eq_refl)), IH; [reflexivity|].
  intros y Hy. apply Hp. now right.
Qed.

Lemma Object_keys_set (k : string) (v : value) (d : Dictionary) :
  Object_keys (set k v d)
  = if has d k then Object_keys d else Object_keys d ++ [k].
Proof.
  unfold Object_keys. rewrite map_fst_set.
  destruct (has d k) eqn:Hhas; [reflexivity|].
  apply uniq_snoc. rewrite <- lookup_In_fst, <- has_lookup. congruence.
Qed.

Lemma map_fst_delete (k : string) (d : Dictionary) :
  map fst (delete k d)
  = List.filter (fun y => negb (String.eqb k y)) (map fst d).
Proof.
  induction d as [|[k0 v0] d IH]; [reflexivity|].
  cbn [delete map fst List.filter].
  destruct (String.eqb k k0); cbn [negb map fst]; now rewrite IH.
Qed.

Lemma Object_keys_delete (k : string) (d : Dictionary) :
  Object_keys (delete k d)
  = List.filter (fun y => negb (String.eqb k y)) (Object_keys d).
Proof. unfold Object_keys. now rewrite map_fst_delete, uniq_filter. Qed.

Lemma NoDup_Object_keys (d : Dictionary) : List.NoDup (Object_keys d).
Proof. apply NoDup_uniq. Qed.

(** Copying properties onto [t] keeps [t]'s order and appends the new
    names in the order they are copied. *)
Lemma Object_keys_copy_keys (s : Dictionary) (ks : list string) :
  List.NoDup ks ->
  forall t : Dictionary,
    Object_keys (fold_left (fun acc kv => set (fst kv) (snd kv) acc)
                           (map (fun k0 => (k0, get s k0)) ks) t)
    = Object_keys t ++ List.filter (fun k => negb (has t k)) ks.
Proof.
  induction 1 as [|k0 ks Hnin Hnd IH]; intros t.
  - cbn. now rewrite app_nil_r.
  - cbn [map fold_left fst snd List.filter]. rewrite IH, Object_keys_set.
    assert (Hext : List.filter (fun k => negb (has (set k0 (get s k0) t) k)) ks
                   = List.filter (fun k => negb (has t k)) ks).
    { apply filter_ext_in. intros k Hk. rewrite has_set.
      destruct (String.eqb_spec k k0) as [->|Hne]; [contradiction|reflexivity]. }
    rewrite Hext. destruct (has t k0); cbn [negb]; [reflexivity|].
    now rewrite <- app_assoc.
Qed.

Lemma Object_keys_spread (t s : Dictionary) :
  Object_keys (spread t s)
  = Object_keys t ++ List.filter (fun k => negb (has t k)) (Object_keys s).
Proof.
  unfold spread, Object_entries.
  apply Object_keys_copy_keys, NoDup_Object_keys.
Qed.

Lemma Object_keys_spread_nil (s : Dictionary) :
  Object_keys (spread [] s) = Object_keys s.
Proof.
  rewrite Object_keys_spread. cbn [Object_keys map uniq app].
  apply filter_id. reflexivity.
Qed.

Lemma Object_keys_delete_all (paths : list string) :
  forall acc : Dictionary,
    Object_keys (fold_left (fun result path => delete path result) paths acc)
    = List.filter (fun k => negb (includes paths k)) (Object_keys acc).
Proof.
  induction paths as [|p paths IH]; intros acc.
  - cbn [fold_left]. symmetry. apply filter_id. reflexivity.
  - cbn [fold_left]. rewrite IH, Object_keys_delete, filter_filter_and.
    apply filter_ext. intros k. rewrite includes_cons, (eqb_sym k p).
    now destruct (String.eqb p k), (includes paths k).
Qed.

Lemma Object_keys_omit (object : Dictionary) (paths : list string) :
  Object_keys (omit object paths)
  = List.filter (fun k => negb (includes paths k)) (Object_keys object).
Proof. unfold omit. now rewrite Object_keys_delete_all, Object_keys_spread_nil. Qed.

Lemma Object_keys_pick_fold (object : Dictionary) (paths : list string) :
  List.NoDup paths ->
  forall acc : Dictionary,
    (forall p, In p paths -> has acc p = false) ->
    Object_keys (fold_left (fun result path =>
                              if has object path
                              then set path (get object path) result
                              else result) paths acc)
    = Object_keys acc ++ List.filter (has object) paths.
Proof.
  induction 1 as [|p paths Hnin Hnd IH]; intros acc Hacc.
  - cbn. now rewrite app_nil_r.
  - cbn [fold_left List.filter].
    assert (Hfresh : forall q, In q paths ->
              has (if has object p then set p (get object p) acc else acc) q
              = false).
    { intros q Hq. destruct (has object p).
      - rewrite has_set, (Hacc q (or_intror Hq)).
        destruct (String.eqb_spec q p) as [->|]; [contradiction|reflexivity].
      - apply Hacc. now right. }
    rewrite (IH _ Hfresh).
    destruct (has object p); [|reflexivity].
    rewrite Object_keys_set, (Hacc p (or_introl eq_refl)).
    now rewrite <- app_assoc.
Qed.

Lemma Object_keys_pick (object : Dictionary) (paths : list string) :
  List.NoDup paths ->
  Object_keys (pick object paths) = List.filter (has object) paths.
Proof.
  intros Hnd. unfold pick. rewrite (Object_keys_pick_fold _ _ Hnd); reflexivity.
Qed.

Lemma Object_keys_pickBy_fold (object : Dictionary) (predicate : value -> bool)
  (ks : list string) :
  List.NoDup ks ->
  forall acc : Dictionary,
    (forall k, In k ks -> has acc k = false) ->
    Object_keys (fold_left (fun result key =>
                              if predicate (get object key)
                              then set key (get object key) result
                              else result) ks acc)
    = Object_keys acc ++ List.filter (fun k => predicate (get object k)) ks.
Proof.
  induction 1 as [|k0 ks Hnin Hnd IH]; intros acc Hacc.
  - cbn. now rewrite app_nil_r.
  - cbn [fold_left List.filter].
    assert (Hfresh : forall q, In q ks ->
              has (if predicate (get object k0)
                   then set k0 (get object k0) acc else acc) q = false).
    { intros q Hq. destruct (predicate (get object k0)).
      - rewrite has_set, (Hacc q (or_intror Hq)).
        destruct (String.eqb_spec q k0) as [->|]; [contradiction|reflexivity].
      - apply Hacc. now right. }
    rewrite (IH _ Hfresh).
    destruct (predicate (get object k0)); [|reflexivity].
    rewrite Object_keys_set, (Hacc k0 (or_introl eq_refl)).
    now rewrite <- app_assoc.
Qed.

Lemma Object_keys_pickBy (object : Dictionary) (predicate : value -> bool) :
  Object_keys (pickBy object predicate)
  = List.filter (fun k => predicate (get object k)) (Object_keys object).
Proof.
  unfold pickBy.
  rewrite (Object_keys_pickBy_fold _ _ _ (NoDup_Object_keys object));
    reflexivity.
Qed.

End OrderFacts.

(* --------------------------------------------------------------------- *)
(** ** More on the validation extractor                                    *)
(* --------------------------------------------------------------------- *)

Module ExtractorOrderFacts.
Import JS Lodash Validations DictionaryFacts LodashFacts OrderFacts ExtractorFacts.
Local Open Scope list_scope.

(** An implied value is a number or a string, never [undefined]. *)
Lemma implied_value_defined (f : string) (implied : Dictionary) (k : string)
  (p : value) :
  oasFormats_own f oasFormats = Some implied ->
  lookup k implied = Some p ->
  strict_equal p JUndefined = false.
Proof.
  unfold oasFormats. cbn [oasFormats_own].
  intros Hown Hk.
  repeat match type of Hown with
         | (if String.eqb ?a ?b then _ else _) = _ =>
             destruct (String.eqb a b)
         end;
    try discriminate; inversion Hown; subst implied; clear Hown;
    cbn [lookup] in Hk;
    repeat match type of Hk with
           | (if String.eqb ?a ?b then _ else _) = _ =>
               destruct (String.eqb a b);
               [inversion Hk; subst p; reflexivity|]
           end; discriminate.
Qed.

(** The deletion loop keeps the surviving names in their order. *)
Lemma Object_keys_delete_implied (entries : list (string * value)) :
  forall newValues : Dictionary,
    let result :=
      fold_left (fun newValues kv =>
                   if strict_equal (snd kv) (get newValues (fst kv))
                   then delete (fst kv) newValues
                   else newValues) entries newValues in
    Object_keys result = List.filter (has result) (Object_keys newValues).
Proof.
  induction entries as [|[k0 p] entries IH]; intros nv; cbn zeta.
  - cbn [fold_left]. symmetry. apply filter_id.
    intros k. apply has_In_keys.
  - cbn [fold_left fst snd].
    destruct (strict_equal p (get nv k0)) eqn:Heq; [|apply IH].
    specialize (IH (delete k0 nv)). cbn zeta in IH.
    rewrite IH, Object_keys_delete. apply filter_absorb.
    unfold has. rewrite lookup_delete_implied, lookup_delete, String.eqb_refl.
    now destruct (existsb _ entries).
Qed.

Lemma Object_keys_filterOut (f : string) (values : Dictionary) :
  Object_keys (filterOutOasFormatValidations f values)
  = List.filter (has (filterOutOasFormatValidations f values))
                (Object_keys values).
Proof.
  unfold filterOutOasFormatValidations.
  destruct (negb (in_oasFormats f)).
  - symmetry. apply filter_id. intros k. apply has_In_keys.
  - rewrite Object_keys_delete_implied. now rewrite Object_keys_spread_nil.
Qed.

Lemma lookup_filterOut_twice (f : string) (values : Dictionary) (k : string) :
  lookup k (filterOutOasFormatValidations f
              (filterOutOasFormatValidations f values))
  = lookup k (filterOutOasFormatValidations f values).
Proof.
  rewrite (lookup_filterOut f (filterOutOasFormatValidations f values)).
  destruct (oasFormats_own f oasFormats) as [implied|] eqn:Hown; [|reflexivity].
  destruct (lookup k implied) as [p|] eqn:Hp; [|reflexivity].
  unfold get at 1. rewrite lookup_filterOut, Hown, Hp.
  destruct (strict_equal p (get values k)) eqn:Heq.
  - now rewrite (implied_value_defined _ _ _ _ Hown Hp).
  - unfold get in Heq. destruct (lookup k values) as [v|].
    + now rewrite Heq.
    + now rewrite Heq.
Qed.

Lemma lookup_filterOut_declared (f : string) (values : Dictionary)
  (k : string) (v : value) :
  lookup k (filterOutOasFormatValidations f values) = Some v ->
  lookup k values = Some v.
Proof.
  rewrite lookup_filterOut.
  destruct (oasFormats_own f oasFormats) as [implied|]; [|auto].
  destruct (lookup k implied); [|auto].
  destruct (strict_equal _ _); [discriminate | auto].
Qed.

(** X1. Filtering the validations a second time under the same format
    changes nothing: the result has the same names, in the same order,
    with the same values. *)
Theorem filterOutOasFormatValidations_idempotent
  (f : string) (values : Dictionary) :
  let once := filterOutOasFormatValidations f values in
  let twice := filterOutOasFormatValidations f once in
  (forall k, lookup k twice = lookup k once)
  /\ Object_keys twice = Object_keys once.
Proof.
  intros once twice.
  assert (Hl : forall k, lookup k twice = lookup k once)
    by (intros k; apply lookup_filterOut_twice).
  split; [exact Hl|].
  unfold twice. rewrite Object_keys_filterOut. fold twice.
  apply filter_id. intros k Hk. unfold has. rewrite Hl.
  apply has_In_keys in Hk. exact Hk.
Qed.

(** X2. Whatever the format, filtering only removes entries: what is
    left was declared with the same value, the names other than
    [minimum], [maximum] and [pattern] are never touched, and the names
    that are left keep the order they had. *)
Theorem filterOutOasFormatValidations_only_removes
  (f : string) (values : Dictionary) :
  let filtered := filterOutOasFormatValidations f values in
  (forall k v, lookup k filtered = Some v -> lookup k values = Some v)
  /\ (forall k, ~ In k ["minimum"; "maximum"; "pattern"] ->
                lookup k filtered = lookup k values)
  /\ Object_keys filtered = List.filter (has filtered) (Object_keys values).
Proof.
  intros filtered. split; [|split].
  - intros k v. apply lookup_filterOut_declared.
  - intros k Hk. unfold filtered. rewrite lookup_filterOut.
    destruct (oasFormats_own f oasFormats) as [implied|] eqn:Hown;
      [|reflexivity].
    destruct (lookup k implied) as [p|] eqn:Hp; [|reflexivity].
    exfalso. apply Hk.
    destruct (implied_names _ _ _ _ Hown Hp) as [->|[->| ->]]; cbn; auto.
  - apply Object_keys_filterOut.
Qed.

(** X3. The extractor invents nothing: every entry of the extracted
    mapping is a declared validation with its declared value, or [enum]
    with the node's enumeration, or [default] / [examples] with the
    truthy annotation of that name.  A declared validation that survives
    the format filter always appears with its declared value, also under
    the names [enum], [default] and [examples]. *)
Theorem extracted_entries_come_from_the_node (node : RegularNode) :
  (forall k v,
      lookup k (getValidationsFromSchema node) = Some v ->
      lookup k (validations node) = Some v
      \/ (k = "enum" /\ exists e, enum node = Some e /\ v = JArr e)
      \/ (k = "default"
          /\ exists a, annotations node = Some a
                       /\ lookup "default" a = Some v /\ truthy v = true)
      \/ (k = "examples"
          /\ exists a, annotations node = Some a
                       /\ lookup "examples" a = Some v /\ truthy v = true))
  /\ (forall k v,
         lookup k (getFilteredValidations node) = Some v ->
         lookup k (validations node) = Some v
         /\ lookup k (getValidationsFromSchema node) = Some v).
Proof.
  assert (Hfilt : forall k v,
             lookup k (getFilteredValidations node) = Some v ->
             lookup k (validations node) = Some v).
  { intros k v. unfold getFilteredValidations.
    destruct (format node) as [f|]; [|auto].
    apply lookup_filterOut_declared. }
  assert (Hann : forall (a : Dictionary) (name : string),
             truthy (get a name) = true ->
             lookup name a = Some (get a name)).
  { intros a name. unfold get. destruct (lookup name a); [auto | discriminate]. }
  split.
  - intros k v. rewrite lookup_getValidationsFromSchema.
    destruct (lookup k (getFilteredValidations node)) as [v0|] eqn:Hk.
    { intros Heq. inversion Heq; subst. left. now apply Hfilt. }
    destruct (String.eqb_spec k "examples") as [->|_].
    { destruct (annotations node) as [a|]; [|discriminate].
      destruct (truthy (get a "examples")) eqn:Ht; [|discriminate].
      intros Heq. inversion Heq; subst. right. right. right.
      split; [reflexivity|]. exists a. auto. }
    destruct (String.eqb_spec k "default") as [->|_].
    { destruct (annotations node) as [a|]; [|discriminate].
      destruct (truthy (get a "default")) eqn:Ht; [|discriminate].
      intros Heq. inversion Heq; subst. right. right. left.
      split; [reflexivity|]. exists a. auto. }
    destruct (String.eqb_spec k "enum") as [->|_]; [|discriminate].
    destruct (enum node) as [e|]; [|discriminate].
    intros Heq. inversion Heq; subst. right. left.
    split; [reflexivity|]. now exists e.
  - intros k v Hk. split; [now apply Hfilt|].
    now rewrite lookup_getValidationsFromSchema, Hk.
Qed.

(** X4. The extracted mapping lists [enum] first, then [default], then
    [examples] (each only when it is extracted), and after them the
    filtered validations in their own order, leaving out the names
    already listed. *)
Theorem extracted_names_in_order (node : RegularNode) :
  let leading :=
    (match enum node with Some _ => ["enum"] | None => [] end)
    ++ (match annotations node with
        | Some a =>
            (if truthy (get a "default") then ["default"] else [])
            ++ (if truthy (get a "examples") then ["examples"] else [])
        | None => []
        end) in
  Object_keys (getValidationsFromSchema node)
  = leading
    ++ List.filter (fun k => negb (includes leading k))
                   (Object_keys (getFilteredValidations node)).
Proof.
  intros leading. unfold getValidationsFromSchema.
  rewrite Object_keys_spread.
  set (front := spread (spread [] _) _).
  assert (Hfront : Object_keys front = leading
                   /\ forall k, has front k = includes leading k).
  { unfold front, leading.
    destruct (enum node) as [e|], (annotations node) as [a|];
      try destruct (truthy (get a "default"));
      try destruct (truthy (get a "examples"));
      (split; [reflexivity|]); intros k; unfold has;
      rewrite !lookup_spread; cbn [lookup includes existsb app];
      repeat match goal with
             | |- context [String.eqb k ?name] => destruct (String.eqb k name)
             end; reflexivity. }
  destruct Hfront as [Hkeys Hhas]. rewrite Hkeys.
  f_equal. apply filter_ext. intros k. now rewrite Hhas.
Qed.

Lemma extracted_entries_come_from_the_node_witness :
  lookup "minLength" (getFilteredValidations Samples.annotated_node)
  = Some (JNum (Number_of_Z 1))
  /\ lookup "minLength" (getValidationsFromSchema Samples.annotated_node)
     = Some (JNum (Number_of_Z 1)).
Proof.
  assert (Hk : lookup "minLength" (getFilteredValidations Samples.annotated_node)
               = Some (JNum (Number_of_Z 1))) by (vm_compute; reflexivity).
  split; [exact Hk|].
  exact (proj2 (proj2 (extracted_entries_come_from_the_node
                         Samples.annotated_node) _ _ Hk)).
Defined.

(** The sample node with format [byte]: the implied pattern is dropped
    and the names come in the order above. *)
Example annotated_node_names :
  Object_keys (getValidationsFromSchema Samples.annotated_node)
  = ["enum"; "default"; "examples"; "minLength"; "readOnly"].
Proof. vm_compute. reflexivity. Qed.

End ExtractorOrderFacts.

Module CountFacts.
Import JS Lodash Validations DictionaryFacts LodashFacts OrderFacts ExtractorFacts.
Local Open Scope list_scope.

Lemma length_filter_le {A : Type} (p : A -> bool) (xs : list A) :
  (length (List.filter p xs) <= length xs)%nat.
Proof.
  induction xs as [|x xs IH]; [apply Nat.le_refl|]. cbn [List.filter].
  destruct (p x); cbn [length]; lia.
Qed.

Lemma length_uniq_le (xs : list string) : (length (uniq xs) <= length xs)%nat.
Proof.
  induction xs as [|x xs IH]; [apply Nat.le_refl|]. cbn [uniq length].
  pose proof (length_filter_le (fun y => negb (String.eqb x y)) (uniq xs)). lia.
Qed.

(** X5. [validationCount] is [0] exactly when every name of the extracted
    mapping is one of the excluded names, and it never exceeds the number
    of names in the extracted mapping. *)
Theorem validationCount_zero_and_bound (node : RegularNode) :
  (validationCount node = 0%nat
   <-> forall k, lookup k (getValidationsFromSchema node) <> None ->
                 In k ["exclusiveMinimum"; "exclusiveMaximum";
                       "readOnly"; "writeOnly"])
  /\ (validationCount node
      <= length (Object_keys (getValidationsFromSchema node)))%nat.
Proof.
  unfold validationCount.
  set (m := getValidationsFromSchema node).
  set (kind := fun key : string =>
                 if includes numberValidationNames key then "number" else key).
  split.
  - split.
    + intros Hz k Hk.
      destruct (in_dec string_dec k excludedValidations) as [Hin|Hnin];
        [exact Hin|exfalso].
      assert (Hkeys : In k (keys (omit m excludedValidations)))
        by (apply In_keys_omit; auto).
      assert (Hkinds : In (kind k)
                         (uniq (map kind (keys (omit m excludedValidations)))))
        by (apply In_uniq, in_map, Hkeys).
      destruct (uniq (map kind (keys (omit m excludedValidations))));
        [contradiction | discriminate].
    + intros Hall.
      destruct (keys (omit m excludedValidations)) as [|k ks] eqn:Hks;
        [reflexivity|exfalso].
      assert (Hin : In k (keys (omit m excludedValidations)))
        by (rewrite Hks; now left).
      apply In_keys_omit in Hin as [Hk Hnin]. apply Hnin, Hall, Hk.
  - etransitivity; [apply length_uniq_le|]. rewrite length_map.
    unfold keys. rewrite Object_keys_omit. apply length_filter_le.
Qed.

End CountFacts.

(* --------------------------------------------------------------------- *)
(** ** More on the validation presenter                                    *)
(* --------------------------------------------------------------------- *)

Module PresenterOrderFacts.
Import JS Lodash Throwing React Validations DictionaryFacts LodashFacts
       OrderFacts ThrowingFacts PresenterFacts.
Local Open Scope list_scope.

Lemma uniq_opt_In (x : option string) (xs : list (option string)) :
  In x (uniq_opt xs) <-> In x xs.
Proof.
  induction xs as [|y xs IH]; cbn [uniq_opt]; [tauto|]. cbn [In].
  rewrite filter_In, IH, negb_true_iff, bool_decide_eq_false.
  destruct (decide (y = x)) as [->|Hne]; [tauto|].
  split; [tauto|]. intros [Heq|Hin]; [congruence|]. auto.
Qed.

Lemma uniq_opt_NoDup (xs : list (option string)) : List.NoDup (uniq_opt xs).
Proof.
  induction xs as [|y xs IH]; cbn [uniq_opt]; constructor.
  - rewrite filter_In, negb_true_iff, bool_decide_eq_false. tauto.
  - now apply NoDup_filter_bool.
Qed.

Section WithRuntime.
Context `{Runtime} `{ObjectPrototype}.

Lemma has_keyValueBucket (validations : Dictionary) (hideExamples : bool)
  (k : string) :
  has (keyValueBucket validations hideExamples) k
  = negb (has (numberBucket validations) k
          || has (booleanBucket validations) k
          || includes excludedValidations k
          || (hideExamples && String.eqb k "examples"))
    && has validations k.
Proof.
  unfold has at 1. rewrite lookup_keyValueBucket.
  destruct (_ || _); [reflexivity|]. reflexivity.
Qed.

Lemma has_numberBucket_present (validations : Dictionary) (k : string) :
  has (numberBucket validations) k
  = includes numberValidationNames k && has validations k.
Proof.
  unfold has. rewrite lookup_numberBucket.
  now destruct (includes numberValidationNames k).
Qed.

(** X6. The numeric bucket lists the numeric validations that are
    present in the fixed order [minimum], [maximum], [minLength],
    [maxLength], [minItems], [maxItems], [exclusiveMinimum],
    [exclusiveMaximum], whatever their order in the input; the boolean
    and the keyed bucket keep the order of the input. *)
Theorem buckets_order (validations : Dictionary) (hideExamples : bool) :
  Object_keys (numberBucket validations)
  = List.filter (has validations)
      ["minimum"; "maximum"; "minLength"; "maxLength"; "minItems";
       "maxItems"; "exclusiveMinimum"; "exclusiveMaximum"]
  /\ Object_keys (booleanBucket validations)
     = List.filter (has (booleanBucket validations)) (Object_keys validations)
  /\ Object_keys (keyValueBucket validations hideExamples)
     = List.filter (has (keyValueBucket validations hideExamples))
                   (Object_keys validations).
Proof.
  split; [|split].
  - unfold numberBucket. apply Object_keys_pick.
    repeat constructor; cbn; intros Hin;
      repeat destruct Hin as [Hin|Hin]; try discriminate; assumption.
  - assert (Hkeys :
      Object_keys (booleanBucket validations)
      = List.filter
          (fun k => includes ["true"; "false"] (String (get validations k))
                    && negb (includes excludedValidations k))
          (Object_keys validations)).
    { unfold booleanBucket.
      now rewrite Object_keys_omit, Object_keys_pickBy, filter_filter_and. }
    rewrite Hkeys. apply filter_ext_in. intros k Hk.
    unfold has. rewrite lookup_booleanBucket.
    apply has_In_keys in Hk. unfold has in Hk. unfold get.
    destruct (lookup k validations) as [v|]; [|discriminate].
    destruct (includes excludedValidations k); cbn [negb];
      [now rewrite andb_false_r|].
    rewrite andb_true_r. now destruct (includes ["true"; "false"] (String v)).
  - assert (Hkeys :
      Object_keys (keyValueBucket validations hideExamples)
      = List.filter
          (fun k => negb (includes
                            (keys (numberBucket validations)
                             ++ keys (booleanBucket validations)
                             ++ excludedValidations
                             ++ (if hideExamples then exampleValidationNames
                                 else [])) k))
          (Object_keys validations)).
    { unfold keyValueBucket. now rewrite Object_keys_omit. }
    rewrite Hkeys. apply filter_ext_in. intros k Hk.
    rewrite has_keyValueBucket. apply has_In_keys in Hk. rewrite Hk, andb_true_r.
    rewrite !includes_app, !includes_keys, !orb_assoc.
    f_equal. f_equal.
    destruct hideExamples; cbn; [now rewrite orb_false_r | reflexivity].
Qed.

(** X7. For a mapping whose values all convert to a string, the
    component builds the three buckets, and: [readOnly] and [writeOnly]
    are in none of them; the keyed bucket shares no name with the
    numeric or the boolean bucket; and every other name of the input is
    in at least one bucket, except [examples] while [hideExamples] is
    set. *)
Theorem buckets_cover_the_input (validations : Dictionary) (hideExamples : bool) :
  (forall k v, lookup k validations = Some v -> convertible v = true) ->
  let numbers := numberBucket validations in
  let booleans := booleanBucket validations in
  let keyed := keyValueBucket validations hideExamples in
  booleanValidations_of validations = Ok booleans
  /\ (forall k, In k ["readOnly"; "writeOnly"] ->
                has numbers k = false /\ has booleans k = false
                /\ has keyed k = false)
  /\ (forall k, has keyed k = true ->
                has numbers k = false /\ has booleans k = false)
  /\ (forall k, has validations k = true ->
                ~ In k ["readOnly"; "writeOnly"] ->
                ~ (hideExamples = true /\ k = "examples") ->
                has numbers k = true \/ has booleans k = true
                \/ has keyed k = true).
Proof.
  intros Hconv numbers booleans keyed. split; [|split; [|split]].
  - unfold booleans. rewrite booleanValidations_of_spec.
    now rewrite (proj2 (forallb_convertible validations) Hconv).
  - intros k Hk.
    assert (Hex : includes excludedValidations k = true)
      by (apply includes_In; cbn in *; tauto).
    assert (Hnum : includes numberValidationNames k = false).
    { apply includes_false. cbn in *. intros Hin.
      destruct Hk as [<-|[<-|[]]];
        repeat destruct Hin as [Hin|Hin]; try discriminate; assumption. }
    assert (Hb : has (booleanBucket validations) k = false)
      by (unfold has; now rewrite lookup_booleanBucket, Hex).
    unfold numbers, booleans, keyed.
    rewrite has_keyValueBucket, has_numberBucket_present, Hnum, Hb, Hex.
    cbn [andb orb negb]. auto.
  - intros k. unfold keyed, numbers, booleans. rewrite has_keyValueBucket.
    destruct (has (numberBucket validations) k),
             (has (booleanBucket validations) k); cbn; auto; discriminate.
  - intros k Hk Hro Hhide. unfold keyed, numbers, booleans.
    rewrite has_keyValueBucket, Hk, andb_true_r.
    destruct (has (numberBucket validations) k) eqn:Hn; [auto|].
    destruct (has (booleanBucket validations) k) eqn:Hb; [auto|].
    right. right. cbn [orb].
    rewrite has_numberBucket_present, Hk, andb_true_r in Hn.
    assert (Hex : includes excludedValidations k = false).
    { apply includes_false. intros Hin. apply includes_false in Hn.
      cbn in Hin, Hn, Hro. destruct Hin as [<-|[<-|[<-|[<-|[]]]]]; tauto. }
    rewrite Hex. cbn [orb].
    destruct hideExamples; [|reflexivity].
    destruct (String.eqb_spec k "examples") as [->|]; [|reflexivity].
    exfalso. apply Hhide. auto.
Qed.

Lemma formatter_of_number_None (k : string) :
  formatter_of k numberValidationFormatters = None
  <-> ~ In k ["minimum"; "maximum"; "minLength"; "maxLength"; "minItems";
              "maxItems"; "exclusiveMinimum"; "exclusiveMaximum"].
Proof.
  unfold numberValidationFormatters. cbn [formatter_of In].
  repeat match goal with
         | |- context [String.eqb k ?name] =>
             destruct (String.eqb_spec k name) as [->|?];
             [split; [discriminate | intros Hn; exfalso; apply Hn; tauto]|]
         end.
  split; [|reflexivity]. intros _ Hin.
  repeat destruct Hin as [Hin|Hin]; try contradiction; congruence.
Qed.

(** An entry whose name is not a member inherited from
    [Object.prototype] is formatted to a text, or the first [map] ends
    in a [TypeError]. *)
Lemma formatNumberEntry_outside_prototype (k : string) (v : value) :
  includes Object_prototype_names k = false ->
  (exists text, formatNumberEntry (k, v) = Ok (FormattedText text))
  \/ formatNumberEntry (k, v) = Throw "TypeError".
Proof.
  intros Hproto.
  destruct (includes numberValidationNames k) eqn:Hnum.
  - pose proof (formatNumberEntry_numeric k v Hnum) as Hf.
    destruct (convertible v); [now left | now right].
  - right. unfold formatNumberEntry, numberValidationFormatters_get.
    cbn [fst]. apply includes_false in Hnum.
    rewrite (proj2 (formatter_of_number_None k) Hnum), Hproto. reflexivity.
Qed.

(** The [TypeError] happens exactly when the name is not one of the
    eight or the value does not convert. *)
Lemma Throw_outside_prototype (k : string) (v : value) :
  includes Object_prototype_names k = false ->
  formatNumberEntry (k, v) = Throw "TypeError"
  <-> ~ In k ["minimum"; "maximum"; "minLength"; "maxLength"; "minItems";
              "maxItems"; "exclusiveMinimum"; "exclusiveMaximum"]
      \/ convertible v = false.
Proof.
  intros Hproto.
  destruct (includes numberValidationNames k) eqn:Hnum.
  - pose proof (formatNumberEntry_numeric k v Hnum) as Hf.
    apply includes_In in Hnum.
    destruct (convertible v).
    + destruct Hf as [text Hf]. rewrite Hf. split; [discriminate|].
      intros [Hn|Hc]; [now elim Hn | discriminate].
    + split; [auto | intros _; exact Hf].
  - apply includes_false in Hnum. split; [auto | intros _].
    unfold formatNumberEntry, numberValidationFormatters_get. cbn [fst].
    rewrite (proj2 (formatter_of_number_None k) Hnum), Hproto. reflexivity.
Qed.

(** The first [map] over entries whose names are not inherited members:
    it leaves texts only, and throws nothing but a [TypeError]. *)
Lemma map_formatNumberEntry_outside_prototype (entries : list (string * value)) :
  (forall kv, In kv entries ->
              includes Object_prototype_names (fst kv) = false) ->
  (exists texts,
      map_throwing formatNumberEntry entries = Ok (map FormattedText texts))
  \/ map_throwing formatNumberEntry entries = Throw "TypeError".
Proof.
  induction entries as [|[k v] entries IH]; intros Hproto.
  - left. exists []. reflexivity.
  - cbn [map_throwing].
    destruct (formatNumberEntry_outside_prototype k v
                (Hproto (k, v) (or_introl eq_refl))) as [[text Hf]|Hf];
      rewrite Hf; cbn [mbind result_bind]; [|now right].
    destruct IH as [[texts Hrest]|Hrest];
      [intros kv Hin; apply Hproto; now right| |];
      rewrite Hrest; cbn [mbind result_bind]; [|now right].
    left. exists (text :: texts). reflexivity.
Qed.

(** X8. On a mapping none of whose names is a member inherited from
    [Object.prototype], the numeric block throws a [TypeError] exactly
    when some name of the mapping is not one of the eight numeric
    validation names, which has no formatter, or some value does not
    convert to a string; it throws nothing else, and it renders nothing
    when the mapping has no name. *)
Theorem NumberValidations_failure (validations : Dictionary) :
  (forall k, In k (Object_keys validations) ->
             ~ In k ["constructor"; "__defineGetter__"; "__defineSetter__";
                     "hasOwnProperty"; "__lookupGetter__"; "__lookupSetter__";
                     "isPrototypeOf"; "propertyIsEnumerable"; "toString";
                     "valueOf"; "__proto__"; "toLocaleString"]) ->
  (NumberValidations validations = Throw "TypeError"
   <-> exists k, In k (Object_keys validations)
                 /\ (~ In k ["minimum"; "maximum"; "minLength"; "maxLength";
                             "minItems"; "maxItems"; "exclusiveMinimum";
                             "exclusiveMaximum"]
                     \/ convertible (get validations k) = false))
  /\ (forall e, NumberValidations validations = Throw e -> e = "TypeError")
  /\ (Object_keys validations = [] -> NumberValidations validations = Ok Null).
Proof.
  intros Hnames.
  assert (Hproto : forall kv, In kv (Object_entries validations) ->
                     includes Object_prototype_names (fst kv) = false).
  { intros kv Hin. apply includes_false. unfold Object_entries in Hin.
    apply in_map_iff in Hin as [k [<- Hk]]. cbn [fst]. now apply Hnames. }
  assert (Hone : forall kv e, In kv (Object_entries validations) ->
                   formatNumberEntry kv = Throw e -> e = "TypeError").
  { intros [k v] e Hin He.
    destruct (formatNumberEntry_outside_prototype k v (Hproto _ Hin))
      as [[text Hf]|Hf]; congruence. }
  assert (Hstage :
    NumberValidations validations
    = match Object_entries validations with
      | [] => Ok Null
      | _ =>
          match map_throwing formatNumberEntry (Object_entries validations) with
          | Ok formatted =>
              badges ← map_throwing NumberBadge formatted;
              Ok (Host "div" "sl-flex sl-my-2 sl-text-muted" [] badges)
          | Throw e => Throw e
          end
      end).
  { unfold NumberValidations.
    destruct (Object_entries validations); [reflexivity|].
    now destruct (map_throwing formatNumberEntry _). }
  assert (Hthrow : forall e,
    NumberValidations validations = Throw e
    <-> Object_entries validations <> []
        /\ map_throwing formatNumberEntry (Object_entries validations) = Throw e).
  { intros e. rewrite Hstage.
    destruct (Object_entries validations) as [|kv kvs] eqn:He.
    - split; [discriminate | intros [Hn _]; now elim Hn].
    - rewrite <- He in *.
      destruct (map_formatNumberEntry_outside_prototype _ Hproto)
        as [[texts Hm]|Hm]; rewrite Hm.
      + rewrite map_throwing_NumberBadge. cbn [mbind result_bind].
        split; [discriminate | intros [_ Hn]; discriminate].
      + split.
        * intros Heq. inversion Heq; subst.
          split; [rewrite He; discriminate | reflexivity].
        * intros [_ Heq]. inversion Heq; subst. reflexivity. }
  split; [|split].
  - rewrite Hthrow. split.
    + intros [_ Hm].
      assert (Hex : exists kv, In kv (Object_entries validations)
                               /\ formatNumberEntry kv = Throw "TypeError").
      { clear - Hm. induction (Object_entries validations) as [|kv kvs IH];
          cbn [map_throwing] in Hm; [discriminate|].
        destruct (formatNumberEntry kv) as [x|e] eqn:Hf;
          cbn [mbind result_bind] in Hm.
        - destruct (map_throwing formatNumberEntry kvs) as [xs|e];
            cbn [mbind result_bind] in Hm; [discriminate|].
          destruct (IH Hm) as [kv' [Hin Hkv']]. exists kv'. split; [now right|].
          exact Hkv'.
        - exists kv. split; [now left | congruence]. }
      destruct Hex as [[k v] [Hin Hf]]. exists k.
      pose proof (Hproto _ Hin) as Hp. cbn [fst] in Hp.
      apply (Throw_outside_prototype k v Hp) in Hf.
      apply lookup_Object_entries in Hin.
      split; [apply In_Object_keys; congruence|].
      now rewrite (get_lookup _ _ _ Hin).
    + intros [k [Hk Hbad]].
      assert (Hin : In (k, get validations k) (Object_entries validations))
        by (unfold Object_entries; apply in_map_iff; eauto).
      split; [intros Hnil; now rewrite Hnil in Hin|].
      pose proof (Hproto _ Hin) as Hp. cbn [fst] in Hp.
      apply (Throw_outside_prototype k _ Hp) in Hbad.
      destruct (map_formatNumberEntry_outside_prototype _ Hproto)
        as [[texts Hm]|Hm]; [exfalso|exact Hm].
      clear - Hm Hin Hbad. revert texts Hm.
      induction (Object_entries validations) as [|kv kvs IH]; intros texts Hm;
        [contradiction|].
      cbn [map_throwing] in Hm.
      destruct (formatNumberEntry kv) as [x|e] eqn:Hf;
        cbn [mbind result_bind] in Hm; [|discriminate].
      destruct (map_throwing formatNumberEntry kvs) as [xs|e] eqn:Hxs;
        cbn [mbind result_bind] in Hm; [|discriminate].
      destruct Hin as [->|Hin]; [congruence|].
      destruct texts as [|text texts]; [discriminate|].
      inversion Hm; subst. now apply (IH Hin texts).
  - intros e He. apply Hthrow in He as [_ Hm].
    destruct (map_formatNumberEntry_outside_prototype _ Hproto)
      as [[texts Hm']|Hm']; congruence.
  - intros Hk. unfold NumberValidations, Object_entries. now rewrite Hk.
Qed.

End WithRuntime.

Lemma buckets_cover_the_input_witness :
  (forall k v, lookup k Samples.badge_validations = Some v ->
               convertible v = true)
  /\ @booleanValidations_of Samples.sample_runtime Samples.badge_validations
     = Ok (@booleanBucket Samples.sample_runtime Samples.badge_validations)
  /\ has (numberBucket Samples.badge_validations) "readOnly" = false
  /\ has (@booleanBucket Samples.sample_runtime Samples.badge_validations)
         "readOnly" = false
  /\ has (@keyValueBucket Samples.sample_runtime Samples.badge_validations
            false) "readOnly" = false.
Proof.
  assert (Hconv : forall k v, lookup k Samples.badge_validations = Some v ->
                              convertible v = true)
    by (apply convertible_bindings; reflexivity).
  split; [exact Hconv|].
  destruct (@buckets_cover_the_input Samples.sample_runtime
              Samples.badge_validations false Hconv)
    as (Hbuilt & Hflags & _ & _).
  split; [exact Hbuilt|].
  apply Hflags. left. reflexivity.
Defined.

Lemma NumberValidations_failure_witness :
  (forall k, In k (Object_keys [("format", JStr "byte")]) ->
             ~ In k ["constructor"; "__defineGetter__"; "__defineSetter__";
                     "hasOwnProperty"; "__lookupGetter__"; "__lookupSetter__";
                     "isPrototypeOf"; "propertyIsEnumerable"; "toString";
                     "valueOf"; "__proto__"; "toLocaleString"])
  /\ @NumberValidations Samples.sample_runtime Samples.sample_prototype
       [("format", JStr "byte")]
     = Throw "TypeError".
Proof.
  assert (Hnames : forall k, In k (Object_keys [("format", JStr "byte")]) ->
             ~ In k ["constructor"; "__defineGetter__"; "__defineSetter__";
                     "hasOwnProperty"; "__lookupGetter__"; "__lookupSetter__";
                     "isPrototypeOf"; "propertyIsEnumerable"; "toString";
                     "valueOf"; "__proto__"; "toLocaleString"]).
  { intros k [<-|[]] Hin. cbn in Hin.
    repeat destruct Hin as [Hin|Hin]; try discriminate; assumption. }
  split; [exact Hnames|].
  apply (proj1 (@NumberValidations_failure Samples.sample_runtime
                  Samples.sample_prototype [("format", JStr "byte")] Hnames)).
  exists "format". split; [now left|]. left. cbn. intros Hin.
  repeat destruct Hin as [Hin|Hin]; try discriminate; assumption.
Defined.

End PresenterOrderFacts.

Module PresenterBlockFacts.
Import JS Lodash Throwing React Validations DictionaryFacts LodashFacts
       OrderFacts ThrowingFacts PresenterFacts PresenterOrderFacts.
Local Open Scope list_scope.

Lemma get_set_other (k k' : string) (v : value) (d : Dictionary) :
  k <> k' -> get (set k' v d) k = get d k.
Proof.
  intros Hne. unfold get. rewrite lookup_set.
  apply String.eqb_neq in Hne. now rewrite Hne.
Qed.

(** X10. The value badges of a keyed validation show every value once:
    the badges after the label are the distinct values, duplicates
    removed. *)
Theorem duplicate_values_render_once
  (name : string) (values : list (option string)) :
  exists shown : list (option string),
    KeyValueValidation name values
    = Host "div" "sl-flex sl-flex-wrap sl-text-muted sl-my-2" []
        (Host "span" "sl-text-light" [] [Text (capitalize name); Text ":"]
         :: map (fun value => Value value (Some "sl-ml-2")) shown)
    /\ List.NoDup shown
    /\ (forall x, In x shown <-> In x values).
Proof.
  exists (uniq_opt values). split; [reflexivity|].
  split; [apply uniq_opt_NoDup | intros x; apply uniq_opt_In].
Qed.

Section WithRuntime.
Context `{Runtime}.

(** X9. A name without a registered formatter (any name other than
    [enum], [examples], [multipleOf], [pattern] and [default]) is
    skipped by the keyed block: adding or overwriting such a property
    does not change what the block renders. *)
Theorem unregistered_names_leave_the_keyed_block
  (validations : Dictionary) (k : string) (v : value) :
  ~ In k ["enum"; "examples"; "multipleOf"; "pattern"; "default"] ->
  KeyValueValidations (set k v validations) = KeyValueValidations validations.
Proof.
  intros Hk.
  assert (Hreg : includes (map fst validationFormatters) k = false)
    by (apply includes_false; exact Hk).
  unfold KeyValueValidations. f_equal.
  assert (Hkeys : List.filter (includes (map fst validationFormatters))
                    (keys (set k v validations))
                  = List.filter (includes (map fst validationFormatters))
                      (keys validations)).
  { unfold keys. rewrite Object_keys_set.
    destruct (has validations k); [reflexivity|].
    rewrite List.filter_app. cbn [List.filter]. rewrite Hreg.
    apply app_nil_r. }
  rewrite Hkeys. apply map_ext_in. intros key Hkey.
  apply filter_In in Hkey as [_ Hkey].
  assert (Hne : key <> k) by (intros ->; congruence).
  now rewrite (get_set_other _ _ _ _ Hne).
Qed.

(** X11. For a mapping whose values all convert to a string, the
    component builds the boolean bucket, and the boolean block shows one
    badge for each flag of the bucket whose value is truthy, and nothing
    for the others: a flag whose value is the boolean [false] never gets
    a badge. *)
Theorem boolean_badges_are_the_truthy_flags (validations : Dictionary) :
  (forall k v, lookup k validations = Some v -> convertible v = true) ->
  booleanValidations_of validations = Ok (booleanBucket validations)
  /\ exists shown : list string,
    NameValidations (booleanBucket validations)
    = Fragment
        [match Object_keys (booleanBucket validations) with
         | [] => Null
         | _ :: _ =>
             Host "div" "sl-flex sl-flex-wrap sl-my-2" []
                  (map (fun key =>
                          Value (Some key)
                                (Some "sl-mr-2 sl-text-muted sl-capitalize"))
                       shown)
         end]
    /\ (forall k,
           In k shown
           <-> exists v, lookup k validations = Some v
                         /\ (ToString v = Ok "true" \/ ToString v = Ok "false")
                         /\ truthy v = true
                         /\ ~ In k ["exclusiveMinimum"; "exclusiveMaximum";
                                    "readOnly"; "writeOnly"])
    /\ (forall k, lookup k validations = Some (JBool false) -> ~ In k shown).
Proof.
  intros Hconv. split.
  { rewrite booleanValidations_of_spec.
    now rewrite (proj2 (forallb_convertible validations) Hconv). }
  set (bucket := booleanBucket validations).
  exists (List.filter (fun key => truthy (get bucket key)) (Object_keys bucket)).
  assert (Hshown : forall k,
    In k (List.filter (fun key => truthy (get bucket key)) (Object_keys bucket))
    <-> exists v, lookup k validations = Some v
                  /\ (String v = "true" \/ String v = "false")
                  /\ truthy v = true
                  /\ ~ In k ["exclusiveMinimum"; "exclusiveMaximum";
                             "readOnly"; "writeOnly"]).
  { intros k. rewrite filter_In, In_Object_keys. unfold get, bucket.
    rewrite lookup_booleanBucket.
    change (In k ["exclusiveMinimum"; "exclusiveMaximum"; "readOnly"; "writeOnly"])
      with (In k excludedValidations).
    destruct (includes excludedValidations k) eqn:Hex.
    - apply includes_In in Hex.
      split; [intros [Hn _]; congruence | intros [v (_ & _ & _ & Hn)]].
      now elim Hn.
    - apply includes_false in Hex.
      destruct (lookup k validations) as [v|].
      + destruct (includes ["true"; "false"] (String v)) eqn:Htf.
        * apply includes_true_false in Htf. split.
          -- intros [_ Ht]. exists v. auto.
          -- intros [v' (Heq & _ & Ht & _)]. inversion Heq; subst.
             split; [discriminate | assumption].
        * split; [intros [Hn _]; congruence|].
          intros [v' (Heq & Ht & _)]. inversion Heq; subst.
          apply includes_true_false in Ht. congruence.
      + split; [intros [Hn _]; congruence|].
        intros [v (Heq & _)]. discriminate. }
  split; [|split].
  - unfold NameValidations, keys. now destruct (Object_keys bucket).
  - intros k. rewrite Hshown.
    split; intros [v (Hk & Ht & Hrest)]; exists v; (split; [exact Hk|]);
      (split; [|exact Hrest]);
      rewrite (ToString_convertible v (Hconv k v Hk)) in *;
      destruct Ht as [Ht|Ht]; solve [left; congruence | right; congruence].
  - intros k Hk Hin. apply Hshown in Hin as [v (Heq & _ & Ht & _)].
    rewrite Hk in Heq. inversion Heq; subst. discriminate.
Qed.

End WithRuntime.

Lemma boolean_badges_are_the_truthy_flags_witness :
  (forall k v, lookup k Samples.badge_validations = Some v ->
               convertible v = true)
  /\ @booleanValidations_of Samples.sample_runtime Samples.badge_validations
     = Ok (@booleanBucket Samples.sample_runtime Samples.badge_validations)
  /\ exists shown : list string,
      NameValidations
        (@booleanBucket Samples.sample_runtime Samples.badge_validations)
      = Fragment
          [match Object_keys (@booleanBucket Samples.sample_runtime
                                Samples.badge_validations) with
           | [] => Null
           | _ :: _ =>
               Host "div" "sl-flex sl-flex-wrap sl-my-2" []
                    (map (fun key =>
                            Value (Some key)
                                  (Some "sl-mr-2 sl-text-muted sl-capitalize"))
                         shown)
           end]
      /\ (forall k,
             In k shown
             <-> exists v, lookup k Samples.badge_validations = Some v
                           /\ (@ToString Samples.sample_runtime v = Ok "true"
                               \/ @ToString Samples.sample_runtime v
                                  = Ok "false")
                           /\ truthy v = true
                           /\ ~ In k ["exclusiveMinimum"; "exclusiveMaximum";
                                      "readOnly"; "writeOnly"])
      /\ (forall k, lookup k Samples.badge_validations = Some (JBool false) ->
                    ~ In k shown).
Proof.
  assert (Hconv : forall k v, lookup k Samples.badge_validations = Some v ->
                              convertible v = true)
    by (apply convertible_bindings; reflexivity).
  split; [exact Hconv|].
  exact (@boolean_badges_are_the_truthy_flags Samples.sample_runtime
           Samples.badge_validations Hconv).
Defined.

Lemma unregistered_names_leave_the_keyed_block_witness :
  ~ In "format" ["enum"; "examples"; "multipleOf"; "pattern"; "default"]
  /\ @KeyValueValidations Samples.sample_runtime
       (set "format" (JStr "byte") [("enum", JArr [JStr "a"])])
     = @KeyValueValidations Samples.sample_runtime [("enum", JArr [JStr "a"])].
Proof.
  assert (Hk : ~ In "format" ["enum"; "examples"; "multipleOf"; "pattern";
                              "default"]).
  { cbn. intros Hin. repeat destruct Hin as [Hin|Hin]; try discriminate.
    assumption. }
  split; [exact Hk|].
  exact (@unregistered_names_leave_the_keyed_block Samples.sample_runtime
           [("enum", JArr [JStr "a"])] "format" (JStr "byte") Hk).
Defined.

End PresenterBlockFacts.

(* --------------------------------------------------------------------- *)
(** ** More on the row components                                          *)
(* --------------------------------------------------------------------- *)

Module RowShapeFacts.
Import JS React Tree SchemaRow SchemaRowFacts.
Local Open Scope list_scope.

(** X14. Selecting a branch on a node changes the recorded choice of no
    other node, and appends exactly one population request to the ones
    made before. *)
Theorem selection_leaves_other_nodes_alone
  (node : TreeListNode) (path : list value) (items : list SchemaRef)
  (item : SchemaRef) (e : bool) (st : SchemaTreeState) (other : string) :
  other <> id node ->
  let st' := run_effects (onItemSelect node path items item e) st in
  getChoiceForNode (choices st') other = getChoiceForNode (choices st) other
  /\ choices st' !! other = choices st !! other
  /\ length (populated st') = S (length (populated st))
  /\ (forall request, In request (populated st) -> In request (populated st')).
Proof.
  intros Hne st'.
  assert (Hst : st' = {| choices := setChoiceForNode (id node)
                                      (indexOf items item) (choices st);
                         populated := populated st
                           ++ [(id node, item,
                                path ++ [JNum (Number_of_Z (indexOf items item))],
                                false)] |}).
  { unfold st', onItemSelect, run_effects. rewrite fold_left_app.
    assert (Hpre : fold_left run_effect (if e then [PreventDefault] else []) st
                   = st) by (destruct e; reflexivity).
    rewrite Hpre. reflexivity. }
  rewrite Hst. cbn [choices populated].
  assert (Hother : setChoiceForNode (id node) (indexOf items item) (choices st)
                     !! other = choices st !! other).
  { unfold setChoiceForNode. apply lookup_insert_ne. congruence. }
  split; [|split; [|split]].
  - unfold getChoiceForNode. now rewrite Hother.
  - exact Hother.
  - rewrite length_app. cbn [length]. lia.
  - intros request Hin. apply in_or_app. now left.
Qed.

Lemma selection_leaves_other_nodes_alone_witness :
  "0" <> id Samples.empty_combiner_node
  /\ getChoiceForNode
       (choices
          (run_effects
             (onItemSelect Samples.empty_combiner_node [] Samples.aliased_items
                Samples.shared_branch true)
             {| choices := {["0" := 5]}; populated := [] |}))
       "0"
     = getChoiceForNode ({["0" := 5]} : gmap string Z) "0".
Proof.
  assert (Hne : "0" <> id Samples.empty_combiner_node) by discriminate.
  split; [exact Hne|].
  exact (proj1 (selection_leaves_other_nodes_alone
                  Samples.empty_combiner_node [] Samples.aliased_items
                  Samples.shared_branch true
                  {| choices := {["0" := 5]}; populated := [] |} "0" Hne)).
Defined.

Section WithCollaborators.
Context `{Runtime} `{Collaborators}.

Lemma isRequired_true_inv (treeNode : TreeListNode) :
  isRequired treeNode = true ->
  exists parentNode meta schema required,
    parent treeNode = Some parentNode
    /\ getSchemaNodeMetadata treeNode = Ok meta
    /\ getRelevantSchemaForRequireCheck parentNode = Ok schema
    /\ schema <> JNull
    /\ Array_isArray schema = false
    /\ prop schema "required" = JArr required
    /\ In (JStr (String (List.last (path meta) JUndefined))) required.
Proof.
  unfold isRequired.
  destruct (parent treeNode) as [parentNode|] eqn:Hp; [|discriminate].
  destruct (getSchemaNodeMetadata treeNode) as [meta|e] eqn:Hm;
    [|discriminate].
  cbn [mbind result_bind try_catch].
  destruct (path meta) as [|seg segs] eqn:Hpath; [discriminate|].
  destruct (getRelevantSchemaForRequireCheck parentNode) as [schema|e]
    eqn:Hs; [|discriminate].
  cbn [mbind result_bind try_catch].
  destruct (is_null schema) eqn:Hnull; [discriminate|].
  destruct (Array_isArray schema) eqn:Harr; [discriminate|].
  destruct (getPrimaryType schema) as [kind|e] eqn:Hk; [|discriminate].
  cbn [mbind result_bind try_catch].
  destruct (negb (strict_equal SchemaKind_Object kind)); [discriminate|].
  destruct (prop schema "required") as [| | | | |required|] eqn:Hreq;
    try discriminate.
  cbn [try_catch]. intros Hinc. apply array_includes_string in Hinc.
  exists parentNode, meta, schema, required.
  rewrite Hpath.
  refine (conj eq_refl (conj eq_refl (conj Hs (conj _
            (conj Harr (conj Hreq Hinc)))))).
  intros ->. discriminate.
Qed.

(** X12. A node is not required when its parent's metadata is an error
    placeholder, when its parent is an array node whose [items] is a
    list of schemas, when the relevant parent schema has no [required]
    array, or when that array holds no string. *)
Theorem isRequired_false_for_unsuitable_parents
  (treeNode parentNode : TreeListNode) :
  parent treeNode = Some parentNode ->
  (forall message,
      getNodeMetadata parentNode = Ok (MetaError message) ->
      isRequired treeNode = false)
  /\ (forall meta items,
         getNodeMetadata parentNode = Ok (MetaSchema meta) ->
         isArrayNodeWithItems (schemaNode meta) = Ok true ->
         prop (schemaNode meta) "items" = JArr items ->
         isRequired treeNode = false)
  /\ (forall schema,
         getRelevantSchemaForRequireCheck parentNode = Ok schema ->
         (forall required, prop schema "required" <> JArr required) ->
         isRequired treeNode = false)
  /\ (forall schema required,
         getRelevantSchemaForRequireCheck parentNode = Ok schema ->
         prop schema "required" = JArr required ->
         (forall s, ~ In (JStr s) required) ->
         isRequired treeNode = false).
Proof.
  intros Hp.
  assert (Hinv : isRequired treeNode = true ->
            exists meta schema required,
              getRelevantSchemaForRequireCheck parentNode = Ok schema
              /\ schema <> JNull
              /\ Array_isArray schema = false
              /\ prop schema "required" = JArr required
              /\ In (JStr (String (List.last (path meta) JUndefined))) required).
  { intros Hreq.
    apply isRequired_true_inv in Hreq
      as (p & meta & schema & required & Hp' & _ & Hs & Hnn & Harr & Hr & Hin).
    rewrite Hp in Hp'. inversion Hp'; subst p. eauto 10. }
  split; [|split; [|split]].
  - intros message Hmeta. apply not_true_is_false. intros Hreq.
    apply Hinv in Hreq as (_ & schema & _ & Hs & Hnn & _).
    rewrite getRelevantSchemaForRequireCheck_cases, Hmeta in Hs.
    inversion Hs. congruence.
  - intros meta items Hmeta Harray Hitems. apply not_true_is_false. intros Hreq.
    apply Hinv in Hreq as (_ & schema & _ & Hs & _ & Harr & _).
    rewrite getRelevantSchemaForRequireCheck_cases, Hmeta, Harray, Hitems in Hs.
    inversion Hs; subst. discriminate.
  - intros schema Hs Hnone. apply not_true_is_false. intros Hreq.
    apply Hinv in Hreq as (_ & schema' & required & Hs' & _ & _ & Hr & _).
    rewrite Hs in Hs'. inversion Hs'; subst. now apply (Hnone required).
  - intros schema required Hs Hr Hnone. apply not_true_is_false. intros Hreq.
    apply Hinv in Hreq as (meta & schema' & required' & Hs' & _ & _ & Hr' & Hin).
    rewrite Hs in Hs'. inversion Hs'; subst. rewrite Hr in Hr'.
    inversion Hr'; subst. now apply (Hnone _ Hin).
Qed.

End WithCollaborators.

Lemma isRequired_false_for_unsuitable_parents_witness :
  parent Samples.orphan_node = Some Samples.broken_node
  /\ @isRequired Samples.sample_runtime
       (Samples.sample_collaborators Samples.orphan_store) Samples.orphan_node
     = false.
Proof.
  split; [reflexivity|].
  apply (proj1 (@isRequired_false_for_unsuitable_parents Samples.sample_runtime
                  (Samples.sample_collaborators Samples.orphan_store)
                  Samples.orphan_node Samples.broken_node eq_refl)
           "Could not resolve the reference").
  reflexivity.
Defined.

End RowShapeFacts.

Module RowRenderFacts.
Import JS React Tree SchemaRow SchemaRowFacts.
Local Open Scope list_scope.

Section WithCollaborators.
Context `{Runtime} `{Collaborators}.

(** Runs [SchemaPropertyRow] up to its result, keeping the outcome of
    each step that may throw. *)
Ltac run_property_row Hel :=
  unfold SchemaPropertyRow in Hel;
  match type of Hel with
  | context [getSchemaNodeMetadata ?node ≫= _] =>
      destruct (getSchemaNodeMetadata node) as [nodeMeta|?] eqn:HnodeMeta;
      cbn [mbind result_bind] in Hel; [|discriminate]
  end;
  match type of Hel with
  | context [mbind _ ?r] =>
      match r with
      | match parent _ with _ => _ end =>
          destruct r as [parentSchemaNode|?] eqn:HparentSchema
      end
  end; cbn [mbind result_bind] in Hel; [|discriminate];
  match type of Hel with
  | context [isRefNode ?sn ≫= _] =>
      destruct (isRefNode sn) as [isRef|?] eqn:HisRef;
      cbn [mbind result_bind] in Hel; [|discriminate]
  end;
  match type of Hel with
  | context [mbind _ ?r] =>
      match r with
      | (if _ then Ok true else _) => destruct r as [hasRef|?] eqn:HhasRef
      end
  end; cbn [mbind result_bind] in Hel; [|discriminate];
  match type of Hel with
  | context [mbind _ ?r] =>
      match r with
      | match parent _ with _ => _ end =>
          destruct r as [divider|?] eqn:Hdivider
      end
  end; cbn [mbind result_bind] in Hel; [|discriminate];
  match type of Hel with
  | context [mbind _ ?r] =>
      match r with
      | match Tree.metadata _ with _ => _ end =>
          destruct r as [selector|?] eqn:Hselector
      end
  end; cbn [mbind result_bind] in Hel; [|discriminate].

(** X13. A property row that renders is the fragment of a caret slot, a
    divider slot, the property line and the validations.  The divider
    slot is empty for a node without parent and for the first child of
    its parent; the property line holds a branch selector exactly when
    the node has a [metadata] object. *)
Theorem property_row_shape
  (node : TreeListNode) (rowOptions : IRowRendererOptions)
  (state : gmap string Z) (row : Element) :
  SchemaPropertyRow node rowOptions state = Ok row ->
  exists caret divider selector description validations,
    row = Fragment
            [caret;
             divider;
             Host "div" "flex-1 flex truncate" []
               [Component "Property" [("node", PNode (id node))] [];
                selector;
                description];
             Component "Validations"
               [("required", PBool (isRequired node));
                ("validations", PDict validations)] []]
    /\ (parent node = None -> divider = Null)
    /\ (forall parentNode siblings,
           parent node = Some parentNode ->
           children parentNode = Some siblings ->
           head siblings = Some (id node) ->
           divider = Null)
    /\ (Tree.metadata node = MetadataMissing <-> selector = Null).
Proof.
  intros Hel. run_property_row Hel.
  inversion Hel as [Hrow]. clear Hel Hrow.
  do 5 eexists. split; [reflexivity|]. split; [|split].
  - intros Hp. rewrite Hp in Hdivider. now inversion Hdivider.
  - intros parentNode siblings Hp Hs Hfirst.
    rewrite Hp, Hs in Hdivider. inversion Hdivider as [Hd].
    rewrite (bool_decide_eq_true_2 _ Hfirst). cbn [negb].
    now rewrite andb_false_r.
  - destruct (Tree.metadata node) as [|properties] eqn:Hmd;
      rewrite ?Hmd in Hselector; split; try discriminate.
    + intros _. now inversion Hselector.
    + reflexivity.
    + intros Hnull. exfalso.
      destruct (chosen_type (getCombinerOptions node)
                            (getChoiceForNode state (id node))) as [text|e]
        eqn:Hct; rewrite ?Hct in Hselector;
        cbn [mbind result_bind] in Hselector; [|discriminate].
      inversion Hselector. congruence.
Qed.

(** X15. A property row renders (returns instead of throwing) exactly
    when: the node's schema metadata is found; the schema metadata of a
    parent at level [0] or deeper is found; the reference guards return;
    the parent, if any, has a [children] list; and the node either has
    no [metadata] object or has a candidate at the chosen index. *)
Theorem property_row_renders_iff
  (node : TreeListNode) (rowOptions : IRowRendererOptions)
  (state : gmap string Z) :
  (exists row, SchemaPropertyRow node rowOptions state = Ok row)
  <->
  (exists nodeMeta,
      getSchemaNodeMetadata node = Ok nodeMeta
      /\ (forall parentNode,
             parent node = Some parentNode ->
             (exists siblings, children parentNode = Some siblings)
             /\ (0 <= Tree_getLevel parentNode ->
                 exists parentMeta,
                   getSchemaNodeMetadata parentNode = Ok parentMeta))
      /\ (exists isRef,
             isRefNode (schemaNode nodeMeta) = Ok isRef
             /\ (isRef = false ->
                 exists kind,
                   getPrimaryType (schemaNode nodeMeta) = Ok kind
                   /\ (strict_equal SchemaKind_Array kind = true ->
                       exists refItems,
                         hasRefItems (schemaNode nodeMeta) = Ok refItems)))
      /\ (forall properties,
             Tree.metadata node = MetadataObject properties ->
             exists items item,
               properties = Some items
               /\ at_index items (getChoiceForNode state (id node))
                  = Some item)).
Proof.
  split.
  - intros [row Hel]. run_property_row Hel. clear Hel.
    exists nodeMeta. split; [first [exact HnodeMeta | reflexivity]|].
    split; [|split].
    + intros parentNode Hp. rewrite Hp in HparentSchema, Hdivider. split.
      * destruct (children parentNode) as [siblings|] eqn:Hs;
          rewrite ?Hs in Hdivider; [eauto | discriminate].
      * intros Hlevel. apply Z.leb_le in Hlevel. rewrite Hlevel in HparentSchema.
        destruct (getSchemaNodeMetadata parentNode) as [parentMeta|] eqn:Hpm;
          rewrite ?Hpm in HparentSchema; [eauto | discriminate].
    + exists isRef. split; [first [exact HisRef | reflexivity]|]. intros Hfalse.
      rewrite Hfalse in HhasRef.
      destruct (getPrimaryType (schemaNode nodeMeta)) as [kind|] eqn:Hkind;
        rewrite ?Hkind in HhasRef;
        cbn [mbind result_bind] in HhasRef; [|discriminate].
      exists kind. split; [reflexivity|]. intros Harray.
      rewrite Harray in HhasRef. eauto.
    + intros properties Hmd. rewrite Hmd in Hselector.
      unfold chosen_type, getCombinerOptions in Hselector.
      rewrite Hmd in Hselector.
      destruct properties as [items|];
        cbn [mbind result_bind] in Hselector; [|discriminate].
      destruct (at_index items (getChoiceForNode state (id node))) as [item|]
        eqn:Hat; rewrite ?Hat in Hselector;
        cbn [mbind result_bind] in Hselector; [|discriminate].
      eauto.
  - intros (nodeMeta & HnodeMeta & Hparent & (isRef & HisRef & Hkind) & Hmd).
    unfold SchemaPropertyRow. rewrite HnodeMeta. cbn [mbind result_bind].
    match goal with
    | |- context [mbind _ ?r] =>
        match r with
        | match parent node with _ => _ end =>
            assert (Hr : exists x, r = Ok x)
        end
    end.
    { destruct (parent node) as [parentNode|]; [|eauto].
      destruct (Z.leb_spec 0 (Tree_getLevel parentNode)) as [Hlevel|_];
        [|eauto].
      destruct (proj2 (Hparent parentNode eq_refl) Hlevel) as [parentMeta ->].
      cbn [mbind result_bind]. eauto. }
    destruct Hr as [parentSchemaNode ->]. cbn [mbind result_bind].
    rewrite HisRef. cbn [mbind result_bind].
    match goal with
    | |- context [mbind _ ?r] =>
        match r with
        | (if isRef then _ else _) => assert (Hr : exists x, r = Ok x)
        end
    end.
    { destruct isRef; [eauto|].
      destruct (Hkind eq_refl) as [kind [-> Harray]]. cbn [mbind result_bind].
      destruct (strict_equal SchemaKind_Array kind); [|eauto].
      destruct (Harray eq_refl) as [refItems ->]. eauto. }
    destruct Hr as [hasRef ->]. cbn [mbind result_bind].
    match goal with
    | |- context [mbind _ ?r] =>
        match r with
        | match parent node with _ => _ end =>
            assert (Hr : exists x, r = Ok x)
        end
    end.
    { destruct (parent node) as [parentNode|]; [|eauto].
      destruct (proj1 (Hparent parentNode eq_refl)) as [siblings ->]. eauto. }
    destruct Hr as [divider ->]. cbn [mbind result_bind].
    match goal with
    | |- context [mbind _ ?r] =>
        match r with
        | match Tree.metadata node with _ => _ end =>
            assert (Hr : exists x, r = Ok x)
        end
    end.
    { unfold chosen_type, getCombinerOptions.
      destruct (Tree.metadata node) as [|properties]; [eauto|].
      destruct (Hmd properties eq_refl) as (items & item & -> & ->).
      cbn [mbind result_bind]. eauto. }
    destruct Hr as [selector ->]. cbn [mbind result_bind]. eauto.
Qed.

End WithCollaborators.

Lemma property_row_shape_witness :
  exists row,
    @SchemaPropertyRow Samples.sample_runtime
      (Samples.sample_collaborators Samples.sample_store)
      Samples.id_node {| isExpanded := None |} ∅ = Ok row
    /\ exists caret divider selector description validations,
        row = Fragment
                [caret;
                 divider;
                 Host "div" "flex-1 flex truncate" []
                   [Component "Property" [("node", PNode "0")] [];
                    selector;
                    description];
                 Component "Validations"
                   [("required",
                     PBool (@isRequired Samples.sample_runtime
                              (Samples.sample_collaborators Samples.sample_store)
                              Samples.id_node));
                    ("validations", PDict validations)] []]
        /\ divider = Null /\ selector = Null.
Proof.
  eexists. split; [vm_compute; reflexivity|].
  destruct (@property_row_shape Samples.sample_runtime
              (Samples.sample_collaborators Samples.sample_store)
              Samples.id_node {| isExpanded := None |} ∅ _
              ltac:(vm_compute; reflexivity))
    as (caret & divider & selector & description & validations
        & Hrow & _ & Hfirst & Hsel).
  exists caret, divider, selector, description, validations.
  split; [exact Hrow|]. split.
  - exact (Hfirst Samples.root_node ["0"; "1"] eq_refl eq_refl eq_refl).
  - now apply Hsel.
Defined.

End RowRenderFacts.

(* --------------------------------------------------------------------- *)
(** ** The count and the presenter together                                *)
(* --------------------------------------------------------------------- *)

Module CountPresenterFacts.
Import JS Lodash Throwing React Validations DictionaryFacts LodashFacts
       OrderFacts ThrowingFacts ExtractorFacts PresenterFacts.
Local Open Scope list_scope.

Lemma Object_keys_nil (d : Dictionary) :
  (forall k, lookup k d = None) -> Object_keys d = [].
Proof.
  intros Hnone. destruct (Object_keys d) as [|k ks] eqn:Hk; [reflexivity|].
  exfalso. assert (Hin : In k (Object_keys d)) by (rewrite Hk; now left).
  apply In_Object_keys in Hin. now apply Hin.
Qed.

Lemma validationCount_zero_excluded (node : RegularNode) (k : string) :
  validationCount node = 0%nat ->
  lookup k (getValidationsFromSchema node) <> None ->
  In k excludedValidations.
Proof.
  unfold validationCount. intros Hz Hk.
  destruct (in_dec string_dec k excludedValidations) as [Hin|Hnin];
    [exact Hin|exfalso].
  set (kind := fun key : string =>
                 if includes numberValidationNames key then "number" else key)
    in Hz.
  assert (Hkeys : In k (keys (omit (getValidationsFromSchema node)
                                   excludedValidations)))
    by (apply In_keys_omit; auto).
  assert (Hkinds : In (kind k)
                     (uniq (map kind
                              (keys (omit (getValidationsFromSchema node)
                                          excludedValidations)))))
    by (apply In_uniq, in_map_iff; eauto).
  destruct (uniq (map kind (keys (omit (getValidationsFromSchema node)
                                       excludedValidations))));
    [contradiction | discriminate].
Qed.

Section WithRuntime.
Context `{Runtime} `{ObjectPrototype}.

(** X16. When [validationCount] is [0], the node declares neither
    [exclusiveMinimum] nor [exclusiveMaximum], and the extracted values
    convert to a string, the presenter has nothing to show for the
    extracted validations: the numeric block, the keyed block and the
    boolean block are all empty. *)
Theorem zero_count_renders_nothing (node : RegularNode) (hideExamples : bool) :
  validationCount node = 0%nat ->
  lookup "exclusiveMinimum" (getValidationsFromSchema node) = None ->
  lookup "exclusiveMaximum" (getValidationsFromSchema node) = None ->
  (forall k v, lookup k (getValidationsFromSchema node) = Some v ->
               convertible v = true) ->
  Validations.Validations (getValidationsFromSchema node) hideExamples
  = Ok (Fragment [Null; Fragment []; Fragment [Null]]).
Proof.
  intros Hz Hmin Hmax Hconv.
  set (m := getValidationsFromSchema node) in *.
  assert (Hex : forall k, lookup k m <> None ->
                          includes excludedValidations k = true).
  { intros k Hk. apply includes_In.
    now apply (validationCount_zero_excluded node k). }
  assert (Hnum : Object_keys (numberBucket m) = []).
  { apply Object_keys_nil. intros k. rewrite lookup_numberBucket.
    destruct (includes numberValidationNames k) eqn:Hn; [|reflexivity].
    destruct (lookup k m) as [v|] eqn:Hk; [exfalso|reflexivity].
    assert (Hk' : lookup k m <> None) by congruence.
    apply Hex, includes_In in Hk'. cbn in Hk'.
    destruct Hk' as [<-|[<-|[<-|[<-|[]]]]]; try congruence; discriminate. }
  assert (Hbool : Object_keys (booleanBucket m) = []).
  { apply Object_keys_nil. intros k. rewrite lookup_booleanBucket.
    destruct (includes excludedValidations k) eqn:He; [reflexivity|].
    destruct (lookup k m) as [v|] eqn:Hk; [exfalso|reflexivity].
    assert (Hk' : lookup k m <> None) by congruence.
    apply Hex in Hk'. congruence. }
  assert (Hkeyed : Object_keys (keyValueBucket m hideExamples) = []).
  { apply Object_keys_nil. intros k. rewrite lookup_keyValueBucket.
    destruct (lookup k m) as [v|] eqn:Hk; [|now destruct (_ || _)].
    assert (Hk' : lookup k m <> None) by congruence.
    apply Hex in Hk'. rewrite Hk'.
    now rewrite orb_true_r. }
  rewrite Validations_spec, (proj2 (forallb_convertible m) Hconv).
  unfold NumberValidations, KeyValueValidations, NameValidations,
    Object_entries, keys.
  rewrite Hnum, Hbool, Hkeyed. reflexivity.
Qed.

End WithRuntime.

Lemma zero_count_renders_nothing_witness :
  validationCount Samples.readonly_node = 0%nat
  /\ lookup "exclusiveMinimum" (getValidationsFromSchema Samples.readonly_node)
     = None
  /\ lookup "exclusiveMaximum" (getValidationsFromSchema Samples.readonly_node)
     = None
  /\ (forall k v,
         lookup k (getValidationsFromSchema Samples.readonly_node) = Some v ->
         convertible v = true)
  /\ @Validations.Validations Samples.sample_runtime Samples.sample_prototype
       (getValidationsFromSchema Samples.readonly_node) false
     = Ok (Fragment [Null; Fragment []; Fragment [Null]]).
Proof.
  assert (Hconv : forall k v,
             lookup k (getValidationsFromSchema Samples.readonly_node) = Some v ->
             convertible v = true)
    by (apply convertible_bindings; reflexivity).
  split; [reflexivity|]. split; [reflexivity|]. split; [reflexivity|].
  split; [exact Hconv|].
  apply (@zero_count_renders_nothing Samples.sample_runtime
           Samples.sample_prototype Samples.readonly_node false);
    [reflexivity | reflexivity | reflexivity | exact Hconv].
Defined.

(** With only [exclusiveMinimum] declared the count is [0], yet the
    numeric block shows a badge. *)
Example exclusive_bound_is_shown_but_not_counted :
  validationCount
    {| enum := None; annotations := None; format := None;
       validations := [("exclusiveMinimum", JNum (Number_of_Z 5))] |}
  = 0%nat
  /\ @NumberValidations Samples.sample_runtime Samples.sample_prototype
       (@numberBucket [("exclusiveMinimum", JNum (Number_of_Z 5))])
     = Ok (Host "div" "sl-flex sl-my-2 sl-text-muted" []
             [@Value (Some "> 5") (Some "sl-mr-2")]).
Proof. vm_compute. auto. Qed.

End CountPresenterFacts.
